(** * ProofGate SDK: a shallow embedding of the validation client and of
    the example signer service.

    The development follows [proofgate/types.py], [proofgate/exceptions.py],
    [proofgate/client.py] and [examples/signer_service/main.py].

    - JSON values (what [response.json()] yields and what the [json=]
      argument of a request carries) are the inductive type [json]; a
      Python [dict] is a [gmap string json].
    - A Python [str] is a [string], each character standing for the code
      point of its number; the strings of the development are thus those
      whose code points lie below 256.
    - What lies outside the client, httpx and the transport behind it,
      is an oracle; a computation of the client is a function from that
      oracle to an outcome (a returned value or a raised exception) and
      the list of events it performed (session opened, request sent,
      session closed).
    - [async] methods are embedded as their synchronous reading: awaiting
      a transport call yields what the oracle answers. *)

From Stdlib Require Import ZArith QArith.
From stdpp Require Import base option list strings gmap pretty.

Local Open Scope string_scope.
Local Open Scope Z_scope.
Local Open Scope list_scope.

(** ** JSON values *)

#[warnings="-register-all"]
Inductive json : Type :=
| JNull
| JBool (b : bool)
| JInt (z : Z)
| JFloat (q : Q)
| JStr (s : string)
| JArr (l : list json)
| JObj (m : gmap string json).

(** Python truth value of a JSON-shaped object: [None], [False], zero,
    the empty string and empty containers are falsy. *)
Definition truthy (v : json) : bool :=
  match v with
  | JNull => false
  | JBool b => b
  | JInt z => negb (z =? 0)
  | JFloat q => negb (Qeq_bool q 0)
  | JStr s => negb (String.eqb s EmptyString)
  | JArr l => match l with [] => false | _ => true end
  | JObj m => match map_to_list m with [] => false | _ => true end
  end.

(** [a or b] *)
Definition py_or (a b : json) : json := if truthy a then a else b.

(** [type(v).__name__] *)
Definition type_name (v : json) : string :=
  match v with
  | JNull => "NoneType"
  | JBool _ => "bool"
  | JInt _ => "int"
  | JFloat _ => "float"
  | JStr _ => "str"
  | JArr _ => "list"
  | JObj _ => "dict"
  end.

(** ** Pydantic's scalar validators

    [model_validate] is pydantic's; what it does with a field is fixed by
    the field's declared type.  For [str], [Literal], [Optional], [List]
    and nested models the outcome on JSON-shaped input is determined by
    the declaration and is written out below.  For [bool], [int] and
    [float] pydantic also accepts some values of other types (its lax
    mode); those conversions belong to the library, so the three scalar
    validators are an interface, with the one law that a value of the
    declared type is accepted as it is. *)

Class Pydantic := {
  bool_validator : json -> option bool;
  int_validator : json -> option Z;
  float_validator : json -> option Q;
  bool_validator_bool : forall b, bool_validator (JBool b) = Some b;
  int_validator_int : forall z, int_validator (JInt z) = Some z;
  float_validator_float : forall q, float_validator (JFloat q) = Some q;
}.

(** The validators that accept exactly the declared type. *)
Definition strict_bool (v : json) : option bool :=
  match v with JBool b => Some b | _ => None end.
Definition strict_int (v : json) : option Z :=
  match v with JInt z => Some z | _ => None end.
Definition strict_float (v : json) : option Q :=
  match v with JFloat q => Some q | _ => None end.

Definition strict : Pydantic :=
  {| bool_validator := strict_bool;
     int_validator := strict_int;
     float_validator := strict_float;
     bool_validator_bool := fun _ => eq_refl;
     int_validator_int := fun _ => eq_refl;
     float_validator_float := fun _ => eq_refl |}.

Definition str_validator (v : json) : option string :=
  match v with JStr s => Some s | _ => None end.

(** [Optional[T]] *)
Definition optional_validator {A} (f : json -> option A) (v : json)
  : option (option A) :=
  match v with JNull => Some None | _ => Some <$> f v end.

(** [List[T]] *)
Definition list_validator {A} (f : json -> option A) (v : json)
  : option (list A) :=
  match v with JArr l => mapM f l | _ => None end.

(** Field lookup.  Every model with an alias sets [populate_by_name], so
    an aliased field is read under its alias and, failing that, under its
    own name. *)
Definition lookup_field (m : gmap string json) (alias name : string)
  : option json :=
  match m !! alias with
  | Some v => Some v
  | None => m !! name
  end.

(** A field declared with [Field(...)]: required. *)
Definition required {A} (m : gmap string json) (alias name : string)
    (f : json -> option A) : option A :=
  lookup_field m alias name ≫= f.

(** A field declared with a default: the default is used (unvalidated)
    when the key is absent. *)
Definition defaulted {A} (m : gmap string json) (alias name : string)
    (f : json -> option A) (d : A) : option A :=
  match lookup_field m alias name with
  | Some v => f v
  | None => Some d
  end.

(** ** [proofgate/types.py] *)

Module ProofGateConfig.
Record t := {
  api_key : string;
  base_url : string;
  chain_id : Z;
  guardrail_id : option string;
  timeout : Q;
}.

(** The model's constructor: an omitted keyword ([None] here) takes the
    default the field declares. *)
Definition new (api_key : string) (base_url : option string)
    (chain_id : option Z) (guardrail_id : option (option string))
    (timeout : option Q) : t :=
  {| api_key := api_key;
     base_url := default "https://www.proofgate.xyz/api" base_url;
     chain_id := default 8453 chain_id;
     guardrail_id := default None guardrail_id;
     timeout := default (30 # 1)%Q timeout |}.
End ProofGateConfig.

Module ValidateRequest.
Record t := {
  from_address : string;
  to : string;
  data : string;
  value : string;
  guardrail_id : option string;
  chain_id : option Z;
}.

Definition model_validate `{Pydantic} (v : json) : option t :=
  match v with
  | JObj m =>
      from_address ← required m "from" "from_address" str_validator;
      to ← required m "to" "to" str_validator;
      data ← required m "data" "data" str_validator;
      value ← defaulted m "value" "value" str_validator "0";
      guardrail_id ← defaulted m "guardrail_id" "guardrail_id"
                       (optional_validator str_validator) None;
      chain_id ← defaulted m "chain_id" "chain_id"
                   (optional_validator int_validator) None;
      Some {| from_address := from_address; to := to; data := data;
              value := value; guardrail_id := guardrail_id;
              chain_id := chain_id |}
  | _ => None
  end.
End ValidateRequest.

Inductive Severity := info | warning | critical.

Definition Severity_str (s : Severity) : string :=
  match s with info => "info" | warning => "warning" | critical => "critical" end.

Definition Severity_validator (v : json) : option Severity :=
  match v with
  | JStr s =>
      if String.eqb s "info" then Some info
      else if String.eqb s "warning" then Some warning
      else if String.eqb s "critical" then Some critical
      else None
  | _ => None
  end.

Module ValidationCheck.
Record t := {
  name : string;
  passed : bool;
  details : string;
  severity : Severity;
}.

Definition model_validate `{Pydantic} (v : json) : option t :=
  match v with
  | JObj m =>
      name ← required m "name" "name" str_validator;
      passed ← required m "passed" "passed" bool_validator;
      details ← required m "details" "details" str_validator;
      severity ← required m "severity" "severity" Severity_validator;
      Some {| name := name; passed := passed; details := details;
              severity := severity |}
  | _ => None
  end.
End ValidationCheck.

Inductive Verdict := PASS | FAIL | PENDING.

Definition Verdict_str (r : Verdict) : string :=
  match r with PASS => "PASS" | FAIL => "FAIL" | PENDING => "PENDING" end.

Definition Verdict_validator (v : json) : option Verdict :=
  match v with
  | JStr s =>
      if String.eqb s "PASS" then Some PASS
      else if String.eqb s "FAIL" then Some FAIL
      else if String.eqb s "PENDING" then Some PENDING
      else None
  | _ => None
  end.

Module ValidateResponse.
Record t := {
  validation_id : string;
  result : Verdict;
  reason : string;
  evidence_uri : string;
  safe : bool;
  checks : list ValidationCheck.t;
  chain_id : Z;
  authenticated : bool;
  tier : string;
  backend : string;
  on_chain_recorded : bool;
}.

Definition model_validate `{Pydantic} (v : json) : option t :=
  match v with
  | JObj m =>
      validation_id ← required m "validationId" "validation_id" str_validator;
      result ← required m "result" "result" Verdict_validator;
      reason ← required m "reason" "reason" str_validator;
      evidence_uri ← required m "evidenceUri" "evidence_uri" str_validator;
      safe ← required m "safe" "safe" bool_validator;
      checks ← defaulted m "checks" "checks"
                 (list_validator ValidationCheck.model_validate) [];
      chain_id ← required m "chainId" "chain_id" int_validator;
      authenticated ← defaulted m "authenticated" "authenticated"
                        bool_validator false;
      tier ← defaulted m "tier" "tier" str_validator "free";
      backend ← defaulted m "backend" "backend" str_validator "local";
      on_chain_recorded ← defaulted m "onChainRecorded" "on_chain_recorded"
                            bool_validator false;
      Some {| validation_id := validation_id; result := result;
              reason := reason; evidence_uri := evidence_uri; safe := safe;
              checks := checks; chain_id := chain_id;
              authenticated := authenticated; tier := tier;
              backend := backend; on_chain_recorded := on_chain_recorded |}
  | _ => None
  end.
End ValidateResponse.

Module AgentStats.
Record t := {
  total_validations : Z;
  passed_validations : Z;
  failed_validations : Z;
  pass_rate : Q;
}.

Definition model_validate `{Pydantic} (v : json) : option t :=
  match v with
  | JObj m =>
      total ← required m "totalValidations" "total_validations" int_validator;
      passed ← required m "passedValidations" "passed_validations" int_validator;
      failed ← required m "failedValidations" "failed_validations" int_validator;
      rate ← required m "passRate" "pass_rate" float_validator;
      Some {| total_validations := total; passed_validations := passed;
              failed_validations := failed; pass_rate := rate |}
  | _ => None
  end.
End AgentStats.

Module AgentRegistration.
Record t := {
  name : option string;
  registered_at : string;
}.

Definition model_validate (v : json) : option t :=
  match v with
  | JObj m =>
      name ← defaulted m "name" "name" (optional_validator str_validator) None;
      registered_at ← required m "registeredAt" "registered_at" str_validator;
      Some {| name := name; registered_at := registered_at |}
  | _ => None
  end.
End AgentRegistration.

Inductive VerificationStatus := verified | registered | unverified_status | unknown.

Definition VerificationStatus_validator (v : json) : option VerificationStatus :=
  match v with
  | JStr s =>
      if String.eqb s "verified" then Some verified
      else if String.eqb s "registered" then Some registered
      else if String.eqb s "unverified" then Some unverified_status
      else if String.eqb s "unknown" then Some unknown
      else None
  | _ => None
  end.

Inductive TrustTier := diamond | gold | silver | bronze | unverified_tier.

Definition TrustTier_validator (v : json) : option TrustTier :=
  match v with
  | JStr s =>
      if String.eqb s "diamond" then Some diamond
      else if String.eqb s "gold" then Some gold
      else if String.eqb s "silver" then Some silver
      else if String.eqb s "bronze" then Some bronze
      else if String.eqb s "unverified" then Some unverified_tier
      else None
  | _ => None
  end.

Module AgentCheckResponse.
Record t := {
  wallet : string;
  is_registered : bool;
  verification_status : VerificationStatus;
  verification_message : string;
  trust_score : Z;
  tier : TrustTier;
  tier_emoji : string;
  tier_name : string;
  stats : AgentStats.t;
  registration : option AgentRegistration.t;
  recommendation : string;
}.

Definition model_validate `{Pydantic} (v : json) : option t :=
  match v with
  | JObj m =>
      wallet ← required m "wallet" "wallet" str_validator;
      is_registered ← required m "isRegistered" "is_registered" bool_validator;
      status ← required m "verificationStatus" "verification_status"
                 VerificationStatus_validator;
      message ← required m "verificationMessage" "verification_message"
                  str_validator;
      trust_score ← required m "trustScore" "trust_score" int_validator;
      tier ← required m "tier" "tier" TrustTier_validator;
      tier_emoji ← required m "tierEmoji" "tier_emoji" str_validator;
      tier_name ← required m "tierName" "tier_name" str_validator;
      stats ← required m "stats" "stats" AgentStats.model_validate;
      registration ← defaulted m "registration" "registration"
                       (optional_validator AgentRegistration.model_validate)
                       None;
      recommendation ← required m "recommendation" "recommendation"
                         str_validator;
      Some {| wallet := wallet; is_registered := is_registered;
              verification_status := status; verification_message := message;
              trust_score := trust_score; tier := tier;
              tier_emoji := tier_emoji; tier_name := tier_name;
              stats := stats; registration := registration;
              recommendation := recommendation |}
  | _ => None
  end.
End AgentCheckResponse.

Module EvidenceTransaction.
Record t := {
  from_address : string;
  to : string;
  data : string;
  value : string;
}.

Definition model_validate (v : json) : option t :=
  match v with
  | JObj m =>
      from_address ← required m "from" "from_address" str_validator;
      to ← required m "to" "to" str_validator;
      data ← required m "data" "data" str_validator;
      value ← required m "value" "value" str_validator;
      Some {| from_address := from_address; to := to; data := data;
              value := value |}
  | _ => None
  end.
End EvidenceTransaction.

Module EvidenceResult.
Record t := {
  status : Verdict;
  reason : string;
  safe : bool;
}.

Definition model_validate `{Pydantic} (v : json) : option t :=
  match v with
  | JObj m =>
      status ← required m "status" "status" Verdict_validator;
      reason ← required m "reason" "reason" str_validator;
      safe ← required m "safe" "safe" bool_validator;
      Some {| status := status; reason := reason; safe := safe |}
  | _ => None
  end.
End EvidenceResult.

Module EvidenceAgent.
Record t := {
  wallet : string;
  name : option string;
  verified : bool;
}.

Definition model_validate `{Pydantic} (v : json) : option t :=
  match v with
  | JObj m =>
      wallet ← required m "wallet" "wallet" str_validator;
      name ← defaulted m "name" "name" (optional_validator str_validator) None;
      verified ← required m "verified" "verified" bool_validator;
      Some {| wallet := wallet; name := name; verified := verified |}
  | _ => None
  end.
End EvidenceAgent.

Module EvidenceProof.
Record t := {
  authenticated : bool;
  on_chain_recorded : bool;
  batch_id : option string;
  recorded_at : option string;
}.

Definition model_validate `{Pydantic} (v : json) : option t :=
  match v with
  | JObj m =>
      authenticated ← required m "authenticated" "authenticated"
                        bool_validator;
      recorded ← required m "onChainRecorded" "on_chain_recorded"
                   bool_validator;
      batch_id ← defaulted m "batchId" "batch_id"
                   (optional_validator str_validator) None;
      recorded_at ← defaulted m "recordedAt" "recorded_at"
                      (optional_validator str_validator) None;
      Some {| authenticated := authenticated; on_chain_recorded := recorded;
              batch_id := batch_id; recorded_at := recorded_at |}
  | _ => None
  end.
End EvidenceProof.

Module EvidenceResponse.
Record t := {
  validation_id : string;
  timestamp : string;
  chain_id : Z;
  transaction : EvidenceTransaction.t;
  result : EvidenceResult.t;
  guardrail_id : option string;
  agent : EvidenceAgent.t;
  proof : EvidenceProof.t;
}.

Definition model_validate `{Pydantic} (v : json) : option t :=
  match v with
  | JObj m =>
      validation_id ← required m "validationId" "validation_id" str_validator;
      timestamp ← required m "timestamp" "timestamp" str_validator;
      chain_id ← required m "chainId" "chain_id" int_validator;
      transaction ← required m "transaction" "transaction"
                      EvidenceTransaction.model_validate;
      result ← required m "result" "result" EvidenceResult.model_validate;
      guardrail_id ← defaulted m "guardrailId" "guardrail_id"
                       (optional_validator str_validator) None;
      agent ← required m "agent" "agent" EvidenceAgent.model_validate;
      proof ← required m "proof" "proof" EvidenceProof.model_validate;
      Some {| validation_id := validation_id; timestamp := timestamp;
              chain_id := chain_id; transaction := transaction;
              result := result; guardrail_id := guardrail_id;
              agent := agent; proof := proof |}
  | _ => None
  end.
End EvidenceResponse.

Module UsageResponse.
Record t := {
  wallet : string;
  tier : string;
  validations_used : Z;
  validations_limit : Z;
  daily_spent_wei : string;
}.

Definition model_validate `{Pydantic} (v : json) : option t :=
  match v with
  | JObj m =>
      wallet ← required m "wallet" "wallet" str_validator;
      tier ← required m "tier" "tier" str_validator;
      used ← required m "validations_used" "validations_used" int_validator;
      limit ← required m "validations_limit" "validations_limit" int_validator;
      spent ← required m "daily_spent_wei" "daily_spent_wei" str_validator;
      Some {| wallet := wallet; tier := tier; validations_used := used;
              validations_limit := limit; daily_spent_wei := spent |}
  | _ => None
  end.
End UsageResponse.

(** ** [proofgate/exceptions.py] *)

Module ProofGateError.
(** [message] is whatever object the raiser passes: [_request] passes a
    value taken from the response body, which need not be a string. *)
Record t := {
  message : json;
  code : string;
  status_code : option Z;
  validation_result : option ValidateResponse.t;
}.

Definition new (message : json) (code : string) (status_code : option Z)
    (validation_result : option ValidateResponse.t) : t :=
  {| message := message; code := code; status_code := status_code;
     validation_result := validation_result |}.

(** [f"[{self.code}] {self.message}"]; [fmt] is Python's [str] on the
    message object. *)
Definition __str__ (fmt : json -> string) (self : t) : string :=
  "[" +:+ code self +:+ "] " +:+ fmt (message self).
End ProofGateError.

(** ** Exceptions and outcomes *)

(** The concrete exception classes of httpx that a request can raise.
    All of them derive from [httpx.RequestError]; the first four derive
    from [httpx.TimeoutException]. *)
Inductive httpx_exception :=
| ConnectTimeout | ReadTimeout | WriteTimeout | PoolTimeout
| ConnectError | ReadError | WriteError | CloseError
| LocalProtocolError | RemoteProtocolError
| ProxyError | UnsupportedProtocol | DecodingError | TooManyRedirects.

Definition is_TimeoutException (c : httpx_exception) : bool :=
  match c with
  | ConnectTimeout | ReadTimeout | WriteTimeout | PoolTimeout => true
  | _ => false
  end.

Definition is_RequestError (c : httpx_exception) : bool := true.

Inductive exception :=
| ProofGateError_ (e : ProofGateError.t)
| HttpxError (c : httpx_exception) (msg : string)
| JSONDecodeError (msg : string)
| AttributeError (msg : string)
| TypeError (msg : string)
| ValidationError (model : string) (input : json)
| OtherError (cls msg : string).

(** Three exceptions of the libraries that the client neither raises
    itself nor catches.  [httpx.InvalidURL] derives from [Exception]
    directly, not from [httpx.RequestError]; the two codec errors derive
    from [ValueError]. *)
Definition InvalidURL (msg : string) : exception :=
  OtherError "InvalidURL" msg.

Definition UnicodeDecodeError (msg : string) : exception :=
  OtherError "UnicodeDecodeError" msg.

Definition UnicodeEncodeError (reason : string) : exception :=
  OtherError "UnicodeEncodeError" reason.

Inductive outcome (A : Type) :=
| Return (a : A)
| Raise (e : exception).
Arguments Return {A} a.
Arguments Raise {A} e.

(** ** The transport *)

(** The body of a response, as [response.json()] finds it: JSON text;
    text that is not JSON; or bytes that are not text in the encoding
    [json.loads] detects.  [err] is the message of the exception that
    [response.json()] then raises. *)
Inductive content :=
| Json (j : json)
| NotJson (err : string)
| NotText (err : string).

Module Response.
Record t := {
  status_code : Z;
  body : content;
}.

Definition is_success (r : t) : bool :=
  (200 <=? status_code r) && (status_code r <=? 299).
End Response.

Module Request.
Record t := {
  method : string;
  base_url : string;
  path : string;
  headers : gmap string string;
  timeout : Q;
  json_body : option json;
}.
End Request.

(** What becomes of a request handed to [client.request]: a response
    arrives; or the transport fails with one of the exceptions above; or
    httpx cannot build the URL of the request from the path and raises
    [httpx.InvalidURL] before anything is sent. *)
Inductive transport_outcome :=
| Responded (r : Response.t)
| Failed (c : httpx_exception) (msg : string)
| Refused (msg : string).

(** [s.isascii()] *)
Definition isascii_char (c : Ascii.ascii) : bool :=
  match c with Ascii.Ascii _ _ _ _ _ _ _ b7 => negb b7 end.

Fixpoint isascii (s : string) : bool :=
  match s with
  | EmptyString => true
  | String c s' => isascii_char c && isascii s'
  end.

(** [httpx.Headers(headers)] encodes every name and value with the
    [ascii] codec. *)
Definition headers_encodable (headers : gmap string string) : bool :=
  forallb (fun kv => isascii kv.1 && isascii kv.2) (map_to_list headers).

(** What lies outside the client: httpx and the transport behind it.
    [transport rq] is what becomes of the request [rq].
    [client_error base_url timeout headers] is the exception that
    [httpx.Client(base_url=..., timeout=..., headers=...)] raises
    ([httpx.InvalidURL] for a base URL that httpx cannot parse,
    [UnicodeEncodeError] for a header that is not ASCII, ...), [None]
    when it returns a session; [httpx.AsyncClient] raises alike.  Which
    arguments and which URLs httpx refuses is httpx's business; two
    things are fixed here: a header that the [ascii] codec cannot encode
    is refused, and the constant path [/validate] is not. *)
Record network := {
  transport :> Request.t -> transport_outcome;
  client_error : string -> Q -> gmap string string -> option exception;
  unencodable_headers_refused :
    forall base_url timeout headers,
      headers_encodable headers = false ->
      client_error base_url timeout headers <> None;
  validate_path_accepted :
    forall rq msg, Request.path rq = "/validate" -> transport rq <> Refused msg;
}.

Inductive client_kind := Client | AsyncClient.

(** An [httpx.Client] or [httpx.AsyncClient]. *)
Record session := {
  kind : client_kind;
  session_base_url : string;
  session_timeout : Q;
  session_headers : gmap string string;
}.

Inductive event :=
| Opened (s : session)
| Sent (rq : Request.t)
| Closed (s : session)
| Broadcast (raw : string).

(** ** Computations *)

Definition Py (A : Type) : Type := network -> outcome A * list event.

Definition run {A} (m : Py A) (net : network) : outcome A * list event := m net.

Definition ret {A} (a : A) : Py A := fun _ => (Return a, []).

Definition raise {A} (e : exception) : Py A := fun _ => (Raise e, []).

Definition bind {A B} (m : Py A) (k : A -> Py B) : Py B :=
  fun net =>
    match m net with
    | (Return a, tr) => let '(r, tr') := k a net in (r, tr ++ tr')
    | (Raise e, tr) => (Raise e, tr)
    end.

#[global] Instance Py_ret : MRet Py := @ret.
#[global] Instance Py_bind : MBind Py := fun A B k m => bind m k.

(** [try: m  except ...: h] where [h] re-raises what it does not handle. *)
Definition try_except {A} (m : Py A) (h : exception -> Py A) : Py A :=
  fun net =>
    match m net with
    | (Return a, tr) => (Return a, tr)
    | (Raise e, tr) => let '(r, tr') := h e net in (r, tr ++ tr')
    end.

(** [with ... : m] for a context manager whose [__exit__] runs [exit] and
    returns [None]: [exit] runs on both ways out and an exception of the
    body propagates. *)
Definition with_ {A} (m : Py A) (exit : Py unit) : Py A :=
  fun net =>
    let '(r, tr) := m net in
    match exit net with
    | (Return _, tr') => (r, tr ++ tr')
    | (Raise e, tr') => (Raise e, tr ++ tr')
    end.

(** [await m]: the caller's task is suspended until [m] completes. *)
Definition await {A} (m : Py A) : Py A := m.

(** *** httpx *)

(** [httpx.Client(base_url=..., timeout=..., headers=...)] and
    [httpx.AsyncClient(...)]: when the constructor raises, no session
    exists. *)
Definition httpx_new (k : client_kind) (base_url : string) (timeout : Q)
    (headers : gmap string string) : Py session :=
  fun net =>
    match client_error net base_url timeout headers with
    | Some e => (Raise e, [])
    | None =>
        let s := {| kind := k; session_base_url := base_url;
                    session_timeout := timeout; session_headers := headers |} in
        (Return s, [Opened s])
    end.

Definition httpx_close (s : session) : Py unit :=
  fun _ => (Return tt, [Closed s]).

Definition build_request (s : session) (method path : string)
    (json : option json) : Request.t :=
  {| Request.method := method;
     Request.base_url := session_base_url s;
     Request.path := path;
     Request.headers := session_headers s;
     Request.timeout := session_timeout s;
     Request.json_body := json |}.

(** [client.request(method, path, json=json)] *)
Definition httpx_request (s : session) (method path : string)
    (json : option json) : Py Response.t :=
  fun net =>
    let rq := build_request s method path json in
    match net rq with
    | Responded r => (Return r, [Sent rq])
    | Failed c msg => (Raise (HttpxError c msg), [Sent rq])
    | Refused msg => (Raise (InvalidURL msg), [])
    end.

(** [response.json()] *)
Definition Response_json (r : Response.t) : Py json :=
  match Response.body r with
  | Json j => ret j
  | NotJson err => raise (JSONDecodeError err)
  | NotText err => raise (UnicodeDecodeError err)
  end.

(** [data.get(key)] *)
Definition get (data : json) (key : string) : Py json :=
  match data with
  | JObj m => ret (default JNull (m !! key))
  | _ => raise (AttributeError
                  ("'" +:+ type_name data +:+ "' object has no attribute 'get'"))
  end.

(** [Model.model_validate(v)] *)
Definition model_validate {A} (model : string) (f : json -> option A)
    (v : json) : Py A :=
  match f v with
  | Some a => ret a
  | None => raise (ValidationError model v)
  end.

(** The one-character string holding a double quote. *)
Definition dquote : string := String (Ascii.ascii_of_nat 34) EmptyString.

(** An [Optional[T]] attribute as the object it is. *)
Definition of_optional {A} (f : A -> json) (o : option A) : json :=
  match o with Some a => f a | None => JNull end.

(** ** [proofgate/client.py]

    Arguments of [validate] are embedded as the objects the caller passes
    (the annotations are not enforced at run time): a [str] is a [JStr],
    an [int] a [JInt], [None] is [JNull].  A keyword with a default that
    differs from [None] is an [option], [None] meaning that the caller
    left it out. *)

Module AsyncProofGate.
Record t := {
  config : ProofGateConfig.t;
  _client : session;
}.

Definition __init__ (api_key : string) (base_url : option string)
    (chain_id : option Z) (guardrail_id : option string)
    (timeout : option Q) : Py t :=
  let base_url := default "https://www.proofgate.xyz/api" base_url in
  let chain_id := default 56 chain_id in
  let timeout := default (30 # 1)%Q timeout in
  if String.eqb api_key EmptyString then
    raise (ProofGateError_ (ProofGateError.new
      (JStr "API key is required. Get one at https://www.proofgate.xyz/dashboard")
      "MISSING_API_KEY" None None))
  else if negb (String.prefix "pg_" api_key) then
    raise (ProofGateError_ (ProofGateError.new
      (JStr ("Invalid API key format. Keys start with " +:+ dquote +:+ "pg_" +:+ dquote))
      "INVALID_API_KEY" None None))
  else
    let config := ProofGateConfig.new api_key (Some base_url) (Some chain_id)
                    (Some guardrail_id) (Some timeout) in
    _client ← httpx_new AsyncClient base_url timeout
                {[ "Content-Type" := "application/json";
                   "X-API-Key" := api_key ]};
    mret {| config := config; _client := _client |}.

Definition close (self : t) : Py unit :=
  await (httpx_close (_client self)).

Definition __aenter__ (self : t) : Py t := mret self.

Definition __aexit__ (self : t) : Py unit := await (close self).

Definition _request (self : t) (method path : string)
    (json' : option json) : Py json :=
  try_except
    (response ← await (httpx_request (_client self) method path json');
     data ← Response_json response;
     if negb (Response.is_success response) then
       error ← get data "error";
       message ← (if truthy error then mret error else
                  message ← get data "message";
                  mret (py_or message
                          (JStr ("HTTP " +:+ pretty (Response.status_code response)))));
       raise (ProofGateError_ (ProofGateError.new message "API_ERROR"
                                 (Some (Response.status_code response)) None))
     else mret data)
    (fun e =>
       match e with
       | HttpxError c msg =>
           if is_TimeoutException c then
             raise (ProofGateError_ (ProofGateError.new
                      (JStr "Request timeout") "TIMEOUT" None None))
           else if is_RequestError c then
             raise (ProofGateError_ (ProofGateError.new
                      (JStr msg) "NETWORK_ERROR" None None))
           else raise e
       | _ => raise e
       end).

Section methods.
Context `{Pydantic}.

Definition validate (self : t) (from_address to data : json)
    (value : option json) (guardrail_id chain_id : json)
    : Py ValidateResponse.t :=
  let value := default (JStr "0") value in
  response ← await (_request self "POST" "/validate" (Some (JObj
                {[ "from" := from_address;
                   "to" := to;
                   "data" := data;
                   "value" := value;
                   "guardrailId" :=
                     py_or guardrail_id
                       (of_optional JStr (ProofGateConfig.guardrail_id (config self)));
                   "chainId" :=
                     py_or chain_id
                       (JInt (ProofGateConfig.chain_id (config self))) ]})));
  model_validate "ValidateResponse" ValidateResponse.model_validate response.

Definition validate_or_throw (self : t) (from_address to data : json)
    (value : option json) (guardrail_id chain_id : json)
    : Py ValidateResponse.t :=
  let value := default (JStr "0") value in
  result ← await (validate self from_address to data (Some value) guardrail_id chain_id);
  if negb (ValidateResponse.safe result) then
    raise (ProofGateError_ (ProofGateError.new
             (JStr (ValidateResponse.reason result)) "VALIDATION_FAILED"
             None (Some result)))
  else mret result.

Definition check_agent (self : t) (wallet : string)
    : Py AgentCheckResponse.t :=
  response ← await (_request self "GET" ("/agents/check?wallet=" +:+ wallet) None);
  model_validate "AgentCheckResponse" AgentCheckResponse.model_validate
    response.

Definition get_evidence (self : t) (validation_id : string)
    : Py EvidenceResponse.t :=
  response ← await (_request self "GET" ("/evidence/" +:+ validation_id) None);
  model_validate "EvidenceResponse" EvidenceResponse.model_validate
    response.

Definition get_usage (self : t) (wallet : string) : Py UsageResponse.t :=
  response ← await (_request self "GET" ("/validate?wallet=" +:+ wallet) None);
  model_validate "UsageResponse" UsageResponse.model_validate response.
End methods.
End AsyncProofGate.

Module ProofGate.
Record t := {
  config : ProofGateConfig.t;
  _client : session;
}.

Definition __init__ (api_key : string) (base_url : option string)
    (chain_id : option Z) (guardrail_id : option string)
    (timeout : option Q) : Py t :=
  let base_url := default "https://www.proofgate.xyz/api" base_url in
  let chain_id := default 56 chain_id in
  let timeout := default (30 # 1)%Q timeout in
  if String.eqb api_key EmptyString then
    raise (ProofGateError_ (ProofGateError.new
      (JStr "API key is required. Get one at https://www.proofgate.xyz/dashboard")
      "MISSING_API_KEY" None None))
  else if negb (String.prefix "pg_" api_key) then
    raise (ProofGateError_ (ProofGateError.new
      (JStr ("Invalid API key format. Keys start with " +:+ dquote +:+ "pg_" +:+ dquote))
      "INVALID_API_KEY" None None))
  else
    let config := ProofGateConfig.new api_key (Some base_url) (Some chain_id)
                    (Some guardrail_id) (Some timeout) in
    _client ← httpx_new Client base_url timeout
                {[ "Content-Type" := "application/json";
                   "X-API-Key" := api_key ]};
    mret {| config := config; _client := _client |}.

Definition close (self : t) : Py unit :=
  httpx_close (_client self).

Definition __enter__ (self : t) : Py t := mret self.

Definition __exit__ (self : t) : Py unit := close self.

Definition _request (self : t) (method path : string)
    (json' : option json) : Py json :=
  try_except
    (response ← httpx_request (_client self) method path json';
     data ← Response_json response;
     if negb (Response.is_success response) then
       error ← get data "error";
       message ← (if truthy error then mret error else
                  message ← get data "message";
                  mret (py_or message
                          (JStr ("HTTP " +:+ pretty (Response.status_code response)))));
       raise (ProofGateError_ (ProofGateError.new message "API_ERROR"
                                 (Some (Response.status_code response)) None))
     else mret data)
    (fun e =>
       match e with
       | HttpxError c msg =>
           if is_TimeoutException c then
             raise (ProofGateError_ (ProofGateError.new
                      (JStr "Request timeout") "TIMEOUT" None None))
           else if is_RequestError c then
             raise (ProofGateError_ (ProofGateError.new
                      (JStr msg) "NETWORK_ERROR" None None))
           else raise e
       | _ => raise e
       end).

Section methods.
Context `{Pydantic}.

Definition validate (self : t) (from_address to data : json)
    (value : option json) (guardrail_id chain_id : json)
    : Py ValidateResponse.t :=
  let value := default (JStr "0") value in
  response ← _request self "POST" "/validate" (Some (JObj
                {[ "from" := from_address;
                   "to" := to;
                   "data" := data;
                   "value" := value;
                   "guardrailId" :=
                     py_or guardrail_id
                       (of_optional JStr (ProofGateConfig.guardrail_id (config self)));
                   "chainId" :=
                     py_or chain_id
                       (JInt (ProofGateConfig.chain_id (config self))) ]}));
  model_validate "ValidateResponse" ValidateResponse.model_validate response.

Definition validate_or_throw (self : t) (from_address to data : json)
    (value : option json) (guardrail_id chain_id : json)
    : Py ValidateResponse.t :=
  let value := default (JStr "0") value in
  result ← validate self from_address to data (Some value) guardrail_id chain_id;
  if negb (ValidateResponse.safe result) then
    raise (ProofGateError_ (ProofGateError.new
             (JStr (ValidateResponse.reason result)) "VALIDATION_FAILED"
             None (Some result)))
  else mret result.

Definition check_agent (self : t) (wallet : string)
    : Py AgentCheckResponse.t :=
  response ← _request self "GET" ("/agents/check?wallet=" +:+ wallet) None;
  model_validate "AgentCheckResponse" AgentCheckResponse.model_validate
    response.

Definition get_evidence (self : t) (validation_id : string)
    : Py EvidenceResponse.t :=
  response ← _request self "GET" ("/evidence/" +:+ validation_id) None;
  model_validate "EvidenceResponse" EvidenceResponse.model_validate
    response.

Definition get_usage (self : t) (wallet : string) : Py UsageResponse.t :=
  response ← _request self "GET" ("/validate?wallet=" +:+ wallet) None;
  model_validate "UsageResponse" UsageResponse.model_validate response.
End methods.
End ProofGate.

Section helper.
Context `{Pydantic}.

Definition is_transaction_safe (api_key : string)
    (from_address to data : json) (value : option json) : Py bool :=
  let value := default (JStr "0") value in
  manager ← ProofGate.__init__ api_key None None None None;
  pg ← ProofGate.__enter__ manager;
  with_
    (result ← ProofGate.validate pg from_address to data (Some value)
                JNull JNull;
     mret (ValidateResponse.safe result))
    (ProofGate.__exit__ manager).
End helper.

(** ** [examples/signer_service/main.py] *)

(** What a handler hands to [jsonify]: JSON-shaped objects, lists and
    dicts of such, and instances of the pydantic model [ValidationCheck]
    (the elements of [validation.checks]). *)
#[warnings="-register-all"]
Inductive pyobj :=
| PJson (j : json)
| PList (l : list pyobj)
| PDict (kv : list (string * pyobj))
| PValidationCheck (c : ValidationCheck.t).

(** Flask's JSON provider serialises [None], booleans, numbers, strings,
    lists and dicts; its [default] hook further accepts dates, decimals,
    UUIDs, dataclasses and objects with [__html__], and raises [TypeError]
    for an object of any other class.  A pydantic model is of another
    class. *)
Fixpoint dumps (o : pyobj) : outcome json :=
  match o with
  | PJson j => Return j
  | PList l =>
      (fix go (l : list pyobj) (acc : list json) : outcome json :=
         match l with
         | [] => Return (JArr (rev acc))
         | x :: l' =>
             match dumps x with
             | Return j => go l' (j :: acc)
             | Raise e => Raise e
             end
         end) l []
  | PDict kv =>
      (fix go (kv : list (string * pyobj)) (acc : gmap string json)
         : outcome json :=
         match kv with
         | [] => Return (JObj acc)
         | (k, x) :: kv' =>
             match dumps x with
             | Return j => go kv' (<[k := j]> acc)
             | Raise e => Raise e
             end
         end) kv ∅
  | PValidationCheck _ =>
      Raise (TypeError "Object of type ValidationCheck is not JSON serializable")
  end.

Module FlaskResponse.
Record t := {
  status : Z;
  payload : json;
}.
End FlaskResponse.

Definition lift {A} (o : outcome A) : Py A := fun _ => (o, []).

(** [jsonify(o), status] *)
Definition jsonify (o : pyobj) (status : Z) : Py FlaskResponse.t :=
  j ← lift (dumps o);
  mret {| FlaskResponse.status := status; FlaskResponse.payload := j |}.

(** [data.get(key, d)] *)
Definition get_default (data : json) (key : string) (d : json) : Py json :=
  match data with
  | JObj m => mret (default d (m !! key))
  | _ => raise (AttributeError
                  ("'" +:+ type_name data +:+ "' object has no attribute 'get'"))
  end.

(** [v[:20]], evaluated for the log line only. *)
Definition slice_prefix (v : json) : Py unit :=
  match v with
  | JStr _ | JArr _ => mret tt
  | JObj _ => raise (TypeError "unhashable type: 'slice'")
  | _ => raise (TypeError
                  ("'" +:+ type_name v +:+ "' object is not subscriptable"))
  end.

(** [v != "0"] *)
Definition ne_zero_str (v : json) : bool :=
  match v with
  | JStr s => negb (String.eqb s "0")
  | _ => true
  end.

Section signer_service.
Context `{Pydantic}.

(** Module-level state: the client built from [PROOFGATE_API_KEY] with
    [chain_id=8453], and the account derived from [PRIVATE_KEY]. *)
Variable proofgate : ProofGate.t.
Variable account_address : string.

(** The chain node and the wallet library. *)
Variable to_checksum_address : json -> outcome string.
Variable to_wei_ether : json -> outcome Z.
Variable gas_price : outcome Z.
Variable get_transaction_count : string -> outcome Z.
Variable sign_transaction : json -> outcome string.
Variable send_raw_transaction : string -> outcome string.

(** [str] of the interpreter and of the libraries, on objects other
    than strings and on pydantic's validation errors. *)
Variable py_repr : json -> string.
Variable validation_error_text : string -> json -> string.

Definition py_str (v : json) : string :=
  match v with JStr s => s | _ => py_repr v end.

(** [str(e)] *)
Definition str_exception (e : exception) : string :=
  match e with
  | ProofGateError_ pe => ProofGateError.__str__ py_str pe
  | HttpxError _ msg => msg
  | JSONDecodeError msg => msg
  | AttributeError msg => msg
  | TypeError msg => msg
  | ValidationError model input => validation_error_text model input
  | OtherError _ msg => msg
  end.

Definition broadcast (raw : string) : Py string :=
  fun _ => (send_raw_transaction raw, [Broadcast raw]).

Definition validation_summary (validation : ValidateResponse.t) : pyobj :=
  PDict [("result", PJson (JStr (Verdict_str (ValidateResponse.result validation))));
         ("reason", PJson (JStr (ValidateResponse.reason validation)));
         ("checks", PList (PValidationCheck <$> ValidateResponse.checks validation))].

Definition execute (request_json : json) : Py FlaskResponse.t :=
  let data := request_json in
  to_address ← get data "to";
  tx_data ← get_default data "data" (JStr "0x");
  value ← get_default data "value" (JStr "0");
  guardrail_id ← get data "guardrailId";
  _ ← slice_prefix tx_data;
  try_except
    (validation ← ProofGate.validate proofgate (JStr account_address)
                    to_address tx_data (Some value) guardrail_id JNull;
     if negb (ValidateResponse.safe validation) then
       jsonify (PDict
         [("success", PJson (JBool false));
          ("error", PJson (JStr ("Transaction blocked by ProofGate: "
                                 +:+ ValidateResponse.reason validation)));
          ("validation", validation_summary validation)]) 400
     else
       to ← lift (to_checksum_address to_address);
       wei ← (if ne_zero_str value then lift (to_wei_ether value)
              else mret 0);
       price ← lift gas_price;
       nonce ← lift (get_transaction_count account_address);
       let tx := JObj {[ "to" := JStr to;
                         "data" := tx_data;
                         "value" := JInt wei;
                         "gas" := JInt 200000;
                         "gasPrice" := JInt price;
                         "nonce" := JInt nonce;
                         "chainId" := JInt 8453 ]} in
       signed_tx ← lift (sign_transaction tx);
       tx_hash_hex ← broadcast signed_tx;
       jsonify (PDict
         [("success", PJson (JBool true));
          ("txHash", PJson (JStr tx_hash_hex));
          ("validation", validation_summary validation)]) 200)
    (fun e =>
       jsonify (PDict
         [("success", PJson (JBool false));
          ("error", PJson (JStr (str_exception e)))]) 500).
End signer_service.

(** [GET /address] *)
Definition get_address (account_address : string) : Py FlaskResponse.t :=
  jsonify (PDict [("address", PJson (JStr account_address))]) 200.

(** [GET /health] *)
Definition health (account_address : string) : Py FlaskResponse.t :=
  jsonify (PDict [("status", PJson (JStr "healthy"));
                  ("address", PJson (JStr account_address));
                  ("chain", PJson (JStr "base"))]) 200.

(** The module level of the service: what importing [main.py] sets up
    from the environment. *)
Module Service.
Record t := {
  PORT : Z;
  RPC_URL : string;
  proofgate : ProofGate.t;
  account_address : string;
}.
End Service.

(** [not os.environ.get(key)] *)
Definition env_unset (o : option string) : bool :=
  match o with
  | None => true
  | Some s => String.eqb s EmptyString
  end.

Section signer_startup.
(** [int] on a string of the environment, and the address of
    [Account.from_key]. *)
Variable py_int : string -> outcome Z.
Variable from_key : string -> outcome string.

Definition startup (environ : gmap string string) : Py Service.t :=
  PORT ← match environ !! "PORT" with
         | Some s => lift (py_int s)
         | None => mret 3000
         end;
  let PRIVATE_KEY := environ !! "PRIVATE_KEY" in
  let PROOFGATE_API_KEY := environ !! "PROOFGATE_API_KEY" in
  let RPC_URL := default "https://mainnet.base.org" (environ !! "RPC_URL") in
  if env_unset PRIVATE_KEY then
    raise (OtherError "ValueError" "PRIVATE_KEY environment variable required")
  else if env_unset PROOFGATE_API_KEY then
    raise (OtherError "ValueError"
             "PROOFGATE_API_KEY environment variable required")
  else
    proofgate ← ProofGate.__init__ (default EmptyString PROOFGATE_API_KEY)
                  None (Some 8453) None None;
    account_address ← lift (from_key (default EmptyString PRIVATE_KEY));
    mret {| Service.PORT := PORT; Service.RPC_URL := RPC_URL;
            Service.proofgate := proofgate;
            Service.account_address := account_address |}.
End signer_startup.

(** * Vocabulary of the statements *)

(** ** How a transport outcome surfaces

    [surface reply] is what [_request] yields when the request meets
    [reply], and [sent reply rq] the events of that; both clients are
    shown to compute them. *)

Definition api_error (status : Z) (m : gmap string json) : ProofGateError.t :=
  let error := default JNull (m !! "error") in
  let message := default JNull (m !! "message") in
  ProofGateError.new
    (if truthy error then error
     else if truthy message then message
     else JStr ("HTTP " +:+ pretty status))
    "API_ERROR" (Some status) None.

Definition surface (reply : transport_outcome) : outcome json :=
  match reply with
  | Failed c msg =>
      if is_TimeoutException c then
        Raise (ProofGateError_ (ProofGateError.new (JStr "Request timeout")
                                  "TIMEOUT" None None))
      else
        Raise (ProofGateError_ (ProofGateError.new (JStr msg)
                                  "NETWORK_ERROR" None None))
  | Refused msg => Raise (InvalidURL msg)
  | Responded r =>
      match Response.body r with
      | NotJson err => Raise (JSONDecodeError err)
      | NotText err => Raise (UnicodeDecodeError err)
      | Json data =>
          if Response.is_success r then Return data
          else
            match data with
            | JObj m => Raise (ProofGateError_
                                 (api_error (Response.status_code r) m))
            | _ => Raise (AttributeError
                            ("'" +:+ type_name data
                             +:+ "' object has no attribute 'get'"))
            end
      end
  end.

Definition sent (reply : transport_outcome) (rq : Request.t) : list event :=
  match reply with
  | Refused _ => []
  | _ => [Sent rq]
  end.

(** A decoder applied to what [_request] returned. *)
Definition decoded {A} (model : string) (f : json -> option A)
    (o : outcome json) : outcome A :=
  match o with
  | Return data =>
      match f data with
      | Some a => Return a
      | None => Raise (ValidationError model data)
      end
  | Raise e => Raise e
  end.

(** The body of the request that [validate] sends. *)
Definition validate_payload (cfg : ProofGateConfig.t)
    (from_address to data : json) (value : option json)
    (guardrail_id chain_id : json) : json :=
  JObj {[ "from" := from_address;
          "to" := to;
          "data" := data;
          "value" := default (JStr "0") value;
          "guardrailId" :=
            (if truthy guardrail_id then guardrail_id
             else of_optional JStr (ProofGateConfig.guardrail_id cfg));
          "chainId" :=
            (if truthy chain_id then chain_id
             else JInt (ProofGateConfig.chain_id cfg)) ]}.

(** The error [validate_or_throw] raises for an unsafe verdict. *)
Definition validation_failed (r : ValidateResponse.t) : exception :=
  ProofGateError_
    {| ProofGateError.message := JStr (ValidateResponse.reason r);
       ProofGateError.code := "VALIDATION_FAILED";
       ProofGateError.status_code := None;
       ProofGateError.validation_result := Some r |}.

(** What [validate_or_throw] makes of the outcome of [validate]. *)
Definition enforced (o : outcome ValidateResponse.t)
  : outcome ValidateResponse.t :=
  match o with
  | Return r => if ValidateResponse.safe r then Return r
                else Raise (validation_failed r)
  | Raise e => Raise e
  end.

(** ** Concrete clients and servers for the examples *)

(** [ProofGate(api_key="pg_test")] and [AsyncProofGate(api_key="pg_test")]. *)
Definition demo_config : ProofGateConfig.t :=
  {| ProofGateConfig.api_key := "pg_test";
     ProofGateConfig.base_url := "https://www.proofgate.xyz/api";
     ProofGateConfig.chain_id := 56;
     ProofGateConfig.guardrail_id := None;
     ProofGateConfig.timeout := (30 # 1)%Q |}.

Definition demo_session (k : client_kind) : session :=
  {| kind := k;
     session_base_url := "https://www.proofgate.xyz/api";
     session_timeout := (30 # 1)%Q;
     session_headers := {[ "Content-Type" := "application/json";
                           "X-API-Key" := "pg_test" ]} |}.

Definition demo_sync : ProofGate.t :=
  {| ProofGate.config := demo_config;
     ProofGate._client := demo_session Client |}.

Definition demo_async : AsyncProofGate.t :=
  {| AsyncProofGate.config := demo_config;
     AsyncProofGate._client := demo_session AsyncClient |}.

(** What httpx makes of headers, everything else being accepted. *)
Definition encoding_error (headers : gmap string string) : option exception :=
  if headers_encodable headers then None
  else Some (UnicodeEncodeError "ordinal not in range(128)").

(** A server that answers every request with the same status and body,
    behind an httpx that accepts every URL. *)
Definition always (status : Z) (body : content) : network :=
  {| transport := fun _ => Responded {| Response.status_code := status;
                                        Response.body := body |};
     client_error := fun _ _ headers => encoding_error headers;
     unencodable_headers_refused := fun _ _ _ Hheaders =>
       ltac:(unfold encoding_error; rewrite Hheaders; discriminate);
     validate_path_accepted := fun _ _ _ => ltac:(discriminate) |}.

(** A transport that fails every request with the same exception. *)
Definition failing (c : httpx_exception) (msg : string) : network :=
  {| transport := fun _ => Failed c msg;
     client_error := fun _ _ headers => encoding_error headers;
     unencodable_headers_refused := fun _ _ _ Hheaders =>
       ltac:(unfold encoding_error; rewrite Hheaders; discriminate);
     validate_path_accepted := fun _ _ _ => ltac:(discriminate) |}.

(** [c.isascii() and not c.isprintable()]: the control characters. *)
Definition control_char (c : Ascii.ascii) : bool :=
  N.ltb (Ascii.N_of_ascii c) 32 || N.eqb (Ascii.N_of_ascii c) 127.

Fixpoint has_control_char (s : string) : bool :=
  match s with
  | EmptyString => false
  | String c s' => control_char c || has_control_char s'
  end.

(** The same server behind an httpx that refuses a URL holding a control
    character. *)
Definition always_behind_url_check (status : Z) (body : content) : network :=
  {| transport := fun rq =>
       if has_control_char (Request.path rq) then
         Refused "Invalid non-printable ASCII character in URL"
       else Responded {| Response.status_code := status;
                         Response.body := body |};
     client_error := fun base_url _ headers =>
       if has_control_char base_url then
         Some (InvalidURL "Invalid non-printable ASCII character in URL")
       else encoding_error headers;
     unencodable_headers_refused := fun base_url _ _ Hheaders =>
       ltac:(unfold encoding_error; rewrite Hheaders;
             destruct (has_control_char base_url); discriminate);
     validate_path_accepted := fun rq msg Hpath =>
       ltac:(cbv beta; rewrite Hpath; cbn; discriminate) |}.


(** A key with the prefix and a character outside ASCII: [pg_] followed
    by the character of code point 233. *)
Definition latin_key : string :=
  "pg_" +:+ String (Ascii.ascii_of_nat 233) EmptyString.

(** The rejected transfer of the end-to-end example. *)
Definition daily_limit_check : ValidationCheck.t :=
  {| ValidationCheck.name := "daily_limit";
     ValidationCheck.passed := false;
     ValidationCheck.details := "...";
     ValidationCheck.severity := critical |}.

Definition rejected_body : json :=
  JObj {[ "validationId" := JStr "val_1";
          "result" := JStr "FAIL";
          "reason" := JStr "exceeds daily limit";
          "safe" := JBool false;
          "checks" := JArr [JObj {[ "name" := JStr "daily_limit";
                                    "passed" := JBool false;
                                    "details" := JStr "...";
                                    "severity" := JStr "critical" ]}];
          "evidenceUri" := JStr "...";
          "chainId" := JInt 8453 ]}.

Definition rejected : ValidateResponse.t :=
  {| ValidateResponse.validation_id := "val_1";
     ValidateResponse.result := FAIL;
     ValidateResponse.reason := "exceeds daily limit";
     ValidateResponse.evidence_uri := "...";
     ValidateResponse.safe := false;
     ValidateResponse.checks := [daily_limit_check];
     ValidateResponse.chain_id := 8453;
     ValidateResponse.authenticated := false;
     ValidateResponse.tier := "free";
     ValidateResponse.backend := "local";
     ValidateResponse.on_chain_recorded := false |}.

Definition transfer_from : json := JStr "0xA".
Definition transfer_to : json := JStr "0xB".
Definition transfer_data : json := JStr "0xa9059cbb".

(** ** A response object agreeing with a body

    [check_matches j c]: the JSON object [j] carries, under the keys of
    the schema, the fields of the check [c].  [verdict_matches m r]: the
    body [m] carries the [safe], [result], [reason] and [checks] of the
    response [r], each under its own key. *)

Definition check_matches `{Pydantic} (j : json) (c : ValidationCheck.t) : Prop :=
  exists m, j = JObj m /\
    m !! "name" = Some (JStr (ValidationCheck.name c)) /\
    m !! "passed" ≫= bool_validator = Some (ValidationCheck.passed c) /\
    m !! "details" = Some (JStr (ValidationCheck.details c)) /\
    m !! "severity" = Some (JStr (Severity_str (ValidationCheck.severity c))).

Definition verdict_matches `{Pydantic} (m : gmap string json)
    (r : ValidateResponse.t) : Prop :=
  m !! "safe" ≫= bool_validator = Some (ValidateResponse.safe r) /\
  m !! "result" = Some (JStr (Verdict_str (ValidateResponse.result r))) /\
  m !! "reason" = Some (JStr (ValidateResponse.reason r)) /\
  match m !! "checks" with
  | None => ValidateResponse.checks r = []
  | Some v => exists l, v = JArr l /\
                Forall2 check_matches l (ValidateResponse.checks r)
  end.

(** ** What the constructors build *)

Definition missing_api_key : exception :=
  ProofGateError_
    {| ProofGateError.message :=
         JStr "API key is required. Get one at https://www.proofgate.xyz/dashboard";
       ProofGateError.code := "MISSING_API_KEY";
       ProofGateError.status_code := None;
       ProofGateError.validation_result := None |}.

Definition invalid_api_key : exception :=
  ProofGateError_
    {| ProofGateError.message :=
         JStr ("Invalid API key format. Keys start with "
               +:+ dquote +:+ "pg_" +:+ dquote);
       ProofGateError.code := "INVALID_API_KEY";
       ProofGateError.status_code := None;
       ProofGateError.validation_result := None |}.

Definition built_config (api_key : string) (base_url : option string)
    (chain_id : option Z) (guardrail_id : option string)
    (timeout : option Q) : ProofGateConfig.t :=
  {| ProofGateConfig.api_key := api_key;
     ProofGateConfig.base_url := default "https://www.proofgate.xyz/api" base_url;
     ProofGateConfig.chain_id := default 56 chain_id;
     ProofGateConfig.guardrail_id := guardrail_id;
     ProofGateConfig.timeout := default (30 # 1)%Q timeout |}.

Definition built_session (k : client_kind) (api_key : string)
    (base_url : option string) (timeout : option Q) : session :=
  {| kind := k;
     session_base_url := default "https://www.proofgate.xyz/api" base_url;
     session_timeout := default (30 # 1)%Q timeout;
     session_headers := {[ "Content-Type" := "application/json";
                           "X-API-Key" := api_key ]} |}.

(** What httpx makes of the arguments the constructors hand to it: the
    exception [httpx.Client] and [httpx.AsyncClient] raise for them,
    [None] when they return a session. *)
Definition httpx_rejects (net : network) (api_key : string)
    (base_url : option string) (timeout : option Q) : option exception :=
  client_error net (default "https://www.proofgate.xyz/api" base_url)
    (default (30 # 1)%Q timeout)
    {[ "Content-Type" := "application/json"; "X-API-Key" := api_key ]}.

(** A base URL that ends with a line feed. *)
Definition bad_base_url : string :=
  "https://www.proofgate.xyz/api" +:+ String (Ascii.ascii_of_nat 10) EmptyString.

(** ** Clients set up alike

    An asynchronous and a synchronous client hold the same configuration
    and their sessions have the same base URL, timeout and headers; the
    sessions differ in kind only. *)
Definition same_setup (a : AsyncProofGate.t) (s : ProofGate.t) : Prop :=
  AsyncProofGate.config a = ProofGate.config s /\
  session_base_url (AsyncProofGate._client a)
    = session_base_url (ProofGate._client s) /\
  session_timeout (AsyncProofGate._client a)
    = session_timeout (ProofGate._client s) /\
  session_headers (AsyncProofGate._client a)
    = session_headers (ProofGate._client s).

(** ** Calls of the client methods

    A [call] names a method of a client together with its arguments;
    [perform_sync] and [perform_async] run it on a client and forget the
    returned object, so that statements about what a method sends and
    raises can range over every method at once.  [request_of] is the
    request a call is expected to send. *)

Inductive call :=
| Call_request (method path : string) (j : option json)
| Call_validate (f t d : json) (v : option json) (g c : json)
| Call_validate_or_throw (f t d : json) (v : option json) (g c : json)
| Call_check_agent (wallet : string)
| Call_get_evidence (validation_id : string)
| Call_get_usage (wallet : string).

Definition discard {A} (m : Py A) : Py unit := m ≫= (fun _ => mret tt).

Definition perform_sync `{Pydantic} (self : ProofGate.t) (c : call) : Py unit :=
  match c with
  | Call_request method path j => discard (ProofGate._request self method path j)
  | Call_validate f t d v g c => discard (ProofGate.validate self f t d v g c)
  | Call_validate_or_throw f t d v g c =>
      discard (ProofGate.validate_or_throw self f t d v g c)
  | Call_check_agent wallet => discard (ProofGate.check_agent self wallet)
  | Call_get_evidence id => discard (ProofGate.get_evidence self id)
  | Call_get_usage wallet => discard (ProofGate.get_usage self wallet)
  end.

Definition perform_async `{Pydantic} (self : AsyncProofGate.t) (c : call)
  : Py unit :=
  match c with
  | Call_request method path j =>
      discard (AsyncProofGate._request self method path j)
  | Call_validate f t d v g c =>
      discard (AsyncProofGate.validate self f t d v g c)
  | Call_validate_or_throw f t d v g c =>
      discard (AsyncProofGate.validate_or_throw self f t d v g c)
  | Call_check_agent wallet => discard (AsyncProofGate.check_agent self wallet)
  | Call_get_evidence id => discard (AsyncProofGate.get_evidence self id)
  | Call_get_usage wallet => discard (AsyncProofGate.get_usage self wallet)
  end.

Definition request_of (cfg : ProofGateConfig.t) (ses : session) (c : call)
  : Request.t :=
  match c with
  | Call_request method path j => build_request ses method path j
  | Call_validate f t d v g c | Call_validate_or_throw f t d v g c =>
      build_request ses "POST" "/validate"
        (Some (validate_payload cfg f t d v g c))
  | Call_check_agent wallet =>
      build_request ses "GET" ("/agents/check?wallet=" +:+ wallet) None
  | Call_get_evidence id =>
      build_request ses "GET" ("/evidence/" +:+ id) None
  | Call_get_usage wallet =>
      build_request ses "GET" ("/validate?wallet=" +:+ wallet) None
  end.

(** ** The error a transport outcome maps to

    [maps_to reply e]: a response with a status outside 200..299 whose
    body is a JSON object maps to the API error of that body; a timeout
    maps to the timeout error; any other transport failure maps to the
    network error with the failure's message. *)
Inductive maps_to : transport_outcome -> ProofGateError.t -> Prop :=
| maps_api_error status m :
    ~ (200 <= status <= 299) ->
    maps_to (Responded {| Response.status_code := status;
                          Response.body := Json (JObj m) |})
            (api_error status m)
| maps_timeout c msg :
    is_TimeoutException c = true ->
    maps_to (Failed c msg)
            {| ProofGateError.message := JStr "Request timeout";
               ProofGateError.code := "TIMEOUT";
               ProofGateError.status_code := None;
               ProofGateError.validation_result := None |}
| maps_network_error c msg :
    is_TimeoutException c = false ->
    maps_to (Failed c msg)
            {| ProofGateError.message := JStr msg;
               ProofGateError.code := "NETWORK_ERROR";
               ProofGateError.status_code := None;
               ProofGateError.validation_result := None |}.

(** ** The schema a call decodes with

    [model_of c] is the name of the pydantic model the method of [c]
    validates the body with ([None] for a bare [_request]);
    [schema_accepts c body] tells whether that model accepts [body]. *)
Definition model_of (c : call) : option string :=
  match c with
  | Call_request _ _ _ => None
  | Call_validate _ _ _ _ _ _ | Call_validate_or_throw _ _ _ _ _ _ =>
      Some "ValidateResponse"
  | Call_check_agent _ => Some "AgentCheckResponse"
  | Call_get_evidence _ => Some "EvidenceResponse"
  | Call_get_usage _ => Some "UsageResponse"
  end.

Definition schema_accepts `{Pydantic} (c : call) (body : json) : bool :=
  match c with
  | Call_request _ _ _ => true
  | Call_validate _ _ _ _ _ _ | Call_validate_or_throw _ _ _ _ _ _ =>
      bool_decide (is_Some (ValidateResponse.model_validate body))
  | Call_check_agent _ =>
      bool_decide (is_Some (AgentCheckResponse.model_validate body))
  | Call_get_evidence _ =>
      bool_decide (is_Some (EvidenceResponse.model_validate body))
  | Call_get_usage _ =>
      bool_decide (is_Some (UsageResponse.model_validate body))
  end.

(** Clients configured with a default guardrail:
    [ProofGate(api_key="pg_test", guardrail_id="gr_default")]. *)
Definition guarded_config : ProofGateConfig.t :=
  {| ProofGateConfig.api_key := "pg_test";
     ProofGateConfig.base_url := "https://www.proofgate.xyz/api";
     ProofGateConfig.chain_id := 56;
     ProofGateConfig.guardrail_id := Some "gr_default";
     ProofGateConfig.timeout := (30 # 1)%Q |}.

Definition guarded_sync : ProofGate.t :=
  {| ProofGate.config := guarded_config;
     ProofGate._client := demo_session Client |}.

Definition guarded_async : AsyncProofGate.t :=
  {| AsyncProofGate.config := guarded_config;
     AsyncProofGate._client := demo_session AsyncClient |}.

(** ** A signer service for the examples

    [ProofGate(api_key="pg_test", chain_id=8453)], the account [0xA], and
    a chain node and wallet library that accept every transaction. *)
Definition signer_client : ProofGate.t :=
  {| ProofGate.config :=
       {| ProofGateConfig.api_key := "pg_test";
          ProofGateConfig.base_url := "https://www.proofgate.xyz/api";
          ProofGateConfig.chain_id := 8453;
          ProofGateConfig.guardrail_id := None;
          ProofGateConfig.timeout := (30 # 1)%Q |};
     ProofGate._client := demo_session Client |}.

Definition accepting_checksum (v : json) : outcome string :=
  match v with
  | JStr s => Return s
  | _ => Raise (OtherError "TypeError" "address must be a string")
  end.

Definition service (request_json : json) : Py FlaskResponse.t :=
  execute (H := strict) signer_client "0xA"
    accepting_checksum
    (fun _ => Return 0)
    (Return 1000000)
    (fun _ => Return 7)
    (fun _ => Return "0xf86b")
    (fun _ => Return "0x5c50")
    (fun _ => EmptyString)
    (fun _ _ => "validation error")
    request_json.

Definition transfer_request : json :=
  JObj {[ "to" := JStr "0xB"; "data" := JStr "0xa9059cbb"; "value" := JStr "0" ]}.

(** A verdict that lets the transfer pass, with its one check. *)
Definition approved_body : json :=
  JObj {[ "validationId" := JStr "val_2";
          "result" := JStr "PASS";
          "reason" := JStr "ok";
          "safe" := JBool true;
          "checks" := JArr [JObj {[ "name" := JStr "daily_limit";
                                    "passed" := JBool true;
                                    "details" := JStr "...";
                                    "severity" := JStr "info" ]}];
          "evidenceUri" := JStr "...";
          "chainId" := JInt 8453 ]}.

(** The same two verdicts without checks. *)
Definition rejected_body_no_checks : json :=
  JObj {[ "validationId" := JStr "val_1";
          "result" := JStr "FAIL";
          "reason" := JStr "exceeds daily limit";
          "safe" := JBool false;
          "evidenceUri" := JStr "...";
          "chainId" := JInt 8453 ]}.

Definition approved_body_no_checks : json :=
  JObj {[ "validationId" := JStr "val_2";
          "result" := JStr "PASS";
          "reason" := JStr "ok";
          "safe" := JBool true;
          "evidenceUri" := JStr "...";
          "chainId" := JInt 8453 ]}.

Definition validate_request_of_transfer : Request.t :=
  build_request (demo_session Client) "POST" "/validate"
    (Some (JObj {[ "from" := JStr "0xA"; "to" := JStr "0xB";
                   "data" := JStr "0xa9059cbb"; "value" := JStr "0";
                   "guardrailId" := JNull; "chainId" := JInt 8453 ]})).

(** ** Answers of the signer service *)

(** The [validation] entry of an answer, for a verdict without checks. *)
Definition verdict_json (r : ValidateResponse.t) : json :=
  JObj {[ "result" := JStr (Verdict_str (ValidateResponse.result r));
          "reason" := JStr (ValidateResponse.reason r);
          "checks" := JArr [] ]}.

(** The body of a 500 answer. *)
Definition error_answer (msg : string) : json :=
  JObj {[ "success" := JBool false; "error" := JStr msg ]}.

(** Building, signing and broadcasting the transaction, as [execute]
    does for a safe verdict; the result is the transaction hash. *)
Definition submit (account_address : string)
    (to_checksum_address : json -> outcome string)
    (to_wei_ether : json -> outcome Z)
    (gas_price : outcome Z)
    (get_transaction_count : string -> outcome Z)
    (sign_transaction : json -> outcome string)
    (send_raw_transaction : string -> outcome string)
    (to_address value : json) (calldata : string) : Py string :=
  to ← lift (to_checksum_address to_address);
  wei ← (if ne_zero_str value then lift (to_wei_ether value) else mret 0);
  price ← lift gas_price;
  nonce ← lift (get_transaction_count account_address);
  signed_tx ← lift (sign_transaction
                      (JObj {[ "to" := JStr to;
                               "data" := JStr calldata;
                               "value" := JInt wei;
                               "gas" := JInt 200000;
                               "gasPrice" := JInt price;
                               "nonce" := JInt nonce;
                               "chainId" := JInt 8453 ]}));
  broadcast send_raw_transaction signed_tx.

(** A body whose [result] and [safe] disagree. *)
Definition inconsistent_body : json :=
  JObj {[ "validationId" := JStr "val_3";
          "result" := JStr "PASS";
          "reason" := JStr "ok";
          "safe" := JBool false;
          "evidenceUri" := JStr "...";
          "chainId" := JInt 8453 ]}.

(** ** The outcome of a call

    [forget o] is [o] without the returned object; [call_outcome c o] is
    the outcome of the call [c] when [_request] ends with [o]. *)
Definition forget {A} (o : outcome A) : outcome unit :=
  match o with
  | Return _ => Return tt
  | Raise e => Raise e
  end.

Definition call_outcome `{Pydantic} (c : call) (o : outcome json)
  : outcome unit :=
  match c with
  | Call_request _ _ _ => forget o
  | Call_validate _ _ _ _ _ _ =>
      forget (decoded "ValidateResponse" ValidateResponse.model_validate o)
  | Call_validate_or_throw _ _ _ _ _ _ =>
      forget (enforced
                (decoded "ValidateResponse" ValidateResponse.model_validate o))
  | Call_check_agent _ =>
      forget (decoded "AgentCheckResponse" AgentCheckResponse.model_validate o)
  | Call_get_evidence _ =>
      forget (decoded "EvidenceResponse" EvidenceResponse.model_validate o)
  | Call_get_usage _ =>
      forget (decoded "UsageResponse" UsageResponse.model_validate o)
  end.

(** ** The kinds of failure a call can end with

    [classified c o]: if the outcome [o] of the call [c] is a
    [ProofGateError], it has one of four shapes; if it is pydantic's
    [ValidationError], it is for the model of the method; and it is not
    an exception of the transport.  Other exceptions of the libraries are
    left as they are. *)
Definition api_error_shape (e : ProofGateError.t) : Prop :=
  ProofGateError.code e = "API_ERROR" /\
  ProofGateError.validation_result e = None /\
  exists status, ProofGateError.status_code e = Some status /\
                 ~ (200 <= status <= 299).

Definition timeout_shape (e : ProofGateError.t) : Prop :=
  ProofGateError.code e = "TIMEOUT" /\
  ProofGateError.message e = JStr "Request timeout" /\
  ProofGateError.status_code e = None /\
  ProofGateError.validation_result e = None.

Definition network_error_shape (e : ProofGateError.t) : Prop :=
  ProofGateError.code e = "NETWORK_ERROR" /\
  (exists msg, ProofGateError.message e = JStr msg) /\
  ProofGateError.status_code e = None /\
  ProofGateError.validation_result e = None.

Definition validation_failed_shape (c : call) (e : ProofGateError.t) : Prop :=
  ProofGateError.code e = "VALIDATION_FAILED" /\
  ProofGateError.status_code e = None /\
  (exists f t d v g k, c = Call_validate_or_throw f t d v g k) /\
  exists r, ProofGateError.validation_result e = Some r /\
            ValidateResponse.safe r = false /\
            ProofGateError.message e = JStr (ValidateResponse.reason r).

Definition classified (c : call) (o : outcome unit) : Prop :=
  match o with
  | Raise (ProofGateError_ e) =>
      api_error_shape e \/ timeout_shape e \/ network_error_shape e \/
      validation_failed_shape c e
  | Raise (ValidationError model _) => model_of c = Some model
  | Raise (HttpxError _ _) => False
  | _ => True
  end.

(** The response object of [approved_body]. *)
Definition approved : ValidateResponse.t :=
  {| ValidateResponse.validation_id := "val_2";
     ValidateResponse.result := PASS;
     ValidateResponse.reason := "ok";
     ValidateResponse.evidence_uri := "...";
     ValidateResponse.safe := true;
     ValidateResponse.checks :=
       [{| ValidationCheck.name := "daily_limit";
           ValidationCheck.passed := true;
           ValidationCheck.details := "...";
           ValidationCheck.severity := info |}];
     ValidateResponse.chain_id := 8453;
     ValidateResponse.authenticated := false;
     ValidateResponse.tier := "free";
     ValidateResponse.backend := "local";
     ValidateResponse.on_chain_recorded := false |}.

(** [isinstance(data, dict)] *)
Definition is_dict (v : json) : bool :=
  match v with JObj _ => true | _ => false end.

(** A usage snapshot as [GET /validate?wallet=...] answers it. *)
Definition usage_body : json :=
  JObj {[ "wallet" := JStr "0xA"; "tier" := JStr "free";
          "validations_used" := JInt 3; "validations_limit" := JInt 100;
          "daily_spent_wei" := JStr "0" ]}.

Definition usage : UsageResponse.t :=
  {| UsageResponse.wallet := "0xA"; UsageResponse.tier := "free";
     UsageResponse.validations_used := 3;
     UsageResponse.validations_limit := 100;
     UsageResponse.daily_spent_wei := "0" |}.

(** The same snapshot with the keys in camel case. *)
Definition usage_body_camel : json :=
  JObj {[ "wallet" := JStr "0xA"; "tier" := JStr "free";
          "validationsUsed" := JInt 3; "validationsLimit" := JInt 100;
          "dailySpentWei" := JStr "0" ]}.

(** The keys the [ValidateResponse] schema reads: every field under its
    name and, where it has one, under its alias. *)
Definition ValidateResponse_keys : list string :=
  [ "validationId"; "validation_id"; "result"; "reason";
    "evidenceUri"; "evidence_uri"; "safe"; "checks";
    "chainId"; "chain_id"; "authenticated"; "tier"; "backend";
    "onChainRecorded"; "on_chain_recorded" ].

(** A verdict body without its [safe] field. *)
Definition body_without_safe : gmap string json :=
  {[ "validationId" := JStr "val_4"; "result" := JStr "PASS";
     "reason" := JStr "ok"; "evidenceUri" := JStr "...";
     "chainId" := JInt 8453 ]}.

(** The body of [inconsistent_body] written with the field names of the
    model instead of the aliases of the wire. *)
Definition body_by_field_name : gmap string json :=
  {[ "validation_id" := JStr "val_3"; "result" := JStr "PASS";
     "reason" := JStr "ok"; "safe" := JBool false;
     "evidence_uri" := JStr "..."; "chain_id" := JInt 8453 ]}.

(** An agent as [GET /agents/check] answers it. *)
Definition agent_body : gmap string json :=
  {[ "wallet" := JStr "0xa"; "isRegistered" := JBool true;
     "verificationStatus" := JStr "verified";
     "verificationMessage" := JStr "verified agent";
     "trustScore" := JInt 87; "tier" := JStr "gold";
     "tierEmoji" := JStr "*"; "tierName" := JStr "Gold";
     "stats" := JObj {[ "totalValidations" := JInt 10;
                        "passedValidations" := JInt 9;
                        "failedValidations" := JInt 1;
                        "passRate" := JFloat (9 # 10)%Q ]};
     "recommendation" := JStr "ok" ]}.

Definition agent : AgentCheckResponse.t :=
  {| AgentCheckResponse.wallet := "0xa";
     AgentCheckResponse.is_registered := true;
     AgentCheckResponse.verification_status := verified;
     AgentCheckResponse.verification_message := "verified agent";
     AgentCheckResponse.trust_score := 87;
     AgentCheckResponse.tier := gold;
     AgentCheckResponse.tier_emoji := "*";
     AgentCheckResponse.tier_name := "Gold";
     AgentCheckResponse.stats :=
       {| AgentStats.total_validations := 10;
          AgentStats.passed_validations := 9;
          AgentStats.failed_validations := 1;
          AgentStats.pass_rate := (9 # 10)%Q |};
     AgentCheckResponse.registration := None;
     AgentCheckResponse.recommendation := "ok" |}.

(** [r] with another trust score. *)
Definition with_trust_score (r : AgentCheckResponse.t) (z : Z)
  : AgentCheckResponse.t :=
  {| AgentCheckResponse.wallet := AgentCheckResponse.wallet r;
     AgentCheckResponse.is_registered := AgentCheckResponse.is_registered r;
     AgentCheckResponse.verification_status :=
       AgentCheckResponse.verification_status r;
     AgentCheckResponse.verification_message :=
       AgentCheckResponse.verification_message r;
     AgentCheckResponse.trust_score := z;
     AgentCheckResponse.tier := AgentCheckResponse.tier r;
     AgentCheckResponse.tier_emoji := AgentCheckResponse.tier_emoji r;
     AgentCheckResponse.tier_name := AgentCheckResponse.tier_name r;
     AgentCheckResponse.stats := AgentCheckResponse.stats r;
     AgentCheckResponse.registration := AgentCheckResponse.registration r;
     AgentCheckResponse.recommendation := AgentCheckResponse.recommendation r |}.

(** The response object of [inconsistent_body]. *)
Definition inconsistent : ValidateResponse.t :=
  {| ValidateResponse.validation_id := "val_3";
     ValidateResponse.result := PASS;
     ValidateResponse.reason := "ok";
     ValidateResponse.evidence_uri := "...";
     ValidateResponse.safe := false;
     ValidateResponse.checks := [];
     ValidateResponse.chain_id := 8453;
     ValidateResponse.authenticated := false;
     ValidateResponse.tier := "free";
     ValidateResponse.backend := "local";
     ValidateResponse.on_chain_recorded := false |}.

(** ** More vocabulary for the signer service *)

(** [v[:20]] does not raise. *)
Definition sliceable (v : json) : bool :=
  match v with JStr _ | JArr _ => true | _ => false end.

(** The transaction [execute] builds. *)
Definition transaction (to : string) (tx_data : json) (wei price nonce : Z)
  : gmap string json :=
  {[ "to" := JStr to;
     "data" := tx_data;
     "value" := JInt wei;
     "gas" := JInt 200000;
     "gasPrice" := JInt price;
     "nonce" := JInt nonce;
     "chainId" := JInt 8453 ]}.

(** Building, signing and broadcasting, for calldata of any type that
    [execute] lets through. *)
Definition sign_and_send (account_address : string)
    (to_checksum_address : json -> outcome string)
    (to_wei_ether : json -> outcome Z)
    (gas_price : outcome Z)
    (get_transaction_count : string -> outcome Z)
    (sign_transaction : json -> outcome string)
    (send_raw_transaction : string -> outcome string)
    (to_address value tx_data : json) : Py string :=
  to ← lift (to_checksum_address to_address);
  wei ← (if ne_zero_str value then lift (to_wei_ether value) else mret 0);
  price ← lift gas_price;
  nonce ← lift (get_transaction_count account_address);
  signed_tx ← lift (sign_transaction
                      (JObj (transaction to tx_data wei price nonce)));
  broadcast send_raw_transaction signed_tx.

(** The answers of [execute]. *)
Definition failure_answer (msg : string) : FlaskResponse.t :=
  {| FlaskResponse.status := 500; FlaskResponse.payload := error_answer msg |}.

Definition not_serializable : FlaskResponse.t :=
  failure_answer "Object of type ValidationCheck is not JSON serializable".

Definition blocked_answer (r : ValidateResponse.t) : FlaskResponse.t :=
  match ValidateResponse.checks r with
  | [] =>
      {| FlaskResponse.status := 400;
         FlaskResponse.payload :=
           JObj {[ "success" := JBool false;
                   "error" := JStr ("Transaction blocked by ProofGate: "
                                    +:+ ValidateResponse.reason r);
                   "validation" := verdict_json r ]} |}
  | _ :: _ => not_serializable
  end.

Definition sent_answer (r : ValidateResponse.t) (tx_hash_hex : string)
  : FlaskResponse.t :=
  match ValidateResponse.checks r with
  | [] =>
      {| FlaskResponse.status := 200;
         FlaskResponse.payload :=
           JObj {[ "success" := JBool true;
                   "txHash" := JStr tx_hash_hex;
                   "validation" := verdict_json r ]} |}
  | _ :: _ => not_serializable
  end.

(** The fields of [transfer_request]. *)
Definition transfer_fields : gmap string json :=
  {[ "to" := JStr "0xB"; "data" := JStr "0xa9059cbb"; "value" := JStr "0" ]}.

(** A transfer of one ether, and a [to_wei(v, "ether")] that knows the
    two amounts of the examples. *)
Definition one_ether_fields : gmap string json :=
  {[ "to" := JStr "0xB"; "data" := JStr "0xa9059cbb"; "value" := JStr "1" ]}.

Definition ether_to_wei (v : json) : outcome Z :=
  match v with
  | JStr "0" => Return 0
  | JStr "1" => Return 1000000000000000000
  | _ => Raise (OtherError "ValueError" "not a whole number of ether")
  end.

(** A request whose calldata is a number, and one that names a sender
    and a chain of its own. *)
Definition numeric_data_fields : gmap string json :=
  {[ "to" := JStr "0xB"; "data" := JInt 5 ]}.

Definition spoofing_fields : gmap string json :=
  {[ "to" := JStr "0xB"; "data" := JStr "0xa9059cbb"; "value" := JStr "0";
     "from" := JStr "0xC"; "chainId" := JInt 1 ]}.

(** ** Environments for the examples *)

Definition full_environ : gmap string string :=
  {[ "PRIVATE_KEY" := "0x01"; "PROOFGATE_API_KEY" := "pg_test" ]}.

Definition environ_without_private_key : gmap string string :=
  {[ "PRIVATE_KEY" := EmptyString; "PROOFGATE_API_KEY" := "pg_test" ]}.

(** An [int] that reads nothing, and a wallet library that derives the
    address [0xA] from every key. *)
Definition no_int (s : string) : outcome Z :=
  Raise (OtherError "ValueError" "invalid literal for int()").

Definition address_0xA (key : string) : outcome string := Return "0xA".

(** The errors of the module level. *)
Definition private_key_required : exception :=
  OtherError "ValueError" "PRIVATE_KEY environment variable required".

Definition api_key_required : exception :=
  OtherError "ValueError" "PROOFGATE_API_KEY environment variable required".

(** The answer to an approved transfer. *)
Definition transfer_sent : FlaskResponse.t :=
  {| FlaskResponse.status := 200;
     FlaskResponse.payload :=
       JObj {[ "success" := JBool true; "txHash" := JStr "0x5c50";
               "validation" := JObj {[ "result" := JStr "PASS";
                                       "reason" := JStr "ok";
                                       "checks" := JArr [] ]} ]} |}.

(** The spellings the [result] field accepts. *)
Definition Verdict_spellings : list string := [ "PASS"; "FAIL"; "PENDING" ].

(** A verdict body whose [result] is spelled in lower case. *)
Definition lowercase_result_body : gmap string json :=
  {[ "validationId" := JStr "val_5"; "result" := JStr "pass";
     "reason" := JStr "ok"; "safe" := JBool true;
     "evidenceUri" := JStr "..."; "chainId" := JInt 8453 ]}.

(** An evidence record as [GET /evidence/<id>] answers it. *)
Definition evidence_body : gmap string json :=
  {[ "validationId" := JStr "val_1"; "timestamp" := JStr "2024-01-01T00:00:00Z";
     "chainId" := JInt 8453;
     "transaction" := JObj {[ "from" := JStr "0xA"; "to" := JStr "0xB";
                              "data" := JStr "0xa9059cbb";
                              "value" := JStr "0" ]};
     "result" := JObj {[ "status" := JStr "FAIL";
                         "reason" := JStr "exceeds daily limit";
                         "safe" := JBool false ]};
     "agent" := JObj {[ "wallet" := JStr "0xA"; "verified" := JBool true ]};
     "proof" := JObj {[ "authenticated" := JBool true;
                        "onChainRecorded" := JBool false ]} ]}.

Definition evidence : EvidenceResponse.t :=
  {| EvidenceResponse.validation_id := "val_1";
     EvidenceResponse.timestamp := "2024-01-01T00:00:00Z";
     EvidenceResponse.chain_id := 8453;
     EvidenceResponse.transaction :=
       {| EvidenceTransaction.from_address := "0xA";
          EvidenceTransaction.to := "0xB";
          EvidenceTransaction.data := "0xa9059cbb";
          EvidenceTransaction.value := "0" |};
     EvidenceResponse.result :=
       {| EvidenceResult.status := FAIL;
          EvidenceResult.reason := "exceeds daily limit";
          EvidenceResult.safe := false |};
     EvidenceResponse.guardrail_id := None;
     EvidenceResponse.agent :=
       {| EvidenceAgent.wallet := "0xA"; EvidenceAgent.name := None;
          EvidenceAgent.verified := true |};
     EvidenceResponse.proof :=
       {| EvidenceProof.authenticated := true;
          EvidenceProof.on_chain_recorded := false;
          EvidenceProof.batch_id := None;
          EvidenceProof.recorded_at := None |} |}.

(** [v] is [None], a boolean or a number: [v[:20]] raises [TypeError]. *)
Definition not_subscriptable (v : json) : bool :=
  match v with
  | JNull | JBool _ | JInt _ | JFloat _ => true
  | _ => false
  end.

(** * Properties *)

Lemma run_bind {A B} (m : Py A) (k : A -> Py B) (net : network) :
  run (m ≫= k) net =
  match run m net with
  | (Return a, tr) => let '(r, tr') := run (k a) net in (r, tr ++ tr')
  | (Raise e, tr) => (Raise e, tr)
  end.
Proof. reflexivity. Qed.

Lemma run_model_validate {A} model (f : json -> option A) data net :
  run (model_validate model f data) net = (decoded model f (Return data), []).
Proof. unfold model_validate, decoded. destruct (f data); reflexivity. Qed.

Lemma run_try_except {A} (m : Py A) (h : exception -> Py A) net :
  run (try_except m h) net =
  match run m net with
  | (Return a, tr) => (Return a, tr)
  | (Raise e, tr) => let '(r, tr') := run (h e) net in (r, tr ++ tr')
  end.
Proof. reflexivity. Qed.

Lemma run_mret {A} (a : A) net : run (mret a) net = (Return a, []).
Proof. reflexivity. Qed.

Lemma run_raise {A} e net : run (@raise A e) net = (Raise e, []).
Proof. reflexivity. Qed.

Lemma run_httpx_request s method path j net :
  run (httpx_request s method path j) net =
  (match net (build_request s method path j) with
   | Responded r => Return r
   | Failed c msg => Raise (HttpxError c msg)
   | Refused msg => Raise (InvalidURL msg)
   end, sent (net (build_request s method path j))
             (build_request s method path j)).
Proof.
  unfold run, httpx_request. cbv zeta. destruct (transport net _); reflexivity.
Qed.

Lemma run_Response_json r net :
  run (Response_json r) net =
  (match Response.body r with
   | Json j => Return j
   | NotJson err => Raise (JSONDecodeError err)
   | NotText err => Raise (UnicodeDecodeError err)
   end, []).
Proof. unfold Response_json. destruct (Response.body r); reflexivity. Qed.

Lemma run_get data key net :
  run (get data key) net =
  (match data with
   | JObj m => Return (default JNull (m !! key))
   | _ => Raise (AttributeError
                   ("'" +:+ type_name data +:+ "' object has no attribute 'get'"))
   end, []).
Proof. destruct data; reflexivity. Qed.

Ltac py_step :=
  first [ rewrite run_try_except | rewrite run_bind | rewrite run_mret
        | rewrite run_raise | rewrite run_httpx_request
        | rewrite run_Response_json | rewrite run_get ];
  cbv beta iota zeta.

Lemma async_request_surface (self : AsyncProofGate.t) method path j net :
  run (AsyncProofGate._request self method path j) net =
  let rq := build_request (AsyncProofGate._client self) method path j in
  (surface (net rq), sent (net rq) rq).
Proof.
  unfold AsyncProofGate._request, await, surface. cbv zeta.
  repeat py_step.
  destruct (transport net _) as [[status body] | c msg | msg]; cbv beta iota.
  - repeat py_step. cbn [Response.body Response.status_code sent].
    destruct body as [data | err | err]; cbv beta iota; [| reflexivity ..].
    destruct (Response.is_success _); cbn [negb]; cbv beta iota.
    + repeat py_step. reflexivity.
    + repeat py_step. destruct data; try reflexivity.
      unfold api_error, py_or.
      destruct (truthy (default JNull (m !! "error"))); repeat py_step;
        [reflexivity |].
      destruct (truthy (default JNull (m !! "message"))); reflexivity.
  - destruct (is_TimeoutException c); reflexivity.
  - reflexivity.
Qed.

(** A request to the path [/validate] is never refused. *)
Lemma async_validate_sent (self : AsyncProofGate.t) j (net : network) :
  sent (net (build_request (AsyncProofGate._client self) "POST" "/validate" j))
       (build_request (AsyncProofGate._client self) "POST" "/validate" j)
  = [Sent (build_request (AsyncProofGate._client self) "POST" "/validate" j)].
Proof.
  pose proof (validate_path_accepted net
                (build_request (AsyncProofGate._client self) "POST" "/validate" j)) as Hacc.
  destruct (transport net _) as [r | c msg | msg]; try reflexivity.
  exfalso. exact (Hacc msg eq_refl eq_refl).
Qed.

Lemma sync_request_surface (self : ProofGate.t) method path j net :
  run (ProofGate._request self method path j) net =
  let rq := build_request (ProofGate._client self) method path j in
  (surface (net rq), sent (net rq) rq).
Proof.
  unfold ProofGate._request, surface. cbv zeta.
  repeat py_step.
  destruct (transport net _) as [[status body] | c msg | msg]; cbv beta iota.
  - repeat py_step. cbn [Response.body Response.status_code sent].
    destruct body as [data | err | err]; cbv beta iota; [| reflexivity ..].
    destruct (Response.is_success _); cbn [negb]; cbv beta iota.
    + repeat py_step. reflexivity.
    + repeat py_step. destruct data; try reflexivity.
      unfold api_error, py_or.
      destruct (truthy (default JNull (m !! "error"))); repeat py_step;
        [reflexivity |].
      destruct (truthy (default JNull (m !! "message"))); reflexivity.
  - destruct (is_TimeoutException c); reflexivity.
  - reflexivity.
Qed.

(** A request to the path [/validate] is never refused. *)
Lemma sync_validate_sent (self : ProofGate.t) j (net : network) :
  sent (net (build_request (ProofGate._client self) "POST" "/validate" j))
       (build_request (ProofGate._client self) "POST" "/validate" j)
  = [Sent (build_request (ProofGate._client self) "POST" "/validate" j)].
Proof.
  pose proof (validate_path_accepted net
                (build_request (ProofGate._client self) "POST" "/validate" j)) as Hacc.
  destruct (transport net _) as [r | c msg | msg]; try reflexivity.
  exfalso. exact (Hacc msg eq_refl eq_refl).
Qed.

Lemma run_then_decode {A} (m : Py json) model (f : json -> option A) net o tr :
  run m net = (o, tr) ->
  run (m ≫= model_validate model f) net = (decoded model f o, tr).
Proof.
  intros Hm. rewrite run_bind, Hm. destruct o as [data | e]; [| reflexivity].
  rewrite run_model_validate. cbn. rewrite app_nil_r. reflexivity.
Qed.

Section method_runs.
Context `{Pydantic}.

Lemma async_validate_run (self : AsyncProofGate.t) f t d v g c net :
  run (AsyncProofGate.validate self f t d v g c) net =
  let rq := build_request (AsyncProofGate._client self) "POST" "/validate"
              (Some (validate_payload (AsyncProofGate.config self) f t d v g c)) in
  (decoded "ValidateResponse" ValidateResponse.model_validate (surface (net rq)),
   [Sent rq]).
Proof.
  unfold AsyncProofGate.validate, await. cbv zeta.
  apply run_then_decode. rewrite async_request_surface. cbv zeta.
  rewrite async_validate_sent. reflexivity.
Qed.

Lemma sync_validate_run (self : ProofGate.t) f t d v g c net :
  run (ProofGate.validate self f t d v g c) net =
  let rq := build_request (ProofGate._client self) "POST" "/validate"
              (Some (validate_payload (ProofGate.config self) f t d v g c)) in
  (decoded "ValidateResponse" ValidateResponse.model_validate (surface (net rq)),
   [Sent rq]).
Proof.
  unfold ProofGate.validate. cbv zeta.
  apply run_then_decode. rewrite sync_request_surface. cbv zeta.
  rewrite sync_validate_sent. reflexivity.
Qed.
End method_runs.

(** ** [validate_or_throw] *)

Section validate_or_throw_runs.
Context `{Pydantic}.

Lemma sync_validate_or_throw_run (self : ProofGate.t) f t d v g c net :
  run (ProofGate.validate_or_throw self f t d v g c) net =
  (enforced (run (ProofGate.validate self f t d v g c) net).1,
   (run (ProofGate.validate self f t d v g c) net).2).
Proof.
  unfold ProofGate.validate_or_throw. cbv zeta.
  rewrite run_bind, !sync_validate_run. cbv zeta. cbn [fst snd].
  change (default (JStr "0") (Some (default (JStr "0") v)))
    with (default (JStr "0") v).
  destruct (decoded _ _ _) as [r | e]; [| reflexivity].
  cbn [enforced]. destruct (ValidateResponse.safe r); reflexivity.
Qed.

Lemma async_validate_or_throw_run (self : AsyncProofGate.t) f t d v g c net :
  run (AsyncProofGate.validate_or_throw self f t d v g c) net =
  (enforced (run (AsyncProofGate.validate self f t d v g c) net).1,
   (run (AsyncProofGate.validate self f t d v g c) net).2).
Proof.
  unfold AsyncProofGate.validate_or_throw, await. cbv zeta.
  rewrite run_bind, !async_validate_run. cbv zeta. cbn [fst snd].
  change (default (JStr "0") (Some (default (JStr "0") v)))
    with (default (JStr "0") v).
  destruct (decoded _ _ _) as [r | e]; [| reflexivity].
  cbn [enforced]. destruct (ValidateResponse.safe r); reflexivity.
Qed.
End validate_or_throw_runs.

(** C1. [validate_or_throw], in both clients: when the underlying
    [validate] call returns a response [r], the method returns [r] itself
    if [r.safe] and otherwise raises the [ProofGateError] with code
    [VALIDATION_FAILED] whose message is [r.reason] and whose
    [validation_result] is [r] (so the same reason and the same checks);
    it performs exactly the events of that one [validate] call. *)
Theorem validate_or_throw_enforces_verdict `{Pydantic}
    (a : AsyncProofGate.t) (s : ProofGate.t) f t d v g c net r tr :
  (run (ProofGate.validate s f t d v g c) net = (Return r, tr) ->
   run (ProofGate.validate_or_throw s f t d v g c) net =
   (if ValidateResponse.safe r then Return r
    else Raise (ProofGateError_
      {| ProofGateError.message := JStr (ValidateResponse.reason r);
         ProofGateError.code := "VALIDATION_FAILED";
         ProofGateError.status_code := None;
         ProofGateError.validation_result := Some r |}), tr))
  /\
  (run (AsyncProofGate.validate a f t d v g c) net = (Return r, tr) ->
   run (AsyncProofGate.validate_or_throw a f t d v g c) net =
   (if ValidateResponse.safe r then Return r
    else Raise (ProofGateError_
      {| ProofGateError.message := JStr (ValidateResponse.reason r);
         ProofGateError.code := "VALIDATION_FAILED";
         ProofGateError.status_code := None;
         ProofGateError.validation_result := Some r |}), tr)).
Proof.
  split; intros Hv.
  - rewrite sync_validate_or_throw_run, Hv. reflexivity.
  - rewrite async_validate_or_throw_run, Hv. reflexivity.
Qed.

Lemma validate_or_throw_enforces_verdict_witness :
  run (ProofGate.validate_or_throw (H := strict) demo_sync
         transfer_from transfer_to transfer_data None JNull JNull)
      (always 200 (Json rejected_body))
  = (Raise (validation_failed rejected),
     [Sent (build_request (demo_session Client) "POST" "/validate"
              (Some (validate_payload demo_config transfer_from transfer_to
                       transfer_data None JNull JNull)))]).
Proof.
  apply (proj1 (validate_or_throw_enforces_verdict (H := strict)
                  demo_async demo_sync transfer_from transfer_to transfer_data
                  None JNull JNull (always 200 (Json rejected_body))
                  rejected _)).
  vm_compute. reflexivity.
Defined.

(** ** Decoding *)

Lemma lookup_field_same (m : gmap string json) k :
  lookup_field m k k = m !! k.
Proof. unfold lookup_field. destruct (m !! k); reflexivity. Qed.

Lemma required_Some {A} m alias name (f : json -> option A) x :
  required m alias name f = Some x ->
  exists v, lookup_field m alias name = Some v /\ f v = Some x.
Proof.
  unfold required. destruct (lookup_field m alias name) as [v |]; [| discriminate].
  intros Hf. exists v. split; [reflexivity | exact Hf].
Qed.

Lemma str_validator_Some v s : str_validator v = Some s -> v = JStr s.
Proof. destruct v; try discriminate. intros [= ->]. reflexivity. Qed.

Lemma Verdict_validator_Some v r :
  Verdict_validator v = Some r -> v = JStr (Verdict_str r).
Proof.
  destruct v as [| | | | s | |]; try discriminate. unfold Verdict_validator.
  destruct (String.eqb s "PASS") eqn:E1;
    [apply String.eqb_eq in E1; intros [= <-]; subst; reflexivity |].
  destruct (String.eqb s "FAIL") eqn:E2;
    [apply String.eqb_eq in E2; intros [= <-]; subst; reflexivity |].
  destruct (String.eqb s "PENDING") eqn:E3;
    [apply String.eqb_eq in E3; intros [= <-]; subst; reflexivity |].
  discriminate.
Qed.

Lemma Severity_validator_Some v r :
  Severity_validator v = Some r -> v = JStr (Severity_str r).
Proof.
  destruct v as [| | | | s | |]; try discriminate. unfold Severity_validator.
  destruct (String.eqb s "info") eqn:E1;
    [apply String.eqb_eq in E1; intros [= <-]; subst; reflexivity |].
  destruct (String.eqb s "warning") eqn:E2;
    [apply String.eqb_eq in E2; intros [= <-]; subst; reflexivity |].
  destruct (String.eqb s "critical") eqn:E3;
    [apply String.eqb_eq in E3; intros [= <-]; subst; reflexivity |].
  discriminate.
Qed.

Ltac invert_required H :=
  match type of H with
  | (required ?m ?a ?n ?f ≫= _) = Some _ =>
      let v := fresh "v" in
      let Hl := fresh "Hl" in
      let Hf := fresh "Hf" in
      let x := fresh "x" in
      destruct (required m a n f) as [x |] eqn:Hf; [| discriminate H];
      apply required_Some in Hf; destruct Hf as (v & Hl & Hf);
      cbn [mbind option_bind] in H
  end.

Ltac invert_defaulted H :=
  match type of H with
  | (defaulted ?m ?a ?n ?f ?d ≫= _) = Some _ =>
      let x := fresh "x" in
      let Hf := fresh "Hd" in
      destruct (defaulted m a n f d) as [x |] eqn:Hf; [| discriminate H];
      cbn [mbind option_bind] in H
  end.

Section decoding.
Context `{Pydantic}.

Lemma check_model_validate_matches j c :
  ValidationCheck.model_validate j = Some c -> check_matches j c.
Proof.
  destruct j as [| | | | | | m]; try discriminate.
  unfold ValidationCheck.model_validate. intros Hm.
  repeat invert_required Hm. injection Hm as <-.
  rewrite lookup_field_same in *.
  exists m. cbn. split; [reflexivity |].
  apply str_validator_Some in Hf, Hf1. apply Severity_validator_Some in Hf2.
  subst. rewrite Hl0. cbn. auto.
Qed.

Lemma model_validate_matches body r :
  ValidateResponse.model_validate body = Some r ->
  exists m, body = JObj m /\ verdict_matches m r.
Proof.
  destruct body as [| | | | | | m]; try discriminate.
  unfold ValidateResponse.model_validate. intros Hm.
  repeat first [invert_required Hm | invert_defaulted Hm].
  injection Hm as <-. exists m. split; [reflexivity |].
  rewrite lookup_field_same in *.
  apply Verdict_validator_Some in Hf0. apply str_validator_Some in Hf1.
  subst. unfold verdict_matches. cbn.
  rewrite Hl3. cbn. repeat split; try assumption.
  unfold defaulted in Hd. rewrite lookup_field_same in Hd.
  destruct (m !! "checks") as [cs |]; [| congruence].
  destruct cs as [| | | | | l |]; try discriminate.
  exists l. split; [reflexivity |].
  cbn in Hd. apply mapM_Some in Hd.
  eapply Forall2_impl; [exact Hd |].
  intros j c Hjc. apply check_model_validate_matches. exact Hjc.
Qed.
End decoding.

(** ** [validate] *)

(** C2. [validate], in both clients: when the server answers the request
    with a 2xx status and a JSON body that the [ValidateResponse] schema
    accepts as [r], the call returns [r] without raising, whatever
    [r.safe] and [r.result] are; and [r] agrees with the body field by
    field: [safe], [result], [reason] and [checks] are each read from
    their own key (a boolean [safe] in the body is [r.safe] itself). *)
Theorem validate_returns_server_verdict `{Pydantic}
    (a : AsyncProofGate.t) (s : ProofGate.t) f t d v g c (net : network)
    status body r :
  200 <= status <= 299 ->
  ValidateResponse.model_validate body = Some r ->
  (let rq := build_request (ProofGate._client s) "POST" "/validate"
               (Some (validate_payload (ProofGate.config s) f t d v g c)) in
   net rq = Responded {| Response.status_code := status;
                         Response.body := Json body |} ->
   run (ProofGate.validate s f t d v g c) net = (Return r, [Sent rq]))
  /\
  (let rq := build_request (AsyncProofGate._client a) "POST" "/validate"
               (Some (validate_payload (AsyncProofGate.config a) f t d v g c)) in
   net rq = Responded {| Response.status_code := status;
                         Response.body := Json body |} ->
   run (AsyncProofGate.validate a f t d v g c) net = (Return r, [Sent rq]))
  /\
  (exists m, body = JObj m /\ verdict_matches m r /\
     forall b, m !! "safe" = Some (JBool b) -> ValidateResponse.safe r = b).
Proof.
  intros Hstatus Hbody.
  assert (Hok : Response.is_success
                  {| Response.status_code := status;
                     Response.body := Json body |} = true).
  { unfold Response.is_success. cbn. apply andb_true_iff. lia. }
  split; [| split].
  - cbv zeta. intros Hnet. rewrite sync_validate_run. cbv zeta.
    rewrite Hnet. unfold surface. cbn [Response.body]. rewrite Hok.
    cbn [decoded]. rewrite Hbody. reflexivity.
  - cbv zeta. intros Hnet. rewrite async_validate_run. cbv zeta.
    rewrite Hnet. unfold surface. cbn [Response.body]. rewrite Hok.
    cbn [decoded]. rewrite Hbody. reflexivity.
  - destruct (model_validate_matches body r Hbody) as (m & -> & Hm).
    exists m. split; [reflexivity |]. split; [exact Hm |].
    intros b Hb. destruct Hm as (Hsafe & _). rewrite Hb in Hsafe.
    cbn in Hsafe. rewrite bool_validator_bool in Hsafe. congruence.
Qed.

Lemma validate_returns_server_verdict_witness :
  run (ProofGate.validate (H := strict) demo_sync
         transfer_from transfer_to transfer_data None JNull JNull)
      (always 200 (Json rejected_body))
  = (Return rejected,
     [Sent (build_request (demo_session Client) "POST" "/validate"
              (Some (validate_payload demo_config transfer_from transfer_to
                       transfer_data None JNull JNull)))]).
Proof.
  apply (proj1 (validate_returns_server_verdict (H := strict)
                  demo_async demo_sync transfer_from transfer_to transfer_data
                  None JNull JNull (always 200 (Json rejected_body))
                  200 rejected_body rejected
                  ltac:(lia) ltac:(vm_compute; reflexivity))).
  reflexivity.
Defined.

(** A verdict whose [result] says PASS and whose [safe] says false is
    returned as the server sent it. *)
Example inconsistent_verdict_passes_through :
  exists r,
    (run (ProofGate.validate (H := strict) demo_sync transfer_from transfer_to
            transfer_data None JNull JNull)
         (always 200 (Json inconsistent_body))).1 = Return r
    /\ ValidateResponse.result r = PASS
    /\ ValidateResponse.safe r = false.
Proof. eexists. split; [vm_compute; reflexivity |]. split; reflexivity. Qed.

(** ** Construction *)

Lemma key_headers_encodable key :
  headers_encodable {[ "Content-Type" := "application/json";
                       "X-API-Key" := key ]} = isascii key.
Proof.
  transitivity (true && (isascii key && true)); [vm_compute; reflexivity |].
  cbn [andb]. apply andb_true_r.
Qed.

Lemma non_ascii_key_rejected (net : network) key base timeout :
  isascii key = false -> httpx_rejects net key base timeout <> None.
Proof.
  intros Hkey. unfold httpx_rejects. apply unencodable_headers_refused.
  rewrite key_headers_encodable. exact Hkey.
Qed.

Lemma sync_init_run key base chain g timeout net :
  run (ProofGate.__init__ key base chain g timeout) net =
  if String.eqb key EmptyString then (Raise missing_api_key, [])
  else if String.prefix "pg_" key then
    match httpx_rejects net key base timeout with
    | Some e => (Raise e, [])
    | None =>
        (Return {| ProofGate.config := built_config key base chain g timeout;
                   ProofGate._client := built_session Client key base timeout |},
         [Opened (built_session Client key base timeout)])
    end
  else (Raise invalid_api_key, []).
Proof.
  unfold ProofGate.__init__. cbv zeta.
  destruct (String.eqb key EmptyString); [reflexivity |].
  destruct (String.prefix "pg_" key); [| reflexivity].
  cbn [negb]. rewrite run_bind. unfold run at 1, httpx_new, httpx_rejects.
  destruct (client_error net _ _ _); reflexivity.
Qed.

Lemma async_init_run key base chain g timeout net :
  run (AsyncProofGate.__init__ key base chain g timeout) net =
  if String.eqb key EmptyString then (Raise missing_api_key, [])
  else if String.prefix "pg_" key then
    match httpx_rejects net key base timeout with
    | Some e => (Raise e, [])
    | None =>
        (Return {| AsyncProofGate.config := built_config key base chain g timeout;
                   AsyncProofGate._client :=
                     built_session AsyncClient key base timeout |},
         [Opened (built_session AsyncClient key base timeout)])
    end
  else (Raise invalid_api_key, []).
Proof.
  unfold AsyncProofGate.__init__. cbv zeta.
  destruct (String.eqb key EmptyString); [reflexivity |].
  destruct (String.prefix "pg_" key); [| reflexivity].
  cbn [negb]. rewrite run_bind. unfold run at 1, httpx_new, httpx_rejects.
  destruct (client_error net _ _ _); reflexivity.
Qed.

Lemma prefixed_key_not_empty key :
  String.prefix "pg_" key = true -> String.eqb key EmptyString = false.
Proof. destruct key; [discriminate | reflexivity]. Qed.

(** The clients of the examples are the ones the constructors build. *)
Lemma example_clients_built (net : network) :
  httpx_rejects net "pg_test" None None = None ->
  run (ProofGate.__init__ "pg_test" None None None None) net
  = (Return demo_sync, [Opened (demo_session Client)])
  /\ run (AsyncProofGate.__init__ "pg_test" None None None None) net
     = (Return demo_async, [Opened (demo_session AsyncClient)])
  /\ run (ProofGate.__init__ "pg_test" None None (Some "gr_default") None) net
     = (Return guarded_sync, [Opened (demo_session Client)])
  /\ run (AsyncProofGate.__init__ "pg_test" None None (Some "gr_default") None) net
     = (Return guarded_async, [Opened (demo_session AsyncClient)])
  /\ run (ProofGate.__init__ "pg_test" None (Some 8453) None None) net
     = (Return signer_client, [Opened (demo_session Client)]).
Proof.
  intros Hacc. rewrite !sync_init_run, !async_init_run, Hacc.
  repeat split.
Qed.

(** C3, as the code has it.  Both constructors: with an empty [api_key],
    or one that does not start with [pg_], the constructor raises a
    [ProofGateError] (code [MISSING_API_KEY] for the empty key,
    [INVALID_API_KEY] otherwise) and has performed no event at all: no
    HTTP session opened, no request sent.  With a key that starts with
    [pg_] the constructor goes on to create the httpx session, and httpx
    has checks of its own: when httpx raises -- [InvalidURL] for a base
    URL it cannot parse, [UnicodeEncodeError] for a key with a character
    outside ASCII, which no header can carry -- that exception comes out
    of the constructor, no session exists and nothing was sent; and for a
    key with a character outside ASCII httpx does raise.  When httpx
    accepts the arguments, the constructor does not raise: it returns a
    client, having opened its session and sent nothing. *)
Theorem constructor_checks_api_key key base chain g timeout (net : network) :
  (key = EmptyString \/ String.prefix "pg_" key = false ->
   let e := if String.eqb key EmptyString then missing_api_key
            else invalid_api_key in
   run (ProofGate.__init__ key base chain g timeout) net = (Raise e, [])
   /\ run (AsyncProofGate.__init__ key base chain g timeout) net = (Raise e, [])
   /\ exists pe, e = ProofGateError_ pe)
  /\
  (String.prefix "pg_" key = true ->
   (forall e, httpx_rejects net key base timeout = Some e ->
      run (ProofGate.__init__ key base chain g timeout) net = (Raise e, [])
      /\ run (AsyncProofGate.__init__ key base chain g timeout) net
         = (Raise e, []))
   /\
   (isascii key = false ->
      exists e,
        run (ProofGate.__init__ key base chain g timeout) net = (Raise e, [])
        /\ run (AsyncProofGate.__init__ key base chain g timeout) net
           = (Raise e, []))
   /\
   (httpx_rejects net key base timeout = None ->
      (exists pg, run (ProofGate.__init__ key base chain g timeout) net
                  = (Return pg, [Opened (ProofGate._client pg)])) /\
      (exists pg, run (AsyncProofGate.__init__ key base chain g timeout) net
                  = (Return pg, [Opened (AsyncProofGate._client pg)])))).
Proof.
  rewrite sync_init_run, async_init_run. split.
  - intros Hbad. cbv zeta. destruct (String.eqb key EmptyString) eqn:Hempty.
    + repeat split. eexists. reflexivity.
    + destruct Hbad as [-> | ->]; [discriminate Hempty |].
      repeat split. eexists. reflexivity.
  - intros Hpre.
    rewrite (prefixed_key_not_empty key Hpre), Hpre. split; [| split].
    + intros e ->. split; reflexivity.
    + intros Hkey.
      pose proof (non_ascii_key_rejected net key base timeout Hkey) as Hrej.
      destruct (httpx_rejects net key base timeout) as [e |];
        [| exfalso; apply Hrej; reflexivity].
      exists e. split; reflexivity.
    + intros ->. split.
      * exists {| ProofGate.config := built_config key base chain g timeout;
                  ProofGate._client := built_session Client key base timeout |}.
        reflexivity.
      * exists {| AsyncProofGate.config := built_config key base chain g timeout;
                  AsyncProofGate._client :=
                    built_session AsyncClient key base timeout |}.
        reflexivity.
Qed.

Lemma constructor_checks_api_key_witness :
  (run (ProofGate.__init__ "sk_live" None None None None)
     (always 200 (Json rejected_body)) = (Raise invalid_api_key, [])
   /\ run (AsyncProofGate.__init__ "sk_live" None None None None)
        (always 200 (Json rejected_body)) = (Raise invalid_api_key, [])
   /\ exists pe, invalid_api_key = ProofGateError_ pe)
  /\
  (run (ProofGate.__init__ EmptyString None None None None)
     (always 200 (Json rejected_body)) = (Raise missing_api_key, [])
   /\ run (AsyncProofGate.__init__ EmptyString None None None None)
        (always 200 (Json rejected_body)) = (Raise missing_api_key, [])
   /\ exists pe, missing_api_key = ProofGateError_ pe)
  /\
  ((exists pg, run (ProofGate.__init__ "pg_test" None None None None)
                 (always 200 (Json rejected_body))
               = (Return pg, [Opened (ProofGate._client pg)])) /\
   (exists pg, run (AsyncProofGate.__init__ "pg_test" None None None None)
                 (always 200 (Json rejected_body))
               = (Return pg, [Opened (AsyncProofGate._client pg)])))
  /\
  (exists e,
     run (ProofGate.__init__ latin_key None None None None)
       (always 200 (Json rejected_body)) = (Raise e, [])
     /\ run (AsyncProofGate.__init__ latin_key None None None None)
          (always 200 (Json rejected_body)) = (Raise e, []))
  /\
  (run (ProofGate.__init__ "pg_test" (Some bad_base_url) None None None)
     (always_behind_url_check 200 (Json rejected_body))
   = (Raise (InvalidURL "Invalid non-printable ASCII character in URL"), [])
   /\ run (AsyncProofGate.__init__ "pg_test" (Some bad_base_url) None None None)
        (always_behind_url_check 200 (Json rejected_body))
      = (Raise (InvalidURL "Invalid non-printable ASCII character in URL"), [])).
Proof.
  split; [| split; [| split; [| split]]].
  - apply (proj1 (constructor_checks_api_key "sk_live" None None None None
                    (always 200 (Json rejected_body)))).
    right. reflexivity.
  - apply (proj1 (constructor_checks_api_key EmptyString None None None None
                    (always 200 (Json rejected_body)))).
    left. reflexivity.
  - apply (proj2 (proj2 (proj2 (constructor_checks_api_key "pg_test" None None
                    None None (always 200 (Json rejected_body))) eq_refl))).
    reflexivity.
  - apply (proj1 (proj2 (proj2 (constructor_checks_api_key latin_key None None
                    None None (always 200 (Json rejected_body))) eq_refl))).
    reflexivity.
  - apply (proj1 (proj2 (constructor_checks_api_key "pg_test"
                    (Some bad_base_url) None None None
                    (always_behind_url_check 200 (Json rejected_body))) eq_refl)).
    reflexivity.
Defined.

(** C3 as stated fails: a key that is not empty and starts with [pg_],
    and yet both constructors raise, since httpx cannot encode the header
    [X-API-Key]; no session was opened. *)
Lemma prefixed_key_can_raise :
  latin_key <> EmptyString
  /\ String.prefix "pg_" latin_key = true
  /\ (forall net : network,
        exists e,
          run (ProofGate.__init__ latin_key None None None None) net
          = (Raise e, [])
          /\ run (AsyncProofGate.__init__ latin_key None None None None) net
             = (Raise e, []))
  /\ run (ProofGate.__init__ latin_key None None None None)
       (always 200 (Json rejected_body))
     = (Raise (UnicodeEncodeError "ordinal not in range(128)"), [])
  /\ run (AsyncProofGate.__init__ latin_key None None None None)
       (always 200 (Json rejected_body))
     = (Raise (UnicodeEncodeError "ordinal not in range(128)"), []).
Proof.
  split; [discriminate |]. split; [reflexivity |]. split.
  - intros net. rewrite sync_init_run, async_init_run.
    change (String.eqb latin_key EmptyString) with false.
    change (String.prefix "pg_" latin_key) with true. cbv iota.
    pose proof (non_ascii_key_rejected net latin_key None None eq_refl) as Hrej.
    destruct (httpx_rejects net latin_key None None) as [e |];
      [| exfalso; apply Hrej; reflexivity].
    exists e. split; reflexivity.
  - split; vm_compute; reflexivity.
Qed.

(** C10. A client constructed without [chain_id] has [config.chain_id = 56],
    while [ProofGateConfig] on its own defaults [chain_id] to 8453.  The
    model's default never shows through a client: whatever the arguments,
    the client's [config.chain_id] is the [chain_id] argument when given
    and 56 when not.  And the constructors do return such a client: with
    a key that starts with [pg_] and arguments that httpx accepts, each
    of them returns a client whose [config.chain_id] is as said. *)
Theorem constructor_default_chain_id key base chain g timeout (net : network) :
  ProofGateConfig.chain_id (ProofGateConfig.new key None None None None) = 8453
  /\
  (forall pg tr,
     run (ProofGate.__init__ key base chain g timeout) net = (Return pg, tr) ->
     ProofGateConfig.chain_id (ProofGate.config pg) = default 56 chain /\
     (chain = None -> ProofGateConfig.chain_id (ProofGate.config pg) = 56))
  /\
  (forall pg tr,
     run (AsyncProofGate.__init__ key base chain g timeout) net = (Return pg, tr) ->
     ProofGateConfig.chain_id (AsyncProofGate.config pg) = default 56 chain /\
     (chain = None -> ProofGateConfig.chain_id (AsyncProofGate.config pg) = 56))
  /\
  (String.prefix "pg_" key = true ->
   httpx_rejects net key base timeout = None ->
   (exists pg,
      run (ProofGate.__init__ key base chain g timeout) net
      = (Return pg, [Opened (ProofGate._client pg)]) /\
      ProofGateConfig.chain_id (ProofGate.config pg) = default 56 chain /\
      (chain = None -> ProofGateConfig.chain_id (ProofGate.config pg) = 56))
   /\
   (exists pg,
      run (AsyncProofGate.__init__ key base chain g timeout) net
      = (Return pg, [Opened (AsyncProofGate._client pg)]) /\
      ProofGateConfig.chain_id (AsyncProofGate.config pg) = default 56 chain /\
      (chain = None ->
       ProofGateConfig.chain_id (AsyncProofGate.config pg) = 56))).
Proof.
  split; [reflexivity |].
  rewrite sync_init_run, async_init_run.
  split; [| split].
  - intros pg tr Hrun.
    destruct (String.eqb key EmptyString); try discriminate Hrun.
    destruct (String.prefix "pg_" key); try discriminate Hrun.
    destruct (httpx_rejects net key base timeout); try discriminate Hrun.
    injection Hrun as <- _. split; [reflexivity | intros ->; reflexivity].
  - intros pg tr Hrun.
    destruct (String.eqb key EmptyString); try discriminate Hrun.
    destruct (String.prefix "pg_" key); try discriminate Hrun.
    destruct (httpx_rejects net key base timeout); try discriminate Hrun.
    injection Hrun as <- _. split; [reflexivity | intros ->; reflexivity].
  - intros Hpre Hacc.
    rewrite (prefixed_key_not_empty key Hpre), Hpre, Hacc. split.
    + exists {| ProofGate.config := built_config key base chain g timeout;
                ProofGate._client := built_session Client key base timeout |}.
      split; [reflexivity |]. split; [reflexivity | intros ->; reflexivity].
    + exists {| AsyncProofGate.config := built_config key base chain g timeout;
                AsyncProofGate._client :=
                  built_session AsyncClient key base timeout |}.
      split; [reflexivity |]. split; [reflexivity | intros ->; reflexivity].
Qed.

Lemma constructor_default_chain_id_witness :
  (ProofGateConfig.chain_id (ProofGate.config demo_sync) = 56 /\
   ProofGateConfig.chain_id (AsyncProofGate.config demo_async) = 56)
  /\
  (exists pg,
     run (ProofGate.__init__ "pg_test" None None None None)
       (always 200 (Json rejected_body))
     = (Return pg, [Opened (ProofGate._client pg)]) /\
     ProofGateConfig.chain_id (ProofGate.config pg) = 56)
  /\
  (exists pg,
     run (AsyncProofGate.__init__ "pg_test" None None None None)
       (always 200 (Json rejected_body))
     = (Return pg, [Opened (AsyncProofGate._client pg)]) /\
     ProofGateConfig.chain_id (AsyncProofGate.config pg) = 56).
Proof.
  pose proof (constructor_default_chain_id "pg_test" None None None None
                (always 200 (Json rejected_body))) as (_ & Hs & Ha & Hex).
  destruct (Hex eq_refl eq_refl)
    as ((pgs & Hrs & Hcs & _) & (pga & Hra & Hca & _)).
  split; [split |].
  - apply (Hs demo_sync [Opened (demo_session Client)]); reflexivity.
  - apply (Ha demo_async [Opened (demo_session AsyncClient)]); reflexivity.
  - split; [exists pgs | exists pga]; split; assumption.
Defined.

(** ** [is_transaction_safe] *)

Lemma rejected_body_validates `{Pydantic} :
  ValidateResponse.model_validate rejected_body = Some rejected.
Proof.
  destruct H as [bv iv fv Hb Hi Hf].
  unfold ValidateResponse.model_validate, rejected_body, required, defaulted,
    lookup_field, list_validator, ValidationCheck.model_validate.
  cbn [bool_validator int_validator float_validator].
  vm_compute. rewrite !Hb, Hi. reflexivity.
Qed.

Lemma sync_validate_explicit_value `{Pydantic} pg f t d v g c net :
  run (ProofGate.validate pg f t d (Some (default (JStr "0") v)) g c) net =
  run (ProofGate.validate pg f t d v g c) net.
Proof. rewrite !sync_validate_run. reflexivity. Qed.

Lemma run_with_ {A} (m : Py A) s net :
  run (with_ m (ProofGate.__exit__ s)) net =
  ((run m net).1, (run m net).2 ++ [Closed (ProofGate._client s)]).
Proof.
  unfold with_, run, ProofGate.__exit__, ProofGate.close, httpx_close.
  destruct (m net) as [o tr]. reflexivity.
Qed.

Lemma is_transaction_safe_run `{Pydantic} key f t d v net pg tr0 r tr :
  run (ProofGate.__init__ key None None None None) net = (Return pg, tr0) ->
  run (ProofGate.validate pg f t d v JNull JNull) net = (Return r, tr) ->
  run (is_transaction_safe key f t d v) net
  = (Return (ValidateResponse.safe r),
     tr0 ++ tr ++ [Closed (ProofGate._client pg)]).
Proof.
  intros Hinit Hval. unfold is_transaction_safe. cbv zeta.
  rewrite run_bind, Hinit. unfold ProofGate.__enter__.
  rewrite run_bind, run_mret. cbv beta iota zeta.
  rewrite run_with_, run_bind.
  rewrite sync_validate_explicit_value, Hval. cbn.
  rewrite app_nil_r. reflexivity.
Qed.

(** C9. [is_transaction_safe]: when the client it builds from [api_key]
    is [pg] and the [validate] call it makes returns a response [r], the
    helper returns [r.safe] (it does not raise), after opening the
    session, making that one call and closing the session.  Against the
    stub server of the end-to-end example, whose response has
    [safe = false], it returns [False]. *)
Theorem is_transaction_safe_returns_safe `{Pydantic}
    key f t d v net pg tr0 r tr :
  run (ProofGate.__init__ key None None None None) net = (Return pg, tr0) ->
  run (ProofGate.validate pg f t d v JNull JNull) net = (Return r, tr) ->
  run (is_transaction_safe key f t d v) net
  = (Return (ValidateResponse.safe r),
     tr0 ++ tr ++ [Closed (ProofGate._client pg)])
  /\
  (run (is_transaction_safe "pg_test" transfer_from transfer_to transfer_data
          None) (always 200 (Json rejected_body))).1 = Return false.
Proof.
  intros Hinit Hval. split.
  - apply (is_transaction_safe_run key f t d v net pg tr0 r tr Hinit Hval).
  - rewrite (is_transaction_safe_run "pg_test" transfer_from transfer_to
               transfer_data None (always 200 (Json rejected_body)) demo_sync
               [Opened (demo_session Client)] rejected
               [Sent (build_request (demo_session Client) "POST" "/validate"
                        (Some (validate_payload demo_config transfer_from
                                 transfer_to transfer_data None JNull JNull)))]).
    + reflexivity.
    + reflexivity.
    + rewrite sync_validate_run. cbv zeta. unfold always, surface.
      cbn [transport Response.body]. cbn [decoded Response.is_success
        Response.status_code Z.leb Z.compare Pos.compare Pos.compare_cont andb].
      rewrite rejected_body_validates. reflexivity.
Qed.

Lemma is_transaction_safe_returns_safe_witness :
  run (is_transaction_safe (H := strict) "pg_test" transfer_from transfer_to
         transfer_data None) (always 200 (Json rejected_body))
  = (Return false,
     [Opened (demo_session Client)] ++
     [Sent (build_request (demo_session Client) "POST" "/validate"
              (Some (validate_payload demo_config transfer_from transfer_to
                       transfer_data None JNull JNull)))] ++
     [Closed (demo_session Client)]).
Proof.
  apply (proj1 (is_transaction_safe_returns_safe (H := strict)
                  "pg_test" transfer_from transfer_to transfer_data None
                  (always 200 (Json rejected_body)) demo_sync
                  [Opened (demo_session Client)] rejected
                  [Sent (build_request (demo_session Client) "POST" "/validate"
                           (Some (validate_payload demo_config transfer_from
                                    transfer_to transfer_data None JNull JNull)))]
                  ltac:(reflexivity) ltac:(vm_compute; reflexivity))).
Defined.

(** ** The two clients *)

Section other_methods.
Context `{Pydantic}.

Lemma async_check_agent_run (self : AsyncProofGate.t) wallet net :
  run (AsyncProofGate.check_agent self wallet) net =
  let rq := build_request (AsyncProofGate._client self) "GET"
              ("/agents/check?wallet=" +:+ wallet) None in
  (decoded "AgentCheckResponse" AgentCheckResponse.model_validate
     (surface (net rq)), sent (net rq) rq).
Proof.
  unfold AsyncProofGate.check_agent, await.
  apply run_then_decode. apply async_request_surface.
Qed.

Lemma sync_check_agent_run (self : ProofGate.t) wallet net :
  run (ProofGate.check_agent self wallet) net =
  let rq := build_request (ProofGate._client self) "GET"
              ("/agents/check?wallet=" +:+ wallet) None in
  (decoded "AgentCheckResponse" AgentCheckResponse.model_validate
     (surface (net rq)), sent (net rq) rq).
Proof.
  unfold ProofGate.check_agent.
  apply run_then_decode. apply sync_request_surface.
Qed.

Lemma async_get_evidence_run (self : AsyncProofGate.t) id net :
  run (AsyncProofGate.get_evidence self id) net =
  let rq := build_request (AsyncProofGate._client self) "GET"
              ("/evidence/" +:+ id) None in
  (decoded "EvidenceResponse" EvidenceResponse.model_validate
     (surface (net rq)), sent (net rq) rq).
Proof.
  unfold AsyncProofGate.get_evidence, await.
  apply run_then_decode. apply async_request_surface.
Qed.

Lemma sync_get_evidence_run (self : ProofGate.t) id net :
  run (ProofGate.get_evidence self id) net =
  let rq := build_request (ProofGate._client self) "GET"
              ("/evidence/" +:+ id) None in
  (decoded "EvidenceResponse" EvidenceResponse.model_validate
     (surface (net rq)), sent (net rq) rq).
Proof.
  unfold ProofGate.get_evidence.
  apply run_then_decode. apply sync_request_surface.
Qed.

Lemma async_get_usage_run (self : AsyncProofGate.t) wallet net :
  run (AsyncProofGate.get_usage self wallet) net =
  let rq := build_request (AsyncProofGate._client self) "GET"
              ("/validate?wallet=" +:+ wallet) None in
  (decoded "UsageResponse" UsageResponse.model_validate
     (surface (net rq)), sent (net rq) rq).
Proof.
  unfold AsyncProofGate.get_usage, await.
  apply run_then_decode. apply async_request_surface.
Qed.

Lemma sync_get_usage_run (self : ProofGate.t) wallet net :
  run (ProofGate.get_usage self wallet) net =
  let rq := build_request (ProofGate._client self) "GET"
              ("/validate?wallet=" +:+ wallet) None in
  (decoded "UsageResponse" UsageResponse.model_validate
     (surface (net rq)), sent (net rq) rq).
Proof.
  unfold ProofGate.get_usage.
  apply run_then_decode. apply sync_request_surface.
Qed.
End other_methods.

Lemma same_setup_request a s method path j :
  same_setup a s ->
  build_request (AsyncProofGate._client a) method path j
  = build_request (ProofGate._client s) method path j.
Proof.
  intros (_ & Hb & Ht & Hh). unfold build_request. rewrite Hb, Ht, Hh.
  reflexivity.
Qed.

(** C7. The asynchronous and the synchronous client do the same thing.
    Given the same arguments the two constructors either raise the same
    error, having done nothing, or return clients set up alike (same
    configuration; sessions with the same base URL, timeout and headers).
    Two clients set up alike, called with the same arguments against the
    same transport, build the same request (method, base URL, path,
    headers, timeout, JSON body), send exactly that one request, and end
    with the same outcome: the same returned object or the same raised
    error.  This holds for [_request], [validate], [validate_or_throw],
    [check_agent], [get_evidence] and [get_usage]. *)
Theorem sync_and_async_clients_agree `{Pydantic} :
  (forall key base chain g timeout net,
     (exists e,
        run (AsyncProofGate.__init__ key base chain g timeout) net = (Raise e, [])
        /\ run (ProofGate.__init__ key base chain g timeout) net = (Raise e, []))
     \/
     (exists a s,
        run (AsyncProofGate.__init__ key base chain g timeout) net
        = (Return a, [Opened (AsyncProofGate._client a)])
        /\ run (ProofGate.__init__ key base chain g timeout) net
            = (Return s, [Opened (ProofGate._client s)])
        /\ same_setup a s))
  /\
  (forall a s net,
     same_setup a s ->
     (forall method path j,
        build_request (AsyncProofGate._client a) method path j
        = build_request (ProofGate._client s) method path j
        /\ run (AsyncProofGate._request a method path j) net
            = run (ProofGate._request s method path j) net)
     /\ (forall f t d v g c,
           run (AsyncProofGate.validate a f t d v g c) net
           = run (ProofGate.validate s f t d v g c) net)
     /\ (forall f t d v g c,
           run (AsyncProofGate.validate_or_throw a f t d v g c) net
           = run (ProofGate.validate_or_throw s f t d v g c) net)
     /\ (forall wallet,
           run (AsyncProofGate.check_agent a wallet) net
           = run (ProofGate.check_agent s wallet) net)
     /\ (forall id,
           run (AsyncProofGate.get_evidence a id) net
           = run (ProofGate.get_evidence s id) net)
     /\ (forall wallet,
           run (AsyncProofGate.get_usage a wallet) net
           = run (ProofGate.get_usage s wallet) net)).
Proof.
  split.
  - intros key base chain g timeout net.
    rewrite async_init_run, sync_init_run.
    destruct (String.eqb key EmptyString); [left; eexists; split; reflexivity |].
    destruct (String.prefix "pg_" key); [| left; eexists; split; reflexivity].
    destruct (httpx_rejects net key base timeout);
      [left; eexists; split; reflexivity |].
    right.
    exists {| AsyncProofGate.config := built_config key base chain g timeout;
              AsyncProofGate._client :=
                built_session AsyncClient key base timeout |},
           {| ProofGate.config := built_config key base chain g timeout;
              ProofGate._client := built_session Client key base timeout |}.
    repeat split.
  - intros a s net Hsame.
    assert (Hv : forall f t d v g c,
               run (AsyncProofGate.validate a f t d v g c) net
               = run (ProofGate.validate s f t d v g c) net).
    { intros. rewrite async_validate_run, sync_validate_run. cbv zeta.
      destruct Hsame as (Hc & Hrest). rewrite Hc.
      rewrite (same_setup_request a s) by (split; assumption). reflexivity. }
    split; [| split; [exact Hv | split; [| split; [| split]]]].
    + intros method path j. split; [apply same_setup_request, Hsame |].
      rewrite async_request_surface, sync_request_surface. cbv zeta.
      rewrite (same_setup_request a s) by exact Hsame. reflexivity.
    + intros. rewrite async_validate_or_throw_run, sync_validate_or_throw_run.
      rewrite Hv. reflexivity.
    + intros. rewrite async_check_agent_run, sync_check_agent_run. cbv zeta.
      rewrite (same_setup_request a s) by exact Hsame. reflexivity.
    + intros. rewrite async_get_evidence_run, sync_get_evidence_run. cbv zeta.
      rewrite (same_setup_request a s) by exact Hsame. reflexivity.
    + intros. rewrite async_get_usage_run, sync_get_usage_run. cbv zeta.
      rewrite (same_setup_request a s) by exact Hsame. reflexivity.
Qed.

Lemma demo_same_setup : same_setup demo_async demo_sync.
Proof. repeat split. Defined.

Lemma sync_and_async_clients_agree_witness :
  run (AsyncProofGate.validate_or_throw (H := strict) demo_async
         transfer_from transfer_to transfer_data None JNull JNull)
      (always 200 (Json rejected_body))
  = run (ProofGate.validate_or_throw (H := strict) demo_sync
           transfer_from transfer_to transfer_data None JNull JNull)
        (always 200 (Json rejected_body)).
Proof.
  apply (proj2 (sync_and_async_clients_agree (H := strict))
           demo_async demo_sync (always 200 (Json rejected_body))
           demo_same_setup).
Defined.

(** ** Every method at once *)

Lemma run_discard {A} (m : Py A) net :
  run (discard m) net =
  (match (run m net).1 with Return _ => Return tt | Raise e => Raise e end,
   (run m net).2).
Proof.
  unfold discard. rewrite run_bind. destruct (run m net) as [[x | e] tr].
  - cbn. rewrite app_nil_r. reflexivity.
  - reflexivity.
Qed.

Section every_method.
Context `{Pydantic}.

(** Every call hands to httpx exactly the request [request_of] names,
    which is sent unless httpx refuses it, and an exception out of
    [_request] is the outcome of the call. *)
Lemma sync_call_sends (s : ProofGate.t) c (net : network) :
  (run (perform_sync s c) net).2
  = sent (net (request_of (ProofGate.config s) (ProofGate._client s) c))
         (request_of (ProofGate.config s) (ProofGate._client s) c).
Proof.
  destruct c; unfold perform_sync, request_of; rewrite run_discard; cbn [snd].
  - rewrite sync_request_surface. reflexivity.
  - rewrite sync_validate_run, sync_validate_sent. reflexivity.
  - rewrite sync_validate_or_throw_run, sync_validate_run, sync_validate_sent.
    reflexivity.
  - rewrite sync_check_agent_run. reflexivity.
  - rewrite sync_get_evidence_run. reflexivity.
  - rewrite sync_get_usage_run. reflexivity.
Qed.

Lemma async_call_sends (a : AsyncProofGate.t) c (net : network) :
  (run (perform_async a c) net).2
  = sent (net (request_of (AsyncProofGate.config a) (AsyncProofGate._client a) c))
         (request_of (AsyncProofGate.config a) (AsyncProofGate._client a) c).
Proof.
  destruct c; unfold perform_async, request_of; rewrite run_discard; cbn [snd].
  - rewrite async_request_surface. reflexivity.
  - rewrite async_validate_run, async_validate_sent. reflexivity.
  - rewrite async_validate_or_throw_run, async_validate_run,
      async_validate_sent. reflexivity.
  - rewrite async_check_agent_run. reflexivity.
  - rewrite async_get_evidence_run. reflexivity.
  - rewrite async_get_usage_run. reflexivity.
Qed.

Lemma sync_call_raises (s : ProofGate.t) c (net : network) e :
  surface (net (request_of (ProofGate.config s) (ProofGate._client s) c))
  = Raise e ->
  (run (perform_sync s c) net).1 = Raise e.
Proof.
  destruct c; unfold perform_sync, request_of; intros Hs;
    rewrite run_discard; cbn [fst].
  - rewrite sync_request_surface. cbv zeta. cbn [fst]. rewrite Hs. reflexivity.
  - rewrite sync_validate_run. cbv zeta. cbn [fst]. rewrite Hs. reflexivity.
  - rewrite sync_validate_or_throw_run, sync_validate_run. cbv zeta.
    cbn [fst]. rewrite Hs. reflexivity.
  - rewrite sync_check_agent_run. cbv zeta. cbn [fst]. rewrite Hs. reflexivity.
  - rewrite sync_get_evidence_run. cbv zeta. cbn [fst]. rewrite Hs. reflexivity.
  - rewrite sync_get_usage_run. cbv zeta. cbn [fst]. rewrite Hs. reflexivity.
Qed.

Lemma async_call_raises (a : AsyncProofGate.t) c (net : network) e :
  surface (net (request_of (AsyncProofGate.config a)
                  (AsyncProofGate._client a) c)) = Raise e ->
  (run (perform_async a c) net).1 = Raise e.
Proof.
  destruct c; unfold perform_async, request_of; intros Hs;
    rewrite run_discard; cbn [fst].
  - rewrite async_request_surface. cbv zeta. cbn [fst]. rewrite Hs. reflexivity.
  - rewrite async_validate_run. cbv zeta. cbn [fst]. rewrite Hs. reflexivity.
  - rewrite async_validate_or_throw_run, async_validate_run. cbv zeta.
    cbn [fst]. rewrite Hs. reflexivity.
  - rewrite async_check_agent_run. cbv zeta. cbn [fst]. rewrite Hs. reflexivity.
  - rewrite async_get_evidence_run. cbv zeta. cbn [fst]. rewrite Hs. reflexivity.
  - rewrite async_get_usage_run. cbv zeta. cbn [fst]. rewrite Hs. reflexivity.
Qed.
End every_method.

Lemma maps_to_surface reply e :
  maps_to reply e -> surface reply = Raise (ProofGateError_ e).
Proof.
  intros [status m Hstatus | c msg Hc | c msg Hc]; unfold surface.
  - cbn [Response.body]. unfold Response.is_success. cbn [Response.status_code].
    destruct ((200 <=? status) && (status <=? 299)) eqn:Hok; [| reflexivity].
    apply andb_true_iff in Hok. lia.
  - rewrite Hc. reflexivity.
  - rewrite Hc. reflexivity.
Qed.

Lemma maps_to_sent reply e rq : maps_to reply e -> sent reply rq = [Sent rq].
Proof. intros [status m Hstatus | c msg Hc | c msg Hc]; reflexivity. Qed.

(** ** Error mapping *)

(** C4, as the code has it.  For every method of both clients: when the
    transport's answer to the request maps to an error [e] -- a response
    with a status outside 200..299 and a JSON object as body maps to an
    API error with that status code; a timeout maps to the error with
    code [TIMEOUT]; any other transport failure maps to the error with
    code [NETWORK_ERROR] and the failure's message -- the call raises
    [e], having sent that one request.  A timeout never yields the code
    [NETWORK_ERROR].  The message of an API error is the body's [error]
    value when that is truthy, otherwise its [message] value when that is
    truthy, otherwise ["HTTP <status>"]. *)
Theorem transport_outcome_maps_to_error `{Pydantic}
    (a : AsyncProofGate.t) (s : ProofGate.t) c (net : network) reply e :
  maps_to reply e ->
  (net (request_of (ProofGate.config s) (ProofGate._client s) c) = reply ->
   run (perform_sync s c) net
   = (Raise (ProofGateError_ e),
      [Sent (request_of (ProofGate.config s) (ProofGate._client s) c)]))
  /\
  (net (request_of (AsyncProofGate.config a) (AsyncProofGate._client a) c)
   = reply ->
   run (perform_async a c) net
   = (Raise (ProofGateError_ e),
      [Sent (request_of (AsyncProofGate.config a) (AsyncProofGate._client a) c)]))
  /\
  (forall x msg, reply = Failed x msg ->
     if is_TimeoutException x
     then ProofGateError.code e = "TIMEOUT"
          /\ ProofGateError.code e <> "NETWORK_ERROR"
     else ProofGateError.code e = "NETWORK_ERROR"
          /\ ProofGateError.message e = JStr msg)
  /\
  (forall status m,
     reply = Responded {| Response.status_code := status;
                          Response.body := Json (JObj m) |} ->
     ProofGateError.code e = "API_ERROR" /\
     ProofGateError.status_code e = Some status /\
     (forall v, m !! "error" = Some v -> truthy v = true ->
        ProofGateError.message e = v) /\
     (forall v, truthy (default JNull (m !! "error")) = false ->
        m !! "message" = Some v -> truthy v = true ->
        ProofGateError.message e = v) /\
     (truthy (default JNull (m !! "error")) = false ->
      truthy (default JNull (m !! "message")) = false ->
      ProofGateError.message e = JStr ("HTTP " +:+ pretty status))).
Proof.
  intros Hmaps. pose proof (maps_to_surface reply e Hmaps) as Hsurf.
  split; [| split; [| split]].
  - intros Hnet. rewrite (surjective_pairing (run _ _)), sync_call_sends.
    rewrite (sync_call_raises s c net (ProofGateError_ e));
      rewrite Hnet; [| exact Hsurf].
    rewrite (maps_to_sent reply e _ Hmaps). reflexivity.
  - intros Hnet. rewrite (surjective_pairing (run _ _)), async_call_sends.
    rewrite (async_call_raises a c net (ProofGateError_ e));
      rewrite Hnet; [| exact Hsurf].
    rewrite (maps_to_sent reply e _ Hmaps). reflexivity.
  - intros x msg ->. inversion Hmaps as [| ? ? Hx | ? ? Hx]; subst;
      rewrite Hx; cbn; split; [reflexivity | discriminate | reflexivity ..].
  - intros status m ->. inversion Hmaps; subst. unfold api_error. cbn.
    repeat split.
    + intros v Hv Ht. rewrite Hv. cbn. rewrite Ht. reflexivity.
    + intros v He Hv Ht. rewrite He, Hv. cbn. rewrite Ht. reflexivity.
    + intros He Hm. rewrite He, Hm. reflexivity.
Qed.

Lemma transport_outcome_maps_to_error_witness :
  run (perform_sync (H := strict) demo_sync (Call_get_evidence "val_1"))
      (always 404 (Json (JObj {[ "error" := JStr "not found" ]})))
  = (Raise (ProofGateError_
             {| ProofGateError.message := JStr "not found";
                ProofGateError.code := "API_ERROR";
                ProofGateError.status_code := Some 404;
                ProofGateError.validation_result := None |}),
     [Sent (build_request (demo_session Client) "GET" "/evidence/val_1" None)]).
Proof.
  exact (proj1 (transport_outcome_maps_to_error (H := strict)
                  demo_async demo_sync (Call_get_evidence "val_1")
                  (always 404 (Json (JObj {[ "error" := JStr "not found" ]})))
                  _ _
                  (maps_api_error 404 {[ "error" := JStr "not found" ]}
                     ltac:(lia)))
               eq_refl).
Defined.

(** A read timeout surfaces with the code [TIMEOUT]; a refused connection
    with the code [NETWORK_ERROR] and the transport's message. *)
Example timeout_and_refused_connection :
  (run (ProofGate._request demo_sync "GET" "/evidence/val_1" None)
       (failing ReadTimeout "timed out")).1
  = Raise (ProofGateError_ (ProofGateError.new (JStr "Request timeout")
                              "TIMEOUT" None None))
  /\
  (run (AsyncProofGate._request demo_async "GET" "/evidence/val_1" None)
       (failing ConnectError "connection refused")).1
  = Raise (ProofGateError_ (ProofGateError.new (JStr "connection refused")
                              "NETWORK_ERROR" None None)).
Proof. split; reflexivity. Qed.

(** C4 as stated fails: a 500 response whose JSON body has an [error]
    field holding the empty string surfaces as an API error whose message
    is ["HTTP 500"], not the field's value. *)
Lemma api_error_skips_empty_error_field :
  ({[ "error" := JStr EmptyString ]} : gmap string json) !! "error" = Some (JStr EmptyString)
  /\
  exists e tr,
    run (ProofGate._request demo_sync "GET" "/evidence/val_1" None)
        (always 500 (Json (JObj {[ "error" := JStr EmptyString ]})))
    = (Raise (ProofGateError_ e), tr)
    /\ ProofGateError.message e = JStr "HTTP 500"
    /\ ProofGateError.message e <> JStr EmptyString.
Proof.
  split; [vm_compute; reflexivity |].
  eexists _, _. split; [vm_compute; reflexivity |].
  split; [reflexivity | discriminate].
Qed.

(** ** Bodies the schema rejects *)

Lemma decoded_rejects {A} model (f : json -> option A) body :
  f body = None ->
  decoded model f (Return body) = Raise (ValidationError model body).
Proof. intros Hf. unfold decoded. rewrite Hf. reflexivity. Qed.

Lemma not_is_Some_None {A} (o : option A) :
  bool_decide (is_Some o) = false -> o = None.
Proof.
  intros Hd. apply bool_decide_eq_false in Hd.
  destruct o; [exfalso; apply Hd; eexists; reflexivity | reflexivity].
Qed.

Lemma surface_success status body :
  200 <= status <= 299 ->
  surface (Responded {| Response.status_code := status;
                        Response.body := Json body |}) = Return body.
Proof.
  intros Hstatus. unfold surface, Response.is_success. cbn.
  replace ((200 <=? status) && (status <=? 299)) with true; [reflexivity |].
  symmetry. apply andb_true_iff. lia.
Qed.

(** C5, as the code has it.  For every decoding method of both clients
    ([validate], [validate_or_throw], [check_agent], [get_evidence],
    [get_usage]): a 2xx response whose JSON body the method's schema
    rejects makes the call raise pydantic's [ValidationError] for that
    model and body, as it is, after the one request; that exception is
    not a [ProofGateError]. *)
Theorem rejected_body_raises_validation_error `{Pydantic}
    (a : AsyncProofGate.t) (s : ProofGate.t) c model (net : network)
    status body :
  200 <= status <= 299 ->
  model_of c = Some model ->
  schema_accepts c body = false ->
  (net (request_of (ProofGate.config s) (ProofGate._client s) c)
   = Responded {| Response.status_code := status; Response.body := Json body |} ->
   run (perform_sync s c) net
   = (Raise (ValidationError model body),
      [Sent (request_of (ProofGate.config s) (ProofGate._client s) c)]))
  /\
  (net (request_of (AsyncProofGate.config a) (AsyncProofGate._client a) c)
   = Responded {| Response.status_code := status; Response.body := Json body |} ->
   run (perform_async a c) net
   = (Raise (ValidationError model body),
      [Sent (request_of (AsyncProofGate.config a) (AsyncProofGate._client a) c)]))
  /\
  (forall e, ValidationError model body <> ProofGateError_ e).
Proof.
  intros Hstatus Hmodel Hrej.
  pose proof (surface_success status body Hstatus) as Hsurf.
  split; [| split; [| discriminate]].
  - intros Hnet. rewrite (surjective_pairing (run _ _)), sync_call_sends, Hnet.
    cbn [sent]. f_equal. revert Hnet.
    destruct c; try discriminate Hmodel; injection Hmodel as <-;
      cbn [schema_accepts] in Hrej; apply not_is_Some_None in Hrej;
      unfold perform_sync, request_of; intros Hnet; rewrite run_discard;
      rewrite ?sync_validate_or_throw_run, ?sync_validate_run,
        ?sync_check_agent_run, ?sync_get_evidence_run, ?sync_get_usage_run;
      cbv zeta; cbn [fst]; rewrite Hnet, Hsurf;
      rewrite (decoded_rejects _ _ _ Hrej); reflexivity.
  - intros Hnet. rewrite (surjective_pairing (run _ _)), async_call_sends, Hnet.
    cbn [sent]. f_equal. revert Hnet.
    destruct c; try discriminate Hmodel; injection Hmodel as <-;
      cbn [schema_accepts] in Hrej; apply not_is_Some_None in Hrej;
      unfold perform_async, request_of; intros Hnet; rewrite run_discard;
      rewrite ?async_validate_or_throw_run, ?async_validate_run,
        ?async_check_agent_run, ?async_get_evidence_run, ?async_get_usage_run;
      cbv zeta; cbn [fst]; rewrite Hnet, Hsurf;
      rewrite (decoded_rejects _ _ _ Hrej); reflexivity.
Qed.

Lemma rejected_body_raises_validation_error_witness :
  run (perform_sync (H := strict) demo_sync
         (Call_validate transfer_from transfer_to transfer_data None JNull JNull))
      (always 200 (Json (JObj ∅)))
  = (Raise (ValidationError "ValidateResponse" (JObj ∅)),
     [Sent (request_of demo_config (demo_session Client)
              (Call_validate transfer_from transfer_to transfer_data None
                 JNull JNull))]).
Proof.
  exact (proj1 (rejected_body_raises_validation_error (H := strict)
                  demo_async demo_sync
                  (Call_validate transfer_from transfer_to transfer_data None
                     JNull JNull)
                  "ValidateResponse"
                  (always 200 (Json (JObj ∅))) 200 (JObj ∅)
                  ltac:(lia) eq_refl eq_refl)
               eq_refl).
Defined.

(** C5 as stated fails: a 200 response with the body [{}] makes
    [validate] raise pydantic's [ValidationError]; what is raised is not
    a [ProofGateError] of any code. *)
Lemma validate_schema_failure_is_not_a_ProofGateError :
  ~ exists e tr,
      run (ProofGate.validate (H := strict) demo_sync transfer_from transfer_to
             transfer_data None JNull JNull)
          (always 200 (Json (JObj ∅)))
      = (Raise (ProofGateError_ e), tr).
Proof.
  intros (e & tr & Hrun). vm_compute in Hrun. discriminate Hrun.
Qed.

(** ** The request [validate] sends *)

Lemma validate_payload_lookup cfg f t d v g c :
  exists m, validate_payload cfg f t d v g c = JObj m /\
    dom m = ({[ "from"; "to"; "data"; "value"; "guardrailId"; "chainId" ]}
              : gset string) /\
    m !! "from" = Some f /\ m !! "to" = Some t /\ m !! "data" = Some d /\
    m !! "value" = Some (default (JStr "0") v) /\
    m !! "guardrailId"
      = Some (if truthy g then g
              else of_optional JStr (ProofGateConfig.guardrail_id cfg)) /\
    m !! "chainId"
      = Some (if truthy c then c else JInt (ProofGateConfig.chain_id cfg)).
Proof.
  eexists. split; [reflexivity |]. split.
  - rewrite !dom_insert_L, dom_singleton_L. set_solver.
  - repeat split; simplify_map_eq; reflexivity.
Qed.

(** Every [validate] call sends one POST to [/validate] whose body has
    exactly the six keys; a per-call [guardrail_id] or [chain_id] that is
    truthy is sent as it is, and [None] is replaced by the configured
    default. *)
Lemma validate_sends_one_post `{Pydantic}
    (a : AsyncProofGate.t) (s : ProofGate.t) f t d v g c net :
  (exists m,
     (run (ProofGate.validate s f t d v g c) net).2
     = [Sent (build_request (ProofGate._client s) "POST" "/validate"
                (Some (JObj m)))] /\
     dom m = ({[ "from"; "to"; "data"; "value"; "guardrailId"; "chainId" ]}
               : gset string) /\
     (truthy g = true -> m !! "guardrailId" = Some g) /\
     (truthy c = true -> m !! "chainId" = Some c) /\
     (g = JNull -> m !! "guardrailId"
        = Some (of_optional JStr (ProofGateConfig.guardrail_id (ProofGate.config s)))) /\
     (c = JNull -> m !! "chainId"
        = Some (JInt (ProofGateConfig.chain_id (ProofGate.config s)))))
  /\
  (exists m,
     (run (AsyncProofGate.validate a f t d v g c) net).2
     = [Sent (build_request (AsyncProofGate._client a) "POST" "/validate"
                (Some (JObj m)))] /\
     dom m = ({[ "from"; "to"; "data"; "value"; "guardrailId"; "chainId" ]}
               : gset string) /\
     (truthy g = true -> m !! "guardrailId" = Some g) /\
     (truthy c = true -> m !! "chainId" = Some c) /\
     (g = JNull -> m !! "guardrailId"
        = Some (of_optional JStr
                  (ProofGateConfig.guardrail_id (AsyncProofGate.config a)))) /\
     (c = JNull -> m !! "chainId"
        = Some (JInt (ProofGateConfig.chain_id (AsyncProofGate.config a))))).
Proof.
  split.
  - destruct (validate_payload_lookup (ProofGate.config s) f t d v g c)
      as (m & Hm & Hdom & _ & _ & _ & _ & Hg & Hc).
    exists m. rewrite sync_validate_run. cbv zeta. cbn [snd]. rewrite Hm.
    split; [reflexivity |]. split; [exact Hdom |].
    repeat split.
    + intros Ht. rewrite Hg, Ht. reflexivity.
    + intros Ht. rewrite Hc, Ht. reflexivity.
    + intros ->. exact Hg.
    + intros ->. exact Hc.
  - destruct (validate_payload_lookup (AsyncProofGate.config a) f t d v g c)
      as (m & Hm & Hdom & _ & _ & _ & _ & Hg & Hc).
    exists m. rewrite async_validate_run. cbv zeta. cbn [snd]. rewrite Hm.
    split; [reflexivity |]. split; [exact Hdom |].
    repeat split.
    + intros Ht. rewrite Hg, Ht. reflexivity.
    + intros Ht. rewrite Hc, Ht. reflexivity.
    + intros ->. exact Hg.
    + intros ->. exact Hc.
Qed.

(** C6 fails on the code.  A call that passes [chain_id=0] and
    an empty [guardrail_id] sends the configured defaults: [x or default]
    replaces every falsy [x], not only [None].  Here the client is
    configured with chain 56 and guardrail ["gr_default"], and the body
    sent carries [chainId = 56] and [guardrailId = "gr_default"] instead
    of [0] and the empty string; both clients do so. *)
Theorem validate_drops_falsy_overrides :
  exists m,
    (run (ProofGate.validate (H := strict) guarded_sync transfer_from
            transfer_to transfer_data None (JStr EmptyString) (JInt 0))
         (always 200 (Json rejected_body))).2
    = [Sent (build_request (demo_session Client) "POST" "/validate"
               (Some (JObj m)))]
    /\ (run (AsyncProofGate.validate (H := strict) guarded_async transfer_from
               transfer_to transfer_data None (JStr EmptyString) (JInt 0))
            (always 200 (Json rejected_body))).2
       = [Sent (build_request (demo_session AsyncClient) "POST" "/validate"
                  (Some (JObj m)))]
    /\ m !! "chainId" = Some (JInt 56)
    /\ m !! "guardrailId" = Some (JStr "gr_default")
    /\ m !! "chainId" <> Some (JInt 0)
    /\ m !! "guardrailId" <> Some (JStr EmptyString).
Proof.
  eexists. split; [vm_compute; reflexivity |].
  split; [vm_compute; reflexivity |].
  split; [vm_compute; reflexivity |].
  split; [vm_compute; reflexivity |].
  split; vm_compute; discriminate.
Qed.

(** ** The signer service *)

Lemma run_lift {A} (o : outcome A) net : run (lift o) net = (o, []).
Proof. reflexivity. Qed.

Lemma run_get_default m key d net :
  run (get_default (JObj m) key d) net = (Return (default d (m !! key)), []).
Proof. reflexivity. Qed.

Lemma run_broadcast send raw net :
  run (broadcast send raw) net = (send raw, [Broadcast raw]).
Proof. reflexivity. Qed.

Lemma run_jsonify o status net :
  run (jsonify o status) net =
  (match dumps o with
   | Return j => Return {| FlaskResponse.status := status;
                           FlaskResponse.payload := j |}
   | Raise e => Raise e
   end, []).
Proof.
  unfold jsonify. rewrite run_bind, run_lift. destruct (dumps o); reflexivity.
Qed.

Section signer_service_runs.
Context `{Pydantic}.
Variable proofgate : ProofGate.t.
Variable account_address : string.
Variable to_checksum_address : json -> outcome string.
Variable to_wei_ether : json -> outcome Z.
Variable gas_price : outcome Z.
Variable get_transaction_count : string -> outcome Z.
Variable sign_transaction : json -> outcome string.
Variable send_raw_transaction : string -> outcome string.
Variable py_repr : json -> string.
Variable validation_error_text : string -> json -> string.

Local Abbreviation handler :=
  (execute proofgate account_address to_checksum_address to_wei_ether
     gas_price get_transaction_count sign_transaction send_raw_transaction
     py_repr validation_error_text).

(** The request body is a JSON object whose [data], when present, is a
    string. *)
Variable m : gmap string json.
Variable calldata : string.
Hypothesis data_is_str : default (JStr "0x") (m !! "data") = JStr calldata.

Local Abbreviation validation :=
  (ProofGate.validate proofgate (JStr account_address)
     (default JNull (m !! "to")) (JStr calldata)
     (Some (default (JStr "0") (m !! "value")))
     (default JNull (m !! "guardrailId")) JNull).

Local Abbreviation submission :=
  (submit account_address to_checksum_address to_wei_ether gas_price
     get_transaction_count sign_transaction send_raw_transaction
     (default JNull (m !! "to")) (default (JStr "0") (m !! "value")) calldata).

Ltac enter_execute :=
  unfold execute; cbv zeta;
  rewrite run_bind, run_get; cbv beta iota zeta;
  rewrite run_bind, run_get_default; cbv beta iota zeta;
  rewrite run_bind, run_get_default; cbv beta iota zeta;
  rewrite run_bind, run_get; cbv beta iota zeta;
  rewrite data_is_str;
  rewrite run_bind; unfold slice_prefix; rewrite run_mret;
  cbv beta iota zeta;
  rewrite run_try_except, run_bind.

Ltac answer_500 := rewrite run_jsonify; cbn; rewrite ?app_nil_r; reflexivity.

(** An exception out of [validate] is answered with 500. *)
Lemma execute_validate_raises net e tr :
  run validation net = (Raise e, tr) ->
  run (handler (JObj m)) net
  = (Return {| FlaskResponse.status := 500;
               FlaskResponse.payload :=
                 error_answer (str_exception py_repr validation_error_text e) |},
     tr).
Proof.
  intros Hv. enter_execute. rewrite Hv.
  cbv beta iota zeta. answer_500.
Qed.

(** An unsafe verdict without checks is answered with 400 and the
    verdict. *)
Lemma execute_blocked net r tr :
  run validation net = (Return r, tr) ->
  ValidateResponse.safe r = false ->
  ValidateResponse.checks r = [] ->
  run (handler (JObj m)) net
  = (Return {| FlaskResponse.status := 400;
               FlaskResponse.payload :=
                 JObj {[ "success" := JBool false;
                         "error" := JStr ("Transaction blocked by ProofGate: "
                                          +:+ ValidateResponse.reason r);
                         "validation" := verdict_json r ]} |},
     tr).
Proof.
  intros Hv Hsafe Hchecks. enter_execute. rewrite Hv.
  cbv beta iota zeta. rewrite Hsafe. cbn [negb].
  rewrite run_jsonify. unfold validation_summary. rewrite Hchecks.
  cbn. rewrite app_nil_r. reflexivity.
Qed.

(** An unsafe verdict that carries checks is answered with 500: the
    checks are model instances and [jsonify] raises inside the [try]. *)
Lemma execute_blocked_with_checks net r tr :
  run validation net = (Return r, tr) ->
  ValidateResponse.safe r = false ->
  ValidateResponse.checks r <> [] ->
  run (handler (JObj m)) net
  = (Return {| FlaskResponse.status := 500;
               FlaskResponse.payload :=
                 error_answer "Object of type ValidationCheck is not JSON serializable" |},
     tr).
Proof.
  intros Hv Hsafe Hchecks. enter_execute. rewrite Hv.
  cbv beta iota zeta. rewrite Hsafe. cbn [negb].
  rewrite run_jsonify. unfold validation_summary.
  destruct (ValidateResponse.checks r) as [| c cs]; [congruence |].
  cbn -[run jsonify]. answer_500.
Qed.

(** A safe verdict: the transaction is built, signed and broadcast; an
    exception on the way is answered with 500, success with 200 and the
    hash -- unless the verdict carries checks, which is answered with 500
    after the broadcast. *)
Lemma execute_safe_run net r tr :
  run validation net = (Return r, tr) ->
  ValidateResponse.safe r = true ->
  run (handler (JObj m)) net
  = match run submission net with
    | (Return tx_hash_hex, tr') =>
        match ValidateResponse.checks r with
        | [] =>
            (Return {| FlaskResponse.status := 200;
                       FlaskResponse.payload :=
                         JObj {[ "success" := JBool true;
                                 "txHash" := JStr tx_hash_hex;
                                 "validation" := verdict_json r ]} |},
             tr ++ tr')
        | _ :: _ =>
            (Return {| FlaskResponse.status := 500;
                       FlaskResponse.payload :=
                         error_answer "Object of type ValidationCheck is not JSON serializable" |},
             tr ++ tr')
        end
    | (Raise e, tr') =>
        (Return {| FlaskResponse.status := 500;
                   FlaskResponse.payload :=
                     error_answer
                       (str_exception py_repr validation_error_text e) |},
         tr ++ tr')
    end.
Proof.
  intros Hv Hsafe. enter_execute. rewrite Hv.
  cbv beta iota zeta. rewrite Hsafe. cbn [negb]. unfold submit.
  rewrite !run_bind, !run_lift.
  destruct (to_checksum_address _) as [to | e]; cbv beta iota zeta;
    [| answer_500].
  rewrite !run_bind.
  destruct (ne_zero_str _);
    [ rewrite !run_lift;
      destruct (to_wei_ether _) as [wei | e]; cbv beta iota zeta;
        [| answer_500]
    | rewrite !run_mret; cbv beta iota zeta ].
  all: rewrite !run_bind, !run_lift;
    destruct gas_price as [price | e]; cbv beta iota zeta; [| answer_500].
  all: rewrite !run_bind, !run_lift;
    destruct (get_transaction_count _) as [nonce | e]; cbv beta iota zeta;
      [| answer_500].
  all: rewrite !run_bind, !run_lift;
    destruct (sign_transaction _) as [raw | e]; cbv beta iota zeta;
      [| answer_500].
  all: rewrite !run_bind, !run_broadcast;
    destruct (send_raw_transaction raw) as [hash | e]; cbv beta iota zeta;
      [| answer_500].
  all: rewrite run_jsonify; unfold validation_summary;
    destruct (ValidateResponse.checks r) as [| c cs];
      [ cbn; rewrite ?app_nil_r; reflexivity
      | cbn -[run jsonify]; answer_500 ].
Qed.
End signer_service_runs.

(** C8 fails on the code whenever the verdict carries checks: the handler
    passes [validation.checks], a list of pydantic model instances, to
    [jsonify], which raises inside the [try]; the [except] clause answers
    500.  With the unsafe verdict of the end-to-end example the service
    answers 500 instead of 400.  With a safe verdict that carries a check
    the transaction is signed and broadcast and the service then answers
    500 instead of 200. *)
Theorem execute_answers_500_when_verdict_has_checks :
  run (service transfer_request) (always 200 (Json rejected_body))
  = (Return {| FlaskResponse.status := 500;
               FlaskResponse.payload :=
                 JObj {[ "success" := JBool false;
                         "error" := JStr "Object of type ValidationCheck is not JSON serializable" ]} |},
     [Sent validate_request_of_transfer])
  /\
  run (service transfer_request) (always 200 (Json approved_body))
  = (Return {| FlaskResponse.status := 500;
               FlaskResponse.payload :=
                 JObj {[ "success" := JBool false;
                         "error" := JStr "Object of type ValidationCheck is not JSON serializable" ]} |},
     [Sent validate_request_of_transfer; Broadcast "0xf86b"]).
Proof. split; vm_compute; reflexivity. Qed.

(** Without checks in the verdict the service answers as intended: 400
    with the verdict when unsafe; 200 with the transaction hash, after
    broadcasting, when safe; 500 when the validation call fails. *)
Lemma execute_without_checks :
  run (service transfer_request) (always 200 (Json rejected_body_no_checks))
  = (Return {| FlaskResponse.status := 400;
               FlaskResponse.payload :=
                 JObj {[ "success" := JBool false;
                         "error" := JStr "Transaction blocked by ProofGate: exceeds daily limit";
                         "validation" :=
                           JObj {[ "result" := JStr "FAIL";
                                   "reason" := JStr "exceeds daily limit";
                                   "checks" := JArr [] ]} ]} |},
     [Sent validate_request_of_transfer])
  /\
  run (service transfer_request) (always 200 (Json approved_body_no_checks))
  = (Return {| FlaskResponse.status := 200;
               FlaskResponse.payload :=
                 JObj {[ "success" := JBool true;
                         "txHash" := JStr "0x5c50";
                         "validation" :=
                           JObj {[ "result" := JStr "PASS";
                                   "reason" := JStr "ok";
                                   "checks" := JArr [] ]} ]} |},
     [Sent validate_request_of_transfer; Broadcast "0xf86b"])
  /\
  run (service transfer_request) (failing ConnectError "connection refused")
  = (Return {| FlaskResponse.status := 500;
               FlaskResponse.payload :=
                 JObj {[ "success" := JBool false;
                         "error" := JStr "[NETWORK_ERROR] connection refused" ]} |},
     [Sent validate_request_of_transfer]).
Proof. repeat split; vm_compute; reflexivity. Qed.

(** * Further properties of the client *)

Section call_outcomes.
Context `{Pydantic}.

Lemma sync_call_outcome (s : ProofGate.t) c (net : network) :
  (run (perform_sync s c) net).1
  = call_outcome c
      (surface (net (request_of (ProofGate.config s) (ProofGate._client s) c))).
Proof.
  destruct c; unfold perform_sync, request_of, call_outcome;
    rewrite run_discard; cbn [fst];
    rewrite ?sync_request_surface, ?sync_validate_or_throw_run,
      ?sync_validate_run, ?sync_check_agent_run, ?sync_get_evidence_run,
      ?sync_get_usage_run; reflexivity.
Qed.

Lemma async_call_outcome (a : AsyncProofGate.t) c (net : network) :
  (run (perform_async a c) net).1
  = call_outcome c
      (surface (net (request_of (AsyncProofGate.config a)
                       (AsyncProofGate._client a) c))).
Proof.
  destruct c; unfold perform_async, request_of, call_outcome;
    rewrite run_discard; cbn [fst];
    rewrite ?async_request_surface, ?async_validate_or_throw_run,
      ?async_validate_run, ?async_check_agent_run, ?async_get_evidence_run,
      ?async_get_usage_run; reflexivity.
Qed.

Lemma call_outcome_raise c e : call_outcome c (Raise e) = Raise e.
Proof. destruct c; reflexivity. Qed.

Lemma surface_classified reply :
  match surface reply with
  | Raise (ProofGateError_ e) =>
      api_error_shape e \/ timeout_shape e \/ network_error_shape e
  | Raise (ValidationError _ _) => False
  | Raise (HttpxError _ _) => False
  | _ => True
  end.
Proof.
  destruct reply as [[status [data | err | err]] | x msg | msg]; unfold surface;
    cbn [Response.body]; try exact I.
  - unfold Response.is_success. cbn [Response.status_code].
    destruct ((200 <=? status) && (status <=? 299)) eqn:Hok; [exact I |].
    destruct data; try exact I.
    left. unfold api_error_shape, api_error. cbn.
    split; [reflexivity |]. split; [reflexivity |].
    exists status. split; [reflexivity |].
    intros Hs. apply andb_false_iff in Hok. destruct Hok as [Hok | Hok];
      apply Z.leb_gt in Hok; lia.
  - destruct (is_TimeoutException x).
    + right. left. repeat split.
    + right. right. unfold network_error_shape. cbn.
      split; [reflexivity |]. split; [eexists; reflexivity |].
      split; reflexivity.
Qed.

Lemma call_outcome_classified c o :
  match o with
  | Raise (ProofGateError_ e) =>
      api_error_shape e \/ timeout_shape e \/ network_error_shape e
  | Raise (ValidationError _ _) => False
  | Raise (HttpxError _ _) => False
  | _ => True
  end ->
  classified c (call_outcome c o).
Proof.
  intros Ho. destruct o as [data | e].
  - destruct c; cbn [call_outcome decoded forget]; try exact I.
    + destruct (ValidateResponse.model_validate data); cbn; reflexivity || exact I.
    + destruct (ValidateResponse.model_validate data) as [r |] eqn:Hr;
        cbn [enforced forget]; [| reflexivity].
      destruct (ValidateResponse.safe r) eqn:Hsafe; cbn; [exact I |].
      right. right. right. unfold validation_failed_shape. cbn.
      split; [reflexivity |]. split; [reflexivity |].
      split; [do 6 eexists; reflexivity |].
      exists r. repeat split. exact Hsafe.
    + destruct (AgentCheckResponse.model_validate data); cbn; reflexivity || exact I.
    + destruct (EvidenceResponse.model_validate data); cbn; reflexivity || exact I.
    + destruct (UsageResponse.model_validate data); cbn; reflexivity || exact I.
  - rewrite call_outcome_raise. destruct e; cbn in *; tauto.
Qed.

End call_outcomes.



(** X2. When a method of either client raises a [ProofGateError], the
    error is an API error (with a status code outside 200..299 and no
    validation result), a timeout, a network error, or -- from
    [validate_or_throw] only -- a validation failure carrying an unsafe
    response and its reason.  No failure of the transport comes out as
    the httpx exception it was: every [httpx.RequestError] is turned into
    a timeout or a network error.  A pydantic [ValidationError] that
    comes out is for the model of the method.  (Other exceptions of the
    libraries pass through the client unchanged.) *)
Theorem raised_errors_are_classified `{Pydantic}
    (a : AsyncProofGate.t) (s : ProofGate.t) c (net : network) :
  (forall e,
     (run (perform_sync s c) net).1 = Raise (ProofGateError_ e)
     \/ (run (perform_async a c) net).1 = Raise (ProofGateError_ e) ->
     api_error_shape e \/ timeout_shape e \/ network_error_shape e \/
     validation_failed_shape c e)
  /\
  (forall x msg,
     (run (perform_sync s c) net).1 <> Raise (HttpxError x msg)
     /\ (run (perform_async a c) net).1 <> Raise (HttpxError x msg))
  /\
  (forall model body,
     (run (perform_sync s c) net).1 = Raise (ValidationError model body)
     \/ (run (perform_async a c) net).1 = Raise (ValidationError model body) ->
     model_of c = Some model).
Proof.
  assert (Hs : classified c (run (perform_sync s c) net).1)
    by (rewrite sync_call_outcome;
        apply call_outcome_classified, surface_classified).
  assert (Ha : classified c (run (perform_async a c) net).1)
    by (rewrite async_call_outcome;
        apply call_outcome_classified, surface_classified).
  split; [| split].
  - intros e [He | He]; [rewrite He in Hs; exact Hs | rewrite He in Ha; exact Ha].
  - intros x msg. split; intros He;
      [rewrite He in Hs; exact Hs | rewrite He in Ha; exact Ha].
  - intros model body [He | He];
      [rewrite He in Hs; exact Hs | rewrite He in Ha; exact Ha].
Qed.

Lemma raised_errors_are_classified_witness :
  timeout_shape
    {| ProofGateError.message := JStr "Request timeout";
       ProofGateError.code := "TIMEOUT";
       ProofGateError.status_code := None;
       ProofGateError.validation_result := None |}.
Proof.
  destruct (proj1 (raised_errors_are_classified (H := strict)
                     demo_async demo_sync (Call_get_evidence "val_1")
                     (failing ReadTimeout "timed out"))
              {| ProofGateError.message := JStr "Request timeout";
                 ProofGateError.code := "TIMEOUT";
                 ProofGateError.status_code := None;
                 ProofGateError.validation_result := None |}
              (or_introl eq_refl))
    as [(_ & _ & status & Hst & _) | [Ht | [(Hc & _) | (Hc & _)]]];
    [discriminate Hst | exact Ht | discriminate Hc | discriminate Hc].
Defined.

Lemma surface_not_json status err :
  surface (Responded {| Response.status_code := status;
                        Response.body := NotJson err |})
  = Raise (JSONDecodeError err).
Proof. reflexivity. Qed.

Lemma surface_not_text status err :
  surface (Responded {| Response.status_code := status;
                        Response.body := NotText err |})
  = Raise (UnicodeDecodeError err).
Proof. reflexivity. Qed.

Lemma surface_not_dict status data :
  ~ (200 <= status <= 299) ->
  is_dict data = false ->
  surface (Responded {| Response.status_code := status;
                        Response.body := Json data |})
  = Raise (AttributeError ("'" +:+ type_name data
                           +:+ "' object has no attribute 'get'")).
Proof.
  intros Hstatus Hdata. unfold surface, Response.is_success. cbn.
  destruct ((200 <=? status) && (status <=? 299)) eqn:Hok.
  - apply andb_true_iff in Hok. lia.
  - destruct data; try reflexivity. discriminate Hdata.
Qed.

(** X3. For every method of both clients: a response whose body
    [response.json()] cannot decode makes the call raise the exception of
    [response.json()] as it is, whatever the status code, 2xx or not: the
    [JSONDecodeError] for a body that is text but not JSON (an HTML error
    page, an empty body), the [UnicodeDecodeError] for a body that is not
    text at all (bytes that are not valid UTF-8).  The body is parsed
    before the status is looked at, and neither exception is a
    [ProofGateError]. *)
Theorem undecodable_body_raises_the_decoding_error `{Pydantic}
    (a : AsyncProofGate.t) (s : ProofGate.t) c (net : network) status err :
  (net (request_of (ProofGate.config s) (ProofGate._client s) c)
   = Responded {| Response.status_code := status;
                  Response.body := NotJson err |} ->
   run (perform_sync s c) net
   = (Raise (JSONDecodeError err),
      [Sent (request_of (ProofGate.config s) (ProofGate._client s) c)]))
  /\
  (net (request_of (AsyncProofGate.config a) (AsyncProofGate._client a) c)
   = Responded {| Response.status_code := status;
                  Response.body := NotJson err |} ->
   run (perform_async a c) net
   = (Raise (JSONDecodeError err),
      [Sent (request_of (AsyncProofGate.config a)
               (AsyncProofGate._client a) c)]))
  /\
  (net (request_of (ProofGate.config s) (ProofGate._client s) c)
   = Responded {| Response.status_code := status;
                  Response.body := NotText err |} ->
   run (perform_sync s c) net
   = (Raise (UnicodeDecodeError err),
      [Sent (request_of (ProofGate.config s) (ProofGate._client s) c)]))
  /\
  (net (request_of (AsyncProofGate.config a) (AsyncProofGate._client a) c)
   = Responded {| Response.status_code := status;
                  Response.body := NotText err |} ->
   run (perform_async a c) net
   = (Raise (UnicodeDecodeError err),
      [Sent (request_of (AsyncProofGate.config a)
               (AsyncProofGate._client a) c)]))
  /\
  (forall e, JSONDecodeError err <> ProofGateError_ e)
  /\
  (forall e, UnicodeDecodeError err <> ProofGateError_ e).
Proof.
  split; [| split; [| split; [| split; [| split; discriminate]]]]; intros Hnet;
    rewrite (surjective_pairing (run _ _)).
  - rewrite sync_call_sends, sync_call_outcome, Hnet, surface_not_json.
    rewrite call_outcome_raise. reflexivity.
  - rewrite async_call_sends, async_call_outcome, Hnet, surface_not_json.
    rewrite call_outcome_raise. reflexivity.
  - rewrite sync_call_sends, sync_call_outcome, Hnet, surface_not_text.
    rewrite call_outcome_raise. reflexivity.
  - rewrite async_call_sends, async_call_outcome, Hnet, surface_not_text.
    rewrite call_outcome_raise. reflexivity.
Qed.

Lemma undecodable_body_raises_the_decoding_error_witness :
  run (perform_sync (H := strict) demo_sync (Call_check_agent "0xA"))
      (always 502 (NotJson "Expecting value: line 1 column 1 (char 0)"))
  = (Raise (JSONDecodeError "Expecting value: line 1 column 1 (char 0)"),
     [Sent (build_request (demo_session Client) "GET"
              "/agents/check?wallet=0xA" None)])
  /\
  run (perform_sync (H := strict) demo_sync (Call_check_agent "0xA"))
      (always 200 (NotText "'utf-8' codec can't decode byte 0xff in position 0: invalid start byte"))
  = (Raise (UnicodeDecodeError "'utf-8' codec can't decode byte 0xff in position 0: invalid start byte"),
     [Sent (build_request (demo_session Client) "GET"
              "/agents/check?wallet=0xA" None)]).
Proof.
  split.
  - exact (proj1 (undecodable_body_raises_the_decoding_error (H := strict)
                    demo_async demo_sync (Call_check_agent "0xA")
                    (always 502 (NotJson "Expecting value: line 1 column 1 (char 0)"))
                    502 "Expecting value: line 1 column 1 (char 0)")
                 eq_refl).
  - exact (proj1 (proj2 (proj2 (undecodable_body_raises_the_decoding_error
                    (H := strict) demo_async demo_sync (Call_check_agent "0xA")
                    (always 200 (NotText "'utf-8' codec can't decode byte 0xff in position 0: invalid start byte"))
                    200 "'utf-8' codec can't decode byte 0xff in position 0: invalid start byte")))
                 eq_refl).
Defined.

(** X4. For every method of both clients: a response with a status
    outside 200..299 whose JSON body is not an object (a list, a string,
    a number, [null]) makes the call raise [AttributeError]: the error
    message is looked up with [data.get], which only a dict has.  No API
    error is raised and the status code is lost. *)
Theorem non_object_error_body_raises_AttributeError `{Pydantic}
    (a : AsyncProofGate.t) (s : ProofGate.t) c (net : network) status data :
  ~ (200 <= status <= 299) ->
  is_dict data = false ->
  (net (request_of (ProofGate.config s) (ProofGate._client s) c)
   = Responded {| Response.status_code := status;
                  Response.body := Json data |} ->
   run (perform_sync s c) net
   = (Raise (AttributeError ("'" +:+ type_name data
                             +:+ "' object has no attribute 'get'")),
      [Sent (request_of (ProofGate.config s) (ProofGate._client s) c)]))
  /\
  (net (request_of (AsyncProofGate.config a) (AsyncProofGate._client a) c)
   = Responded {| Response.status_code := status;
                  Response.body := Json data |} ->
   run (perform_async a c) net
   = (Raise (AttributeError ("'" +:+ type_name data
                             +:+ "' object has no attribute 'get'")),
      [Sent (request_of (AsyncProofGate.config a)
               (AsyncProofGate._client a) c)])).
Proof.
  intros Hstatus Hdata.
  split; intros Hnet; rewrite (surjective_pairing (run _ _)).
  - rewrite sync_call_sends, sync_call_outcome, Hnet.
    rewrite (surface_not_dict _ _ Hstatus Hdata), call_outcome_raise.
    reflexivity.
  - rewrite async_call_sends, async_call_outcome, Hnet.
    rewrite (surface_not_dict _ _ Hstatus Hdata), call_outcome_raise.
    reflexivity.
Qed.

Lemma non_object_error_body_raises_AttributeError_witness :
  run (perform_sync (H := strict) demo_sync (Call_get_usage "0xA"))
      (always 500 (Json (JArr [])))
  = (Raise (AttributeError "'list' object has no attribute 'get'"),
     [Sent (build_request (demo_session Client) "GET"
              "/validate?wallet=0xA" None)]).
Proof.
  exact (proj1 (non_object_error_body_raises_AttributeError (H := strict)
                  demo_async demo_sync (Call_get_usage "0xA")
                  (always 500 (Json (JArr []))) 500 (JArr [])
                  ltac:(lia) eq_refl)
               eq_refl).
Defined.

Lemma enforced_return o r :
  enforced o = Return r -> o = Return r /\ ValidateResponse.safe r = true.
Proof.
  destruct o as [r' | e]; cbn; [| discriminate].
  destruct (ValidateResponse.safe r') eqn:Hsafe; [| discriminate].
  intros [= <-]. split; [reflexivity | exact Hsafe].
Qed.

Lemma enforced_raise o e :
  enforced o = Raise e ->
  o = Raise e \/
  exists r, o = Return r /\ ValidateResponse.safe r = false /\
            e = validation_failed r.
Proof.
  destruct o as [r | e']; cbn.
  - destruct (ValidateResponse.safe r) eqn:Hsafe; [discriminate |].
    intros [= <-]. right. exists r. repeat split. exact Hsafe.
  - intros [= <-]. left. reflexivity.
Qed.

(** X5. [validate_or_throw] never returns an unsafe response: in both
    clients, whenever it returns at all, the response it returns has
    [safe = true] and is the response the underlying [validate] call
    returned. *)
Theorem validate_or_throw_returns_only_safe `{Pydantic}
    (a : AsyncProofGate.t) (s : ProofGate.t) f t d v g c net r tr :
  (run (ProofGate.validate_or_throw s f t d v g c) net = (Return r, tr) ->
   ValidateResponse.safe r = true /\
   run (ProofGate.validate s f t d v g c) net = (Return r, tr))
  /\
  (run (AsyncProofGate.validate_or_throw a f t d v g c) net = (Return r, tr) ->
   ValidateResponse.safe r = true /\
   run (AsyncProofGate.validate a f t d v g c) net = (Return r, tr)).
Proof.
  split; intros Hrun.
  - rewrite sync_validate_or_throw_run in Hrun. injection Hrun as Ho Htr.
    apply enforced_return in Ho. destruct Ho as [Ho Hsafe].
    split; [exact Hsafe |].
    rewrite (surjective_pairing (run _ _)), Ho, Htr. reflexivity.
  - rewrite async_validate_or_throw_run in Hrun. injection Hrun as Ho Htr.
    apply enforced_return in Ho. destruct Ho as [Ho Hsafe].
    split; [exact Hsafe |].
    rewrite (surjective_pairing (run _ _)), Ho, Htr. reflexivity.
Qed.

Lemma validate_or_throw_returns_only_safe_witness :
  ValidateResponse.safe approved = true /\
  run (ProofGate.validate (H := strict) demo_sync transfer_from transfer_to
         transfer_data None JNull JNull)
      (always 200 (Json approved_body))
  = (Return approved,
     [Sent (build_request (demo_session Client) "POST" "/validate"
              (Some (validate_payload demo_config transfer_from transfer_to
                       transfer_data None JNull JNull)))]).
Proof.
  apply (proj1 (validate_or_throw_returns_only_safe (H := strict)
                  demo_async demo_sync transfer_from transfer_to transfer_data
                  None JNull JNull (always 200 (Json approved_body))
                  approved _)).
  vm_compute. reflexivity.
Defined.

(** X6. Where the errors of [validate_or_throw] come from, in both
    clients: when it raises, either the underlying [validate] call raised
    that very exception (a transport, API or decoding failure passes
    through unchanged), or [validate] returned a response with
    [safe = false] and the exception is the validation failure built from
    that response. *)
Theorem validate_or_throw_error_origin `{Pydantic}
    (a : AsyncProofGate.t) (s : ProofGate.t) f t d v g c net e tr :
  (run (ProofGate.validate_or_throw s f t d v g c) net = (Raise e, tr) ->
   run (ProofGate.validate s f t d v g c) net = (Raise e, tr)
   \/ exists r,
        run (ProofGate.validate s f t d v g c) net = (Return r, tr)
        /\ ValidateResponse.safe r = false
        /\ e = validation_failed r)
  /\
  (run (AsyncProofGate.validate_or_throw a f t d v g c) net = (Raise e, tr) ->
   run (AsyncProofGate.validate a f t d v g c) net = (Raise e, tr)
   \/ exists r,
        run (AsyncProofGate.validate a f t d v g c) net = (Return r, tr)
        /\ ValidateResponse.safe r = false
        /\ e = validation_failed r).
Proof.
  split; intros Hrun.
  - rewrite sync_validate_or_throw_run in Hrun. injection Hrun as Ho Htr.
    rewrite (surjective_pairing (run (ProofGate.validate _ _ _ _ _ _ _) _)).
    rewrite Htr.
    apply enforced_raise in Ho. destruct Ho as [-> | (r & -> & Hsafe & ->)].
    + left. reflexivity.
    + right. exists r. repeat split. exact Hsafe.
  - rewrite async_validate_or_throw_run in Hrun. injection Hrun as Ho Htr.
    rewrite (surjective_pairing (run (AsyncProofGate.validate _ _ _ _ _ _ _) _)).
    rewrite Htr.
    apply enforced_raise in Ho. destruct Ho as [-> | (r & -> & Hsafe & ->)].
    + left. reflexivity.
    + right. exists r. repeat split. exact Hsafe.
Qed.

Lemma validate_or_throw_error_origin_witness :
  run (ProofGate.validate (H := strict) demo_sync transfer_from transfer_to
         transfer_data None JNull JNull)
      (failing ReadTimeout "timed out")
  = (Raise (ProofGateError_ (ProofGateError.new (JStr "Request timeout")
                               "TIMEOUT" None None)),
     [Sent (build_request (demo_session Client) "POST" "/validate"
              (Some (validate_payload demo_config transfer_from transfer_to
                       transfer_data None JNull JNull)))])
  \/ exists r,
       run (ProofGate.validate (H := strict) demo_sync transfer_from
              transfer_to transfer_data None JNull JNull)
           (failing ReadTimeout "timed out")
       = (Return r,
          [Sent (build_request (demo_session Client) "POST" "/validate"
                   (Some (validate_payload demo_config transfer_from
                            transfer_to transfer_data None JNull JNull)))])
       /\ ValidateResponse.safe r = false
       /\ ProofGateError_ (ProofGateError.new (JStr "Request timeout")
                             "TIMEOUT" None None)
          = validation_failed r.
Proof.
  apply (proj1 (validate_or_throw_error_origin (H := strict)
                  demo_async demo_sync transfer_from transfer_to transfer_data
                  None JNull JNull (failing ReadTimeout "timed out") _ _)).
  vm_compute. reflexivity.
Defined.

Lemma sync_init_returns key base chain g timeout (net : network) pg tr :
  run (ProofGate.__init__ key base chain g timeout) net = (Return pg, tr) ->
  String.prefix "pg_" key = true
  /\ httpx_rejects net key base timeout = None
  /\ pg = {| ProofGate.config := built_config key base chain g timeout;
             ProofGate._client := built_session Client key base timeout |}
  /\ tr = [Opened (ProofGate._client pg)].
Proof.
  rewrite sync_init_run. intros Hrun.
  destruct (String.eqb key EmptyString); [discriminate Hrun |].
  destruct (String.prefix "pg_" key); [| discriminate Hrun].
  destruct (httpx_rejects net key base timeout); [discriminate Hrun |].
  injection Hrun as <- <-. repeat split.
Qed.

Lemma async_init_returns key base chain g timeout (net : network) pg tr :
  run (AsyncProofGate.__init__ key base chain g timeout) net = (Return pg, tr) ->
  String.prefix "pg_" key = true
  /\ httpx_rejects net key base timeout = None
  /\ pg = {| AsyncProofGate.config := built_config key base chain g timeout;
             AsyncProofGate._client :=
               built_session AsyncClient key base timeout |}
  /\ tr = [Opened (AsyncProofGate._client pg)].
Proof.
  rewrite async_init_run. intros Hrun.
  destruct (String.eqb key EmptyString); [discriminate Hrun |].
  destruct (String.prefix "pg_" key); [| discriminate Hrun].
  destruct (httpx_rejects net key base timeout); [discriminate Hrun |].
  injection Hrun as <- <-. repeat split.
Qed.

Lemma init_raises_nothing_done key base chain g timeout (net : network) e tr :
  run (ProofGate.__init__ key base chain g timeout) net = (Raise e, tr) ->
  tr = [].
Proof.
  rewrite sync_init_run. intros Hrun.
  destruct (String.eqb key EmptyString); [congruence |].
  destruct (String.prefix "pg_" key); [| congruence].
  destruct (httpx_rejects net key base timeout);
    [congruence | discriminate Hrun].
Qed.

Lemma httpx_accepts_ascii_key (net : network) key base timeout :
  httpx_rejects net key base timeout = None -> isascii key = true.
Proof.
  intros Hacc. destruct (isascii key) eqn:Hkey; [reflexivity |].
  exfalso. exact (non_ascii_key_rejected net key base timeout Hkey Hacc).
Qed.

Lemma elem_of_sent rq' (reply : transport_outcome) rq :
  Sent rq' ∈ sent reply rq -> rq' = rq.
Proof.
  destruct reply as [r | x msg | msg]; cbn [sent]; intros Hin.
  - apply list_elem_of_singleton in Hin. congruence.
  - apply list_elem_of_singleton in Hin. congruence.
  - apply not_elem_of_nil in Hin. destruct Hin.
Qed.

(** X7. A client keeps what it was constructed with.  In both classes,
    when the constructor returns a client, the key starts with [pg_] and
    httpx has accepted the arguments (so the key is an ASCII one); the
    configuration holds the arguments as given, an omitted argument being
    replaced by the default of the constructor; the one event of the
    constructor is the creation of the httpx session, which is created
    with the configured base URL and timeout and with the default headers
    [Content-Type: application/json] and [X-API-Key: <api_key>]; and a
    request that a call of any method sends is a request of that session:
    it goes to the configured base URL with the configured timeout and
    carries these two default headers. *)
Theorem constructed_client_uses_its_arguments `{Pydantic}
    key base chain g timeout (net : network) :
  (forall pg tr,
     run (ProofGate.__init__ key base chain g timeout) net = (Return pg, tr) ->
     (String.prefix "pg_" key = true /\ isascii key = true /\
      httpx_rejects net key base timeout = None)
     /\ ProofGate.config pg
        = {| ProofGateConfig.api_key := key;
             ProofGateConfig.base_url :=
               default "https://www.proofgate.xyz/api" base;
             ProofGateConfig.chain_id := default 56 chain;
             ProofGateConfig.guardrail_id := g;
             ProofGateConfig.timeout := default (30 # 1)%Q timeout |}
     /\ tr = [Opened (ProofGate._client pg)]
     /\ kind (ProofGate._client pg) = Client
     /\ session_base_url (ProofGate._client pg)
        = default "https://www.proofgate.xyz/api" base
     /\ session_timeout (ProofGate._client pg) = default (30 # 1)%Q timeout
     /\ session_headers (ProofGate._client pg) !! "Content-Type"
        = Some "application/json"
     /\ session_headers (ProofGate._client pg) !! "X-API-Key" = Some key
     /\ forall c (net' : network) rq,
          Sent rq ∈ (run (perform_sync pg c) net').2 ->
          Request.base_url rq = default "https://www.proofgate.xyz/api" base
          /\ Request.timeout rq = default (30 # 1)%Q timeout
          /\ Request.headers rq !! "Content-Type" = Some "application/json"
          /\ Request.headers rq !! "X-API-Key" = Some key)
  /\
  (forall pg tr,
     run (AsyncProofGate.__init__ key base chain g timeout) net = (Return pg, tr) ->
     (String.prefix "pg_" key = true /\ isascii key = true /\
      httpx_rejects net key base timeout = None)
     /\ AsyncProofGate.config pg
        = {| ProofGateConfig.api_key := key;
             ProofGateConfig.base_url :=
               default "https://www.proofgate.xyz/api" base;
             ProofGateConfig.chain_id := default 56 chain;
             ProofGateConfig.guardrail_id := g;
             ProofGateConfig.timeout := default (30 # 1)%Q timeout |}
     /\ tr = [Opened (AsyncProofGate._client pg)]
     /\ kind (AsyncProofGate._client pg) = AsyncClient
     /\ session_base_url (AsyncProofGate._client pg)
        = default "https://www.proofgate.xyz/api" base
     /\ session_timeout (AsyncProofGate._client pg)
        = default (30 # 1)%Q timeout
     /\ session_headers (AsyncProofGate._client pg) !! "Content-Type"
        = Some "application/json"
     /\ session_headers (AsyncProofGate._client pg) !! "X-API-Key" = Some key
     /\ forall c (net' : network) rq,
          Sent rq ∈ (run (perform_async pg c) net').2 ->
          Request.base_url rq = default "https://www.proofgate.xyz/api" base
          /\ Request.timeout rq = default (30 # 1)%Q timeout
          /\ Request.headers rq !! "Content-Type" = Some "application/json"
          /\ Request.headers rq !! "X-API-Key" = Some key).
Proof.
  split; intros pg tr Hrun.
  - apply sync_init_returns in Hrun. destruct Hrun as (Hpre & Hacc & -> & ->).
    pose proof (httpx_accepts_ascii_key net key base timeout Hacc) as Hkey.
    split; [repeat split; assumption |].
    do 7 (split; [reflexivity |]).
    intros c net' rq Hin. rewrite sync_call_sends in Hin.
    apply elem_of_sent in Hin. subst rq. destruct c; repeat split.
  - apply async_init_returns in Hrun. destruct Hrun as (Hpre & Hacc & -> & ->).
    pose proof (httpx_accepts_ascii_key net key base timeout Hacc) as Hkey.
    split; [repeat split; assumption |].
    do 7 (split; [reflexivity |]).
    intros c net' rq Hin. rewrite async_call_sends in Hin.
    apply elem_of_sent in Hin. subst rq. destruct c; repeat split.
Qed.

Lemma constructed_client_uses_its_arguments_witness :
  ProofGate.config guarded_sync
  = {| ProofGateConfig.api_key := "pg_test";
       ProofGateConfig.base_url := "https://www.proofgate.xyz/api";
       ProofGateConfig.chain_id := 56;
       ProofGateConfig.guardrail_id := Some "gr_default";
       ProofGateConfig.timeout := (30 # 1)%Q |}
  /\ session_headers (ProofGate._client guarded_sync) !! "X-API-Key"
     = Some "pg_test".
Proof.
  destruct (proj1 (constructed_client_uses_its_arguments (H := strict)
                     "pg_test" None None (Some "gr_default") None
                     (always 200 (Json rejected_body)))
              guarded_sync [Opened (demo_session Client)] eq_refl)
    as (_ & Hconfig & _ & _ & _ & _ & _ & Hkey & _).
  split; assumption.
Defined.

(** ** More on [is_transaction_safe] *)

(** The value the helper makes of the outcome of [validate]. *)
Lemma is_transaction_safe_built_run `{Pydantic} key f t d v (net : network)
    pg tr0 :
  run (ProofGate.__init__ key None None None None) net = (Return pg, tr0) ->
  run (is_transaction_safe key f t d v) net
  = (match (run (ProofGate.validate pg f t d v JNull JNull) net).1 with
     | Return r => Return (ValidateResponse.safe r)
     | Raise e => Raise e
     end,
     [Opened (ProofGate._client pg);
      Sent (request_of (ProofGate.config pg) (ProofGate._client pg)
              (Call_validate f t d v JNull JNull));
      Closed (ProofGate._client pg)]).
Proof.
  intros Hinit.
  destruct (sync_init_returns _ _ _ _ _ _ _ _ Hinit) as (_ & _ & _ & Htr).
  unfold is_transaction_safe. cbv zeta.
  rewrite run_bind, Hinit, Htr.
  unfold ProofGate.__enter__. rewrite run_bind, run_mret. cbv beta iota zeta.
  rewrite run_with_, run_bind, sync_validate_explicit_value.
  rewrite sync_validate_run. cbv zeta. cbn [fst snd].
  destruct (decoded _ _ _) as [r | e]; reflexivity.
Qed.

Lemma is_transaction_safe_unbuilt_run `{Pydantic} key f t d v (net : network)
    e tr0 :
  run (ProofGate.__init__ key None None None None) net = (Raise e, tr0) ->
  run (is_transaction_safe key f t d v) net = (Raise e, []).
Proof.
  intros Hinit. rewrite (init_raises_nothing_done _ _ _ _ _ _ _ _ Hinit) in Hinit.
  unfold is_transaction_safe. cbv zeta. rewrite run_bind, Hinit. reflexivity.
Qed.

(** X8. [is_transaction_safe] releases its session on every path.  When
    the constructor it calls returns a client, the helper, whatever the
    transport answers, opens that one session, sends one request and
    closes the session, in this order, also when [validate] raises; an
    exception of [validate] comes out of the helper unchanged.  When the
    constructor raises -- for the key, or in httpx -- the helper raises
    that error and has opened nothing. *)
Theorem is_transaction_safe_always_closes_its_session `{Pydantic}
    key f t d v (net : network) :
  (forall pg tr0,
     run (ProofGate.__init__ key None None None None) net = (Return pg, tr0) ->
     kind (ProofGate._client pg) = Client
     /\ (exists rq,
           (run (is_transaction_safe key f t d v) net).2
           = [Opened (ProofGate._client pg); Sent rq;
              Closed (ProofGate._client pg)])
     /\ forall e tr,
          run (ProofGate.validate pg f t d v JNull JNull) net = (Raise e, tr) ->
          (run (is_transaction_safe key f t d v) net).1 = Raise e)
  /\
  (forall e tr0,
     run (ProofGate.__init__ key None None None None) net = (Raise e, tr0) ->
     run (is_transaction_safe key f t d v) net = (Raise e, []))
  /\
  (String.prefix "pg_" key = false ->
   run (is_transaction_safe key f t d v) net
   = (Raise (if String.eqb key EmptyString then missing_api_key
             else invalid_api_key), [])).
Proof.
  split; [| split].
  - intros pg tr0 Hinit.
    rewrite (is_transaction_safe_built_run key f t d v net pg tr0 Hinit).
    destruct (sync_init_returns _ _ _ _ _ _ _ _ Hinit) as (_ & _ & Hpg & _).
    split; [rewrite Hpg; reflexivity |].
    split; [eexists; reflexivity |].
    intros e tr Hval. cbn [fst]. rewrite Hval. reflexivity.
  - intros e tr0 Hinit.
    apply (is_transaction_safe_unbuilt_run key f t d v net e tr0 Hinit).
  - intros Hkey.
    apply (is_transaction_safe_unbuilt_run key f t d v net _ []).
    rewrite sync_init_run, Hkey.
    destruct (String.eqb key EmptyString); reflexivity.
Qed.

Lemma is_transaction_safe_always_closes_its_session_witness :
  kind (ProofGate._client demo_sync) = Client
  /\ (exists rq,
        (run (is_transaction_safe (H := strict) "pg_test" transfer_from
                transfer_to transfer_data None)
             (failing ConnectError "connection refused")).2
        = [Opened (ProofGate._client demo_sync); Sent rq;
           Closed (ProofGate._client demo_sync)])
  /\ forall e tr,
       run (ProofGate.validate (H := strict) demo_sync transfer_from
              transfer_to transfer_data None JNull JNull)
         (failing ConnectError "connection refused") = (Raise e, tr) ->
       (run (is_transaction_safe (H := strict) "pg_test" transfer_from
               transfer_to transfer_data None)
            (failing ConnectError "connection refused")).1 = Raise e.
Proof.
  apply (proj1 (is_transaction_safe_always_closes_its_session (H := strict)
                  "pg_test" transfer_from transfer_to transfer_data None
                  (failing ConnectError "connection refused"))
           demo_sync [Opened (demo_session Client)]).
  reflexivity.
Defined.

(** X9. [is_transaction_safe] always validates with the defaults of the
    constructor: a request that the helper sends is a POST to [/validate]
    at the production base URL whose body carries [chainId = 56] and
    [guardrailId = null], together with the caller's [from], [to], [data]
    and [value]; the caller has no way to name another chain or a
    guardrail.  And the helper does send a request whenever the
    constructor it calls returns a client. *)
Theorem is_transaction_safe_validates_on_default_chain `{Pydantic}
    key f t d v (net : network) :
  (forall rq,
     Sent rq ∈ (run (is_transaction_safe key f t d v) net).2 ->
     Request.method rq = "POST"
     /\ Request.path rq = "/validate"
     /\ Request.base_url rq = "https://www.proofgate.xyz/api"
     /\ exists m,
          Request.json_body rq = Some (JObj m)
          /\ m !! "chainId" = Some (JInt 56)
          /\ m !! "guardrailId" = Some JNull
          /\ m !! "from" = Some f /\ m !! "to" = Some t /\ m !! "data" = Some d
          /\ m !! "value" = Some (default (JStr "0") v))
  /\
  (forall pg tr0,
     run (ProofGate.__init__ key None None None None) net = (Return pg, tr0) ->
     exists rq, Sent rq ∈ (run (is_transaction_safe key f t d v) net).2).
Proof.
  split.
  - intros rq Hin.
    destruct (run (ProofGate.__init__ key None None None None) net)
      as [[pg | e] tr0] eqn:Hinit.
    + rewrite (is_transaction_safe_built_run key f t d v net pg tr0 Hinit) in Hin.
      destruct (sync_init_returns _ _ _ _ _ _ _ _ Hinit) as (_ & _ & -> & _).
      cbn [snd request_of ProofGate.config ProofGate._client] in Hin.
      apply elem_of_cons in Hin. destruct Hin as [Hin | Hin]; [discriminate Hin |].
      apply elem_of_cons in Hin. destruct Hin as [Hin | Hin].
      * injection Hin as ->.
        destruct (validate_payload_lookup (built_config key None None None None)
                    f t d v JNull JNull)
          as (m & Hm & _ & Hf & Ht & Hd & Hv & Hg & Hc).
        split; [reflexivity |]. split; [reflexivity |]. split; [reflexivity |].
        exists m. cbn [Request.json_body build_request]. rewrite Hm.
        split; [reflexivity |]. repeat split; assumption.
      * apply list_elem_of_singleton in Hin. discriminate Hin.
    + rewrite (is_transaction_safe_unbuilt_run key f t d v net e tr0 Hinit) in Hin.
      apply not_elem_of_nil in Hin. destruct Hin.
  - intros pg tr0 Hinit.
    rewrite (is_transaction_safe_built_run key f t d v net pg tr0 Hinit).
    eexists. cbn [snd]. apply elem_of_cons. right. apply elem_of_cons. left.
    reflexivity.
Qed.

Lemma is_transaction_safe_validates_on_default_chain_witness :
  exists rq,
    Sent rq ∈ (run (is_transaction_safe (H := strict) "pg_test" transfer_from
                      transfer_to transfer_data None)
                   (always 200 (Json rejected_body))).2.
Proof.
  apply (proj2 (is_transaction_safe_validates_on_default_chain (H := strict)
                  "pg_test" transfer_from transfer_to transfer_data None
                  (always 200 (Json rejected_body)))
           demo_sync [Opened (demo_session Client)]).
  reflexivity.
Defined.

Lemma decoded_never_validation_failed `{Pydantic} reply r :
  decoded "ValidateResponse" ValidateResponse.model_validate (surface reply)
  <> Raise (validation_failed r).
Proof.
  pose proof (surface_classified reply) as Hs.
  destruct (surface reply) as [data | e]; cbn.
  - destruct (ValidateResponse.model_validate data); discriminate.
  - intros [= ->]. cbn in Hs.
    destruct Hs as [(Hc & _) | [(Hc & _) | (Hc & _)]]; discriminate Hc.
Qed.

(** X10. The helper and the throwing method agree.  For the client [pg]
    that the helper builds from the key: [is_transaction_safe] returns
    [True] exactly when [pg.validate_or_throw], called with the same
    transaction and no guardrail or chain, returns; and it returns
    [False] exactly when that call raises the validation failure of an
    unsafe response. *)
Theorem is_transaction_safe_agrees_with_validate_or_throw `{Pydantic}
    key f t d v net pg tr0 :
  run (ProofGate.__init__ key None None None None) net = (Return pg, tr0) ->
  ((run (is_transaction_safe key f t d v) net).1 = Return true <->
   exists r,
     (run (ProofGate.validate_or_throw pg f t d v JNull JNull) net).1
     = Return r)
  /\
  ((run (is_transaction_safe key f t d v) net).1 = Return false <->
   exists r,
     (run (ProofGate.validate_or_throw pg f t d v JNull JNull) net).1
     = Raise (validation_failed r)).
Proof.
  intros Hinit.
  rewrite (is_transaction_safe_built_run key f t d v net pg tr0 Hinit).
  rewrite sync_validate_or_throw_run. cbn [fst].
  rewrite sync_validate_run. cbv zeta. cbn [fst].
  pose proof (decoded_never_validation_failed
                (net (build_request (ProofGate._client pg) "POST" "/validate"
                        (Some (validate_payload (ProofGate.config pg)
                                 f t d v JNull JNull))))) as Hnever.
  destruct (decoded _ _ _) as [r | e]; cbn [enforced].
  - destruct (ValidateResponse.safe r) eqn:Hsafe; split; split;
      try discriminate; try (intros [r' Hr']; discriminate Hr').
    + intros _. exists r. reflexivity.
    + reflexivity.
    + intros _. exists r. reflexivity.
    + reflexivity.
  - split; split; try discriminate.
    + intros [r Hr]. discriminate Hr.
    + intros [r Hr]. exfalso. apply (Hnever r). exact Hr.
Qed.

Lemma is_transaction_safe_agrees_with_validate_or_throw_witness :
  (run (is_transaction_safe (H := strict) "pg_test" transfer_from transfer_to
          transfer_data None) (always 200 (Json rejected_body))).1
  = Return false <->
  exists r,
    (run (ProofGate.validate_or_throw (H := strict) demo_sync transfer_from
            transfer_to transfer_data None JNull JNull)
         (always 200 (Json rejected_body))).1
    = Raise (validation_failed r).
Proof.
  apply (proj2 (is_transaction_safe_agrees_with_validate_or_throw
                  (H := strict) "pg_test" transfer_from transfer_to
                  transfer_data None (always 200 (Json rejected_body))
                  demo_sync [Opened (demo_session Client)] eq_refl)).
Defined.

(** ** The read-only methods *)

Lemma decoded_accepts {A} model (f : json -> option A) body a :
  f body = Some a -> decoded model f (Return body) = Return a.
Proof. intros Hf. unfold decoded. rewrite Hf. reflexivity. Qed.

(** X11. [check_agent], [get_evidence] and [get_usage], in both clients:
    each sends one GET without a body, to [/agents/check?wallet=<wallet>],
    [/evidence/<validation_id>] and [/validate?wallet=<wallet>], the
    argument being pasted into the path as it is; and when the server
    answers with a 2xx status and a JSON body that the method's schema
    accepts as [r], the call returns [r]. *)
Theorem read_methods_return_the_decoded_body `{Pydantic}
    (a : AsyncProofGate.t) (s : ProofGate.t) arg (net : network) status body :
  200 <= status <= 299 ->
  (forall r,
     AgentCheckResponse.model_validate body = Some r ->
     (net (build_request (ProofGate._client s) "GET"
             ("/agents/check?wallet=" +:+ arg) None)
      = Responded {| Response.status_code := status;
                     Response.body := Json body |} ->
      run (ProofGate.check_agent s arg) net
      = (Return r, [Sent (build_request (ProofGate._client s) "GET"
                            ("/agents/check?wallet=" +:+ arg) None)]))
     /\
     (net (build_request (AsyncProofGate._client a) "GET"
             ("/agents/check?wallet=" +:+ arg) None)
      = Responded {| Response.status_code := status;
                     Response.body := Json body |} ->
      run (AsyncProofGate.check_agent a arg) net
      = (Return r, [Sent (build_request (AsyncProofGate._client a) "GET"
                            ("/agents/check?wallet=" +:+ arg) None)])))
  /\
  (forall r,
     EvidenceResponse.model_validate body = Some r ->
     (net (build_request (ProofGate._client s) "GET"
             ("/evidence/" +:+ arg) None)
      = Responded {| Response.status_code := status;
                     Response.body := Json body |} ->
      run (ProofGate.get_evidence s arg) net
      = (Return r, [Sent (build_request (ProofGate._client s) "GET"
                            ("/evidence/" +:+ arg) None)]))
     /\
     (net (build_request (AsyncProofGate._client a) "GET"
             ("/evidence/" +:+ arg) None)
      = Responded {| Response.status_code := status;
                     Response.body := Json body |} ->
      run (AsyncProofGate.get_evidence a arg) net
      = (Return r, [Sent (build_request (AsyncProofGate._client a) "GET"
                            ("/evidence/" +:+ arg) None)])))
  /\
  (forall r,
     UsageResponse.model_validate body = Some r ->
     (net (build_request (ProofGate._client s) "GET"
             ("/validate?wallet=" +:+ arg) None)
      = Responded {| Response.status_code := status;
                     Response.body := Json body |} ->
      run (ProofGate.get_usage s arg) net
      = (Return r, [Sent (build_request (ProofGate._client s) "GET"
                            ("/validate?wallet=" +:+ arg) None)]))
     /\
     (net (build_request (AsyncProofGate._client a) "GET"
             ("/validate?wallet=" +:+ arg) None)
      = Responded {| Response.status_code := status;
                     Response.body := Json body |} ->
      run (AsyncProofGate.get_usage a arg) net
      = (Return r, [Sent (build_request (AsyncProofGate._client a) "GET"
                            ("/validate?wallet=" +:+ arg) None)]))).
Proof.
  intros Hstatus.
  pose proof (surface_success status body Hstatus) as Hsurf.
  repeat split; intros Hnet;
    rewrite ?sync_check_agent_run, ?async_check_agent_run,
      ?sync_get_evidence_run, ?async_get_evidence_run,
      ?sync_get_usage_run, ?async_get_usage_run;
    cbv zeta; rewrite Hnet, Hsurf;
    erewrite decoded_accepts by eassumption; reflexivity.
Qed.

Lemma read_methods_return_the_decoded_body_witness :
  run (ProofGate.get_usage (H := strict) demo_sync "0xA")
      (always 200 (Json usage_body))
  = (Return usage,
     [Sent (build_request (demo_session Client) "GET"
              "/validate?wallet=0xA" None)]).
Proof.
  apply (proj1 (proj2 (proj2 (read_methods_return_the_decoded_body
                  (H := strict) demo_async demo_sync "0xA"
                  (always 200 (Json usage_body)) 200 usage_body
                  ltac:(lia))) usage ltac:(vm_compute; reflexivity))).
  reflexivity.
Defined.

(** * Properties of the schemas *)

Lemma lookup_field_insert_ne (m : gmap string json) k v alias name :
  k <> alias -> k <> name ->
  lookup_field (<[k := v]> m) alias name = lookup_field m alias name.
Proof.
  intros Ha Hn. unfold lookup_field.
  rewrite !lookup_insert_ne by assumption. reflexivity.
Qed.

Lemma required_insert_ne {A} (m : gmap string json) k v alias name
    (f : json -> option A) :
  k <> alias -> k <> name ->
  required (<[k := v]> m) alias name f = required m alias name f.
Proof.
  intros Ha Hn. unfold required. rewrite lookup_field_insert_ne by assumption.
  reflexivity.
Qed.

Lemma defaulted_insert_ne {A} (m : gmap string json) k v alias name
    (f : json -> option A) d :
  k <> alias -> k <> name ->
  defaulted (<[k := v]> m) alias name f d = defaulted m alias name f d.
Proof.
  intros Ha Hn. unfold defaulted. rewrite lookup_field_insert_ne by assumption.
  reflexivity.
Qed.

Lemma required_insert_alias {A} (m : gmap string json) alias name v
    (f : json -> option A) :
  required (<[alias := v]> m) alias name f = f v.
Proof.
  unfold required, lookup_field. rewrite lookup_insert_eq. reflexivity.
Qed.

Lemma lookup_field_None (m : gmap string json) alias name :
  m !! alias = None -> m !! name = None -> lookup_field m alias name = None.
Proof. intros Ha Hn. unfold lookup_field. rewrite Ha. exact Hn. Qed.

Lemma lookup_field_alias (m : gmap string json) alias name v :
  m !! alias = Some v -> lookup_field m alias name = Some v.
Proof. intros Ha. unfold lookup_field. rewrite Ha. reflexivity. Qed.

Lemma lookup_field_name (m : gmap string json) alias name :
  m !! alias = None -> lookup_field m alias name = m !! name.
Proof. intros Ha. unfold lookup_field. rewrite Ha. reflexivity. Qed.

(** X12. The [ValidateResponse] schema ignores what it does not know:
    adding to a body, or changing in it, a key that is none of the
    schema's field names and aliases changes nothing about whether the
    body is accepted nor about the response it is decoded to. *)
Theorem ValidateResponse_ignores_unknown_keys `{Pydantic}
    (m : gmap string json) k v :
  k ∉ ValidateResponse_keys ->
  ValidateResponse.model_validate (JObj (<[k := v]> m))
  = ValidateResponse.model_validate (JObj m).
Proof.
  intros Hk. unfold ValidateResponse_keys in Hk.
  repeat (apply not_elem_of_cons in Hk; destruct Hk as [? Hk]).
  unfold ValidateResponse.model_validate.
  rewrite !required_insert_ne, !defaulted_insert_ne by assumption.
  reflexivity.
Qed.

Lemma ValidateResponse_ignores_unknown_keys_witness :
  ValidateResponse.model_validate (H := strict)
    (JObj (<["riskScore" := JInt 7]>
             {[ "validationId" := JStr "val_3"; "result" := JStr "PASS";
                "reason" := JStr "ok"; "safe" := JBool false;
                "evidenceUri" := JStr "..."; "chainId" := JInt 8453 ]}))
  = ValidateResponse.model_validate (H := strict) inconsistent_body.
Proof.
  apply (ValidateResponse_ignores_unknown_keys (H := strict)).
  vm_compute. intros Hin.
  repeat (apply list_elem_of_In in Hin; destruct Hin as [Hin | Hin];
          [discriminate Hin | apply list_elem_of_In in Hin]).
  apply list_elem_of_In in Hin. destruct Hin.
Defined.

Lemma required_None {A} (m : gmap string json) alias name
    (f : json -> option A) :
  m !! alias = None -> m !! name = None -> required m alias name f = None.
Proof.
  intros Ha Hn. unfold required. rewrite lookup_field_None by assumption.
  reflexivity.
Qed.

Lemma defaulted_None {A} (m : gmap string json) alias name
    (f : json -> option A) d :
  m !! alias = None -> m !! name = None -> defaulted m alias name f d = Some d.
Proof.
  intros Ha Hn. unfold defaulted. rewrite lookup_field_None by assumption.
  reflexivity.
Qed.

(** X13. Required and optional fields of [ValidateResponse].  A body
    that lacks [validationId], [result], [reason], [evidenceUri], [safe]
    or [chainId] (under the alias and under the field name) is rejected;
    a body that is accepted and lacks [checks], [authenticated], [tier],
    [backend] or [onChainRecorded] is decoded with the empty list,
    [False], ["free"], ["local"] and [False] in their place. *)
Theorem ValidateResponse_required_and_optional_fields `{Pydantic}
    (m : gmap string json) :
  ((m !! "validationId" = None /\ m !! "validation_id" = None)
   \/ m !! "result" = None
   \/ m !! "reason" = None
   \/ (m !! "evidenceUri" = None /\ m !! "evidence_uri" = None)
   \/ m !! "safe" = None
   \/ (m !! "chainId" = None /\ m !! "chain_id" = None) ->
   ValidateResponse.model_validate (JObj m) = None)
  /\
  (forall r,
     ValidateResponse.model_validate (JObj m) = Some r ->
     (m !! "checks" = None -> ValidateResponse.checks r = []) /\
     (m !! "authenticated" = None -> ValidateResponse.authenticated r = false) /\
     (m !! "tier" = None -> ValidateResponse.tier r = "free") /\
     (m !! "backend" = None -> ValidateResponse.backend r = "local") /\
     (m !! "onChainRecorded" = None -> m !! "on_chain_recorded" = None ->
      ValidateResponse.on_chain_recorded r = false)).
Proof.
  split.
  - intros Hmissing.
    destruct (ValidateResponse.model_validate (JObj m)) as [r |] eqn:Hm;
      [exfalso | reflexivity].
    unfold ValidateResponse.model_validate in Hm.
    repeat first [invert_required Hm | invert_defaulted Hm].
    destruct Hmissing as [[Ha Hn] | [Hr | [Hr | [[Ha Hn] | [Hs | [Ha Hn]]]]]];
      match goal with
      | Hl : lookup_field m ?a ?n = Some _ |- _ =>
          rewrite (lookup_field_None m a n) in Hl by assumption;
          discriminate Hl
      end.
  - intros r Hm. unfold ValidateResponse.model_validate in Hm.
    repeat first [invert_required Hm | invert_defaulted Hm].
    injection Hm as <-. cbn.
    repeat split.
    + intros Hk. rewrite defaulted_None in Hd by assumption. congruence.
    + intros Hk. rewrite defaulted_None in Hd0 by assumption. congruence.
    + intros Hk. rewrite defaulted_None in Hd1 by assumption. congruence.
    + intros Hk. rewrite defaulted_None in Hd2 by assumption. congruence.
    + intros Ha Hn. rewrite defaulted_None in Hd3 by assumption. congruence.
Qed.

Lemma ValidateResponse_required_and_optional_fields_witness :
  ValidateResponse.model_validate (H := strict) (JObj body_without_safe) = None.
Proof.
  apply (proj1 (ValidateResponse_required_and_optional_fields (H := strict)
                  body_without_safe)).
  right. right. right. right. left. vm_compute. reflexivity.
Defined.

(** X14. Aliased fields of [ValidateResponse] are read under the alias
    first and under the field name otherwise.  In a body that is accepted
    as [r]: when [validationId] (resp. [evidenceUri], [chainId],
    [onChainRecorded]) is present it is the one decoded, whatever
    [validation_id] (resp. [evidence_uri], [chain_id],
    [on_chain_recorded]) holds; when the alias is absent the field name
    is read instead. *)
Theorem ValidateResponse_reads_alias_then_field_name `{Pydantic}
    (m : gmap string json) r :
  ValidateResponse.model_validate (JObj m) = Some r ->
  (forall v, m !! "validationId" = Some v ->
     v = JStr (ValidateResponse.validation_id r)) /\
  (m !! "validationId" = None ->
     m !! "validation_id" = Some (JStr (ValidateResponse.validation_id r))) /\
  (forall v, m !! "evidenceUri" = Some v ->
     v = JStr (ValidateResponse.evidence_uri r)) /\
  (m !! "evidenceUri" = None ->
     m !! "evidence_uri" = Some (JStr (ValidateResponse.evidence_uri r))) /\
  (forall v, m !! "chainId" = Some v ->
     int_validator v = Some (ValidateResponse.chain_id r)) /\
  (m !! "chainId" = None ->
     exists v, m !! "chain_id" = Some v /\
               int_validator v = Some (ValidateResponse.chain_id r)) /\
  (forall v, m !! "onChainRecorded" = Some v ->
     bool_validator v = Some (ValidateResponse.on_chain_recorded r)).
Proof.
  intros Hm. unfold ValidateResponse.model_validate in Hm.
  repeat first [invert_required Hm | invert_defaulted Hm].
  injection Hm as <-. cbn.
  apply str_validator_Some in Hf, Hf2. subst.
  repeat split.
  - intros v' Hv. rewrite (lookup_field_alias _ _ _ _ Hv) in Hl. congruence.
  - intros Hv. rewrite (lookup_field_name _ _ _ Hv) in Hl. exact Hl.
  - intros v' Hv. rewrite (lookup_field_alias _ _ _ _ Hv) in Hl2. congruence.
  - intros Hv. rewrite (lookup_field_name _ _ _ Hv) in Hl2. exact Hl2.
  - intros v' Hv. rewrite (lookup_field_alias _ _ _ _ Hv) in Hl4. congruence.
  - intros Hv. rewrite (lookup_field_name _ _ _ Hv) in Hl4. eauto.
  - intros v' Hv. unfold defaulted in Hd3.
    rewrite (lookup_field_alias _ _ _ _ Hv) in Hd3. exact Hd3.
Qed.

Lemma ValidateResponse_reads_alias_then_field_name_witness :
  body_by_field_name !! "validation_id"
  = Some (JStr (ValidateResponse.validation_id inconsistent)).
Proof.
  apply (proj1 (proj2 (ValidateResponse_reads_alias_then_field_name
                         (H := strict) body_by_field_name inconsistent
                         ltac:(vm_compute; reflexivity)))).
  vm_compute. reflexivity.
Defined.

(** X15. [UsageResponse] declares no alias, so [get_usage] reads the
    quota fields under their snake-case names only.  In both clients, a
    2xx answer whose body lacks [validations_used], [validations_limit]
    or [daily_spent_wei] makes [get_usage] raise [ValidationError], also
    when the body carries the same data under camel-case keys. *)
Theorem get_usage_reads_snake_case_keys `{Pydantic}
    (a : AsyncProofGate.t) (s : ProofGate.t) wallet (net : network) status
    (m : gmap string json) :
  200 <= status <= 299 ->
  m !! "validations_used" = None \/ m !! "validations_limit" = None
  \/ m !! "daily_spent_wei" = None ->
  (net (build_request (ProofGate._client s) "GET"
          ("/validate?wallet=" +:+ wallet) None)
   = Responded {| Response.status_code := status;
                  Response.body := Json (JObj m) |} ->
   run (ProofGate.get_usage s wallet) net
   = (Raise (ValidationError "UsageResponse" (JObj m)),
      [Sent (build_request (ProofGate._client s) "GET"
               ("/validate?wallet=" +:+ wallet) None)]))
  /\
  (net (build_request (AsyncProofGate._client a) "GET"
          ("/validate?wallet=" +:+ wallet) None)
   = Responded {| Response.status_code := status;
                  Response.body := Json (JObj m) |} ->
   run (AsyncProofGate.get_usage a wallet) net
   = (Raise (ValidationError "UsageResponse" (JObj m)),
      [Sent (build_request (AsyncProofGate._client a) "GET"
               ("/validate?wallet=" +:+ wallet) None)])).
Proof.
  intros Hstatus Hmissing.
  pose proof (surface_success status (JObj m) Hstatus) as Hsurf.
  assert (Hrej : UsageResponse.model_validate (JObj m) = None).
  { destruct (UsageResponse.model_validate (JObj m)) as [r |] eqn:Hm;
      [exfalso | reflexivity].
    unfold UsageResponse.model_validate in Hm.
    repeat invert_required Hm.
    destruct Hmissing as [Hk | [Hk | Hk]];
      match goal with
      | Hl : lookup_field m ?a ?n = Some _ |- _ =>
          rewrite (lookup_field_None m a n) in Hl by assumption;
          discriminate Hl
      end. }
  split; intros Hnet.
  - rewrite sync_get_usage_run. cbv zeta. rewrite Hnet, Hsurf.
    rewrite (decoded_rejects _ _ _ Hrej). reflexivity.
  - rewrite async_get_usage_run. cbv zeta. rewrite Hnet, Hsurf.
    rewrite (decoded_rejects _ _ _ Hrej). reflexivity.
Qed.

Lemma get_usage_reads_snake_case_keys_witness :
  run (ProofGate.get_usage (H := strict) demo_sync "0xA")
      (always 200 (Json usage_body_camel))
  = (Raise (ValidationError "UsageResponse" usage_body_camel),
     [Sent (build_request (demo_session Client) "GET"
              "/validate?wallet=0xA" None)]).
Proof.
  apply (proj1 (get_usage_reads_snake_case_keys (H := strict)
                  demo_async demo_sync "0xA"
                  (always 200 (Json usage_body_camel)) 200
                  {[ "wallet" := JStr "0xA"; "tier" := JStr "free";
                     "validationsUsed" := JInt 3;
                     "validationsLimit" := JInt 100;
                     "dailySpentWei" := JStr "0" ]}
                  ltac:(lia) ltac:(left; vm_compute; reflexivity))).
  reflexivity.
Defined.

(** X16. The client does not check the range of an agent's trust
    score: if a body is accepted by [AgentCheckResponse] as [r], the same
    body with any integer whatever as [trustScore] -- negative, or above
    100 -- is accepted too, as [r] with that score. *)
Theorem AgentCheckResponse_does_not_bound_trust_score `{Pydantic}
    (m : gmap string json) r z :
  AgentCheckResponse.model_validate (JObj m) = Some r ->
  AgentCheckResponse.model_validate (JObj (<["trustScore" := JInt z]> m))
  = Some (with_trust_score r z).
Proof.
  intros Hm. unfold AgentCheckResponse.model_validate in *.
  rewrite (required_insert_alias m "trustScore" "trust_score").
  rewrite !required_insert_ne, !defaulted_insert_ne by discriminate.
  rewrite int_validator_int.
  repeat match type of Hm with
         | (?o ≫= _) = Some _ =>
             destruct o; cbn [mbind option_bind] in *; [| discriminate Hm]
         end.
  injection Hm as <-. reflexivity.
Qed.

Lemma AgentCheckResponse_does_not_bound_trust_score_witness :
  AgentCheckResponse.model_validate (H := strict)
    (JObj (<["trustScore" := JInt (-250)]> agent_body))
  = Some (with_trust_score agent (-250)).
Proof.
  apply (AgentCheckResponse_does_not_bound_trust_score (H := strict)
           agent_body agent (-250)).
  vm_compute. reflexivity.
Defined.

(** X17. [ValidateRequest] does not describe what [validate] sends.
    The model reads [guardrail_id] and [chain_id] under those names only
    (they have no alias), whereas the client writes [guardrailId] and
    [chainId]: decoding the body that [validate] sends for string
    arguments gives the sender, target, calldata and value back, but
    [guardrail_id = None] and [chain_id = None], whatever guardrail and
    chain the body names. *)
Theorem ValidateRequest_misses_guardrail_and_chain `{Pydantic}
    cfg (f t d v : string) (g c : json) :
  ValidateRequest.model_validate
    (validate_payload cfg (JStr f) (JStr t) (JStr d) (Some (JStr v)) g c)
  = Some {| ValidateRequest.from_address := f;
            ValidateRequest.to := t;
            ValidateRequest.data := d;
            ValidateRequest.value := v;
            ValidateRequest.guardrail_id := None;
            ValidateRequest.chain_id := None |}.
Proof.
  unfold ValidateRequest.model_validate, validate_payload, required,
    defaulted, lookup_field.
  rewrite !lookup_insert_ne by discriminate.
  repeat (rewrite ?lookup_insert_eq, ?lookup_singleton_ne,
            ?lookup_insert_ne by discriminate; cbn [mbind option_bind]).
  reflexivity.
Qed.

(** * Further properties of the signer service *)

Section signer_service_in_general.
Context `{Pydantic}.
Variable proofgate : ProofGate.t.
Variable account_address : string.
Variable to_checksum_address : json -> outcome string.
Variable to_wei_ether : json -> outcome Z.
Variable gas_price : outcome Z.
Variable get_transaction_count : string -> outcome Z.
Variable sign_transaction : json -> outcome string.
Variable send_raw_transaction : string -> outcome string.
Variable py_repr : json -> string.
Variable validation_error_text : string -> json -> string.

Local Abbreviation handler :=
  (execute proofgate account_address to_checksum_address to_wei_ether
     gas_price get_transaction_count sign_transaction send_raw_transaction
     py_repr validation_error_text).

Local Abbreviation validation_of m :=
  (ProofGate.validate proofgate (JStr account_address)
     (default JNull (m !! "to")) (default (JStr "0x") (m !! "data"))
     (Some (default (JStr "0") (m !! "value")))
     (default JNull (m !! "guardrailId")) JNull).

Local Abbreviation submission_of m :=
  (sign_and_send account_address to_checksum_address to_wei_ether gas_price
     get_transaction_count sign_transaction send_raw_transaction
     (default JNull (m !! "to")) (default (JStr "0") (m !! "value"))
     (default (JStr "0x") (m !! "data"))).

Ltac answer := rewrite run_jsonify; cbn; rewrite ?app_nil_r; reflexivity.

(** What [execute] does with a request whose body is an object and
    whose calldata can be sliced. *)
Lemma execute_object_run (m : gmap string json) net :
  sliceable (default (JStr "0x") (m !! "data")) = true ->
  run (handler (JObj m)) net
  = match run (validation_of m) net with
    | (Raise e, tr) =>
        (Return (failure_answer
                   (str_exception py_repr validation_error_text e)), tr)
    | (Return r, tr) =>
        if ValidateResponse.safe r then
          match run (submission_of m) net with
          | (Return tx_hash_hex, tr') =>
              (Return (sent_answer r tx_hash_hex), tr ++ tr')
          | (Raise e, tr') =>
              (Return (failure_answer
                         (str_exception py_repr validation_error_text e)),
               tr ++ tr')
          end
        else (Return (blocked_answer r), tr)
    end.
Proof.
  intros Hdata. unfold execute. cbv zeta.
  rewrite run_bind, run_get. cbv beta iota zeta.
  rewrite run_bind, run_get_default. cbv beta iota zeta.
  rewrite run_bind, run_get_default. cbv beta iota zeta.
  rewrite run_bind, run_get. cbv beta iota zeta.
  rewrite run_bind.
  assert (Hslice : run (slice_prefix (default (JStr "0x") (m !! "data"))) net
                   = (Return tt, [])).
  { destruct (default (JStr "0x") (m !! "data")); try discriminate Hdata;
      reflexivity. }
  rewrite Hslice. cbv beta iota zeta.
  rewrite run_try_except, run_bind.
  destruct (run (validation_of m) net) as [[r | e] tr]; cbv beta iota zeta;
    [| answer].
  unfold blocked_answer, sent_answer, not_serializable, failure_answer.
  destruct (ValidateResponse.safe r); cbn [negb].
  - unfold sign_and_send.
    rewrite !run_bind, !run_lift.
    destruct (to_checksum_address _) as [to | e]; cbv beta iota zeta;
      [| answer].
    rewrite !run_bind.
    destruct (ne_zero_str _);
      [ rewrite !run_lift;
        destruct (to_wei_ether _) as [wei | e]; cbv beta iota zeta;
          [| answer]
      | rewrite !run_mret; cbv beta iota zeta ].
    all: rewrite !run_bind, !run_lift;
      destruct gas_price as [price | e]; cbv beta iota zeta; [| answer].
    all: rewrite !run_bind, !run_lift;
      destruct (get_transaction_count _) as [nonce | e]; cbv beta iota zeta;
        [| answer].
    all: unfold transaction; rewrite !run_bind, !run_lift;
      destruct (sign_transaction _) as [raw | e]; cbv beta iota zeta;
        [| answer].
    all: rewrite !run_bind, !run_broadcast;
      destruct (send_raw_transaction raw) as [hash | e]; cbv beta iota zeta;
        [| answer].
    all: rewrite run_jsonify; unfold validation_summary;
      destruct (ValidateResponse.checks r) as [| c cs];
        [ cbn; rewrite ?app_nil_r; reflexivity
        | cbn -[run jsonify]; answer ].
  - rewrite run_jsonify. unfold validation_summary.
    destruct (ValidateResponse.checks r) as [| c cs];
      [ cbn; rewrite ?app_nil_r; reflexivity
      | cbn -[run jsonify]; answer ].
Qed.

(** What signing and sending does: nothing observable, ending in an
    exception, or one broadcast of what [sign_transaction] returned for
    the transaction built from the request. *)
Lemma sign_and_send_run to_address value tx_data net :
  (exists e, run (sign_and_send account_address to_checksum_address
                    to_wei_ether gas_price get_transaction_count
                    sign_transaction send_raw_transaction
                    to_address value tx_data) net = (Raise e, []))
  \/
  (exists to wei price nonce raw,
     to_checksum_address to_address = Return to
     /\ (if ne_zero_str value then to_wei_ether value else Return 0)
        = Return wei
     /\ gas_price = Return price
     /\ get_transaction_count account_address = Return nonce
     /\ sign_transaction (JObj (transaction to tx_data wei price nonce))
        = Return raw
     /\ run (sign_and_send account_address to_checksum_address
               to_wei_ether gas_price get_transaction_count
               sign_transaction send_raw_transaction
               to_address value tx_data) net
        = (send_raw_transaction raw, [Broadcast raw])).
Proof.
  unfold sign_and_send. rewrite !run_bind, !run_lift.
  destruct (to_checksum_address to_address) as [to | e] eqn:Hto;
    cbv beta iota zeta; [| left; eexists; reflexivity].
  rewrite !run_bind.
  destruct (ne_zero_str value);
    [ rewrite !run_lift;
      destruct (to_wei_ether value) as [wei | e]; cbv beta iota zeta;
        [| left; eexists; reflexivity]
    | rewrite !run_mret; cbv beta iota zeta ].
  all: rewrite !run_bind, !run_lift;
    destruct gas_price as [price | e]; cbv beta iota zeta;
      [| left; eexists; reflexivity].
  all: rewrite !run_bind, !run_lift;
    destruct (get_transaction_count _) as [nonce | e]; cbv beta iota zeta;
      [| left; eexists; reflexivity].
  all: rewrite !run_bind, !run_lift;
    destruct (sign_transaction _) as [raw | e] eqn:Hsign; cbv beta iota zeta;
      [| left; eexists; reflexivity].
  all: rewrite !run_broadcast; right; eexists to, _, price, nonce, raw;
    split; [reflexivity |]; split; [reflexivity |]; split; [reflexivity |];
    split; [reflexivity |]; split; [exact Hsign |];
    destruct (send_raw_transaction raw); reflexivity.
Qed.
End signer_service_in_general.

Section signer_service_guarantees.
Context `{Pydantic}.
Variable proofgate : ProofGate.t.
Variable account_address : string.
Variable to_checksum_address : json -> outcome string.
Variable to_wei_ether : json -> outcome Z.
Variable gas_price : outcome Z.
Variable get_transaction_count : string -> outcome Z.
Variable sign_transaction : json -> outcome string.
Variable send_raw_transaction : string -> outcome string.
Variable py_repr : json -> string.
Variable validation_error_text : string -> json -> string.

Local Abbreviation handler :=
  (execute proofgate account_address to_checksum_address to_wei_ether
     gas_price get_transaction_count sign_transaction send_raw_transaction
     py_repr validation_error_text).

Local Abbreviation validation_of m :=
  (ProofGate.validate proofgate (JStr account_address)
     (default JNull (m !! "to")) (default (JStr "0x") (m !! "data"))
     (Some (default (JStr "0") (m !! "value")))
     (default JNull (m !! "guardrailId")) JNull).

Lemma execute_not_a_dict request_json net :
  is_dict request_json = false ->
  run (handler request_json) net
  = (Raise (AttributeError ("'" +:+ type_name request_json
                            +:+ "' object has no attribute 'get'")), []).
Proof.
  intros Hd. unfold execute. cbv zeta. rewrite run_bind, run_get.
  destruct request_json; try reflexivity. discriminate Hd.
Qed.

Lemma execute_not_sliceable (m : gmap string json) net :
  sliceable (default (JStr "0x") (m !! "data")) = false ->
  exists msg, run (handler (JObj m)) net = (Raise (TypeError msg), []).
Proof.
  intros Hdata. unfold execute. cbv zeta.
  rewrite run_bind, run_get. cbv beta iota zeta.
  rewrite run_bind, run_get_default. cbv beta iota zeta.
  rewrite run_bind, run_get_default. cbv beta iota zeta.
  rewrite run_bind, run_get. cbv beta iota zeta.
  rewrite run_bind.
  destruct (default (JStr "0x") (m !! "data")); try discriminate Hdata;
    eexists; reflexivity.
Qed.

(** X18. A request that [execute] cannot read fails before anything is
    validated.  When the request body is not a JSON object the handler
    raises [AttributeError]; when it is an object whose [data] is [null],
    a boolean or a number the handler raises [TypeError] on slicing it
    for the log line.  Both are raised outside the [try] block: the
    handler gives no answer of its own and has sent nothing to the
    validation service. *)
Theorem execute_fails_on_malformed_request_before_validating
    request_json net :
  (is_dict request_json = false ->
   run (handler request_json) net
   = (Raise (AttributeError ("'" +:+ type_name request_json
                             +:+ "' object has no attribute 'get'")), []))
  /\
  (forall m : gmap string json,
     request_json = JObj m ->
     not_subscriptable (default (JStr "0x") (m !! "data")) = true ->
     run (handler request_json) net
     = (Raise (TypeError ("'" +:+ type_name (default (JStr "0x") (m !! "data"))
                          +:+ "' object is not subscriptable")), [])).
Proof.
  split.
  - apply execute_not_a_dict.
  - intros m -> Hdata. unfold execute. cbv zeta.
    rewrite run_bind, run_get. cbv beta iota zeta.
    rewrite run_bind, run_get_default. cbv beta iota zeta.
    rewrite run_bind, run_get_default. cbv beta iota zeta.
    rewrite run_bind, run_get. cbv beta iota zeta.
    rewrite run_bind.
    destruct (default (JStr "0x") (m !! "data")); try discriminate Hdata;
      reflexivity.
Qed.

(** X19. [execute] broadcasts only after a safe verdict, and what it
    broadcasts is the transaction it built from the request.  Whatever
    the request and whatever the validation service and the chain node
    answer: if the handler broadcast a raw transaction, then the request
    body was an object, the validation call -- made for the request's
    [to], [data] and [value] as given -- returned a response with
    [safe = true], and the raw transaction is what [sign_transaction]
    returned for the transaction with these fields: [to] the checksummed
    target, [data] the calldata of the request, [value] zero when the
    request's value is ["0"] and [to_wei(value, "ether")] otherwise,
    [gasPrice] the node's gas price, [nonce] the transaction count of the
    service's account, gas 200000 and chain 8453.  So the amount signed
    is the request's value read in ether, whereas the validation call
    carried the same value as it stands, which the client documents as an
    amount in wei.  When the validation call raises or the response is
    unsafe, nothing is broadcast. *)
Theorem execute_broadcasts_only_after_a_safe_verdict request_json net raw :
  Broadcast raw ∈ (run (handler request_json) net).2 ->
  exists (m : gmap string json) r tr,
    request_json = JObj m
    /\ run (validation_of m) net = (Return r, tr)
    /\ ValidateResponse.safe r = true
    /\ exists to wei price nonce,
         to_checksum_address (default JNull (m !! "to")) = Return to
         /\ (if ne_zero_str (default (JStr "0") (m !! "value"))
             then to_wei_ether (default (JStr "0") (m !! "value"))
             else Return 0) = Return wei
         /\ gas_price = Return price
         /\ get_transaction_count account_address = Return nonce
         /\ sign_transaction
              (JObj (transaction to (default (JStr "0x") (m !! "data"))
                       wei price nonce)) = Return raw.
Proof.
  intros Hin.
  destruct (is_dict request_json) eqn:Hd;
    [| rewrite (execute_not_a_dict _ _ Hd) in Hin; cbn in Hin;
       apply not_elem_of_nil in Hin; destruct Hin].
  destruct request_json as [| | | | | | m]; try discriminate Hd.
  destruct (sliceable (default (JStr "0x") (m !! "data"))) eqn:Hdata;
    [| destruct (execute_not_sliceable m net Hdata) as [msg Hrun];
       rewrite Hrun in Hin; cbn in Hin;
       apply not_elem_of_nil in Hin; destruct Hin].
  rewrite (execute_object_run _ _ _ _ _ _ _ _ _ _ m net Hdata) in Hin.
  rewrite sync_validate_run in *. cbv zeta in *.
  destruct (decoded _ _ _) as [r | e] eqn:Hdec.
  - destruct (ValidateResponse.safe r) eqn:Hsafe.
    + eexists m, r, _. split; [reflexivity |].
      split; [rewrite sync_validate_run; cbv zeta; rewrite Hdec; reflexivity |].
      split; [exact Hsafe |].
      destruct (sign_and_send_run account_address to_checksum_address
                  to_wei_ether gas_price get_transaction_count
                  sign_transaction send_raw_transaction
                  (default JNull (m !! "to"))
                  (default (JStr "0") (m !! "value"))
                  (default (JStr "0x") (m !! "data")) net)
        as [[e Hrun] | (to & wei & price & nonce & raw' & Hto & Hwei & Hprice
                        & Hnonce & Hsign & Hrun)];
        rewrite Hrun in Hin.
      * cbn in Hin. apply list_elem_of_singleton in Hin. discriminate Hin.
      * assert (Hraw : Broadcast raw ∈ [Sent (build_request
                  (ProofGate._client proofgate) "POST" "/validate"
                  (Some (validate_payload (ProofGate.config proofgate)
                           (JStr account_address) (default JNull (m !! "to"))
                           (default (JStr "0x") (m !! "data"))
                           (Some (default (JStr "0") (m !! "value")))
                           (default JNull (m !! "guardrailId")) JNull)));
                  Broadcast raw']).
        { destruct (send_raw_transaction raw'); exact Hin. }
        apply elem_of_cons in Hraw. destruct Hraw as [Hraw | Hraw];
          [discriminate Hraw |].
        apply list_elem_of_singleton in Hraw. injection Hraw as ->.
        exists to, wei, price, nonce. repeat split; assumption.
    + cbn in Hin. apply list_elem_of_singleton in Hin. discriminate Hin.
  - cbn in Hin. apply list_elem_of_singleton in Hin. discriminate Hin.
Qed.
(** X20. [execute] validates in its own name.  For a request body that
    is an object with sliceable calldata, the first thing the handler
    does is send one POST to [/validate], through the service's client,
    whose body names the service's own account as [from] and the client's
    configured chain as [chainId], whatever the request body holds under
    [from] or [chainId]; [to], [data] and [value] are taken from the
    request ([data] defaulting to ["0x"], [value] to ["0"]). *)
Theorem execute_validates_with_its_own_address (m : gmap string json) net :
  sliceable (default (JStr "0x") (m !! "data")) = true ->
  exists body rest,
    (run (handler (JObj m)) net).2
    = Sent (build_request (ProofGate._client proofgate) "POST" "/validate"
              (Some (JObj body))) :: rest
    /\ body !! "from" = Some (JStr account_address)
    /\ body !! "chainId"
       = Some (JInt (ProofGateConfig.chain_id (ProofGate.config proofgate)))
    /\ body !! "to" = Some (default JNull (m !! "to"))
    /\ body !! "data" = Some (default (JStr "0x") (m !! "data"))
    /\ body !! "value" = Some (default (JStr "0") (m !! "value")).
Proof.
  intros Hdata.
  rewrite (execute_object_run _ _ _ _ _ _ _ _ _ _ m net Hdata).
  rewrite sync_validate_run. cbv zeta.
  destruct (validate_payload_lookup (ProofGate.config proofgate)
              (JStr account_address) (default JNull (m !! "to"))
              (default (JStr "0x") (m !! "data"))
              (Some (default (JStr "0") (m !! "value")))
              (default JNull (m !! "guardrailId")) JNull)
    as (body & -> & _ & Hf & Ht & Hd & Hv & _ & Hc).
  exists body.
  destruct (decoded _ _ _) as [r | e].
  - destruct (ValidateResponse.safe r).
    + destruct (run (sign_and_send _ _ _ _ _ _ _ _ _ _) net) as [[h | e] tr'];
        exists tr'; repeat split; assumption.
    + exists []. repeat split; assumption.
  - exists []. repeat split; assumption.
Qed.

(** X21. The answers of [execute].  Whenever the handler answers, the
    status is 200, 400 or 500 and the body is an object whose [success]
    is [true] exactly for 200.  A 200 is given only after the one
    validation request and one broadcast; a 400 only after the validation
    request alone, for a response with [safe = false]. *)
Theorem execute_answers_200_only_after_a_broadcast request_json net resp tr :
  run (handler request_json) net = (Return resp, tr) ->
  exists body,
    FlaskResponse.payload resp = JObj body /\
    ((FlaskResponse.status resp = 200
      /\ body !! "success" = Some (JBool true)
      /\ exists rq raw, tr = [Sent rq; Broadcast raw])
     \/
     (FlaskResponse.status resp = 400
      /\ body !! "success" = Some (JBool false)
      /\ (exists rq, tr = [Sent rq])
      /\ exists (m : gmap string json) r,
           request_json = JObj m
           /\ (run (validation_of m) net).1 = Return r
           /\ ValidateResponse.safe r = false)
     \/
     (FlaskResponse.status resp = 500
      /\ body !! "success" = Some (JBool false))).
Proof.
  intros Hrun.
  destruct (is_dict request_json) eqn:Hd;
    [| rewrite (execute_not_a_dict _ _ Hd) in Hrun; discriminate Hrun].
  destruct request_json as [| | | | | | m]; try discriminate Hd.
  destruct (sliceable (default (JStr "0x") (m !! "data"))) eqn:Hdata;
    [| destruct (execute_not_sliceable m net Hdata) as [msg Hraise];
       rewrite Hraise in Hrun; discriminate Hrun].
  rewrite (execute_object_run _ _ _ _ _ _ _ _ _ _ m net Hdata) in Hrun.
  destruct (run (validation_of m) net) as [[r | e] tr0] eqn:Hval.
  - rewrite sync_validate_run in Hval. cbv zeta in Hval.
    injection Hval as Hdec <-.
    destruct (ValidateResponse.safe r) eqn:Hsafe.
    + destruct (sign_and_send_run account_address to_checksum_address
                  to_wei_ether gas_price get_transaction_count
                  sign_transaction send_raw_transaction
                  (default JNull (m !! "to"))
                  (default (JStr "0") (m !! "value"))
                  (default (JStr "0x") (m !! "data")) net)
        as [[e Hsub]
           | (to & wei & price & nonce & raw & _ & _ & _ & _ & _ & Hsub)];
        rewrite Hsub in Hrun.
      * injection Hrun as <- <-. eexists. split; [reflexivity |].
        right. right. split; [reflexivity | reflexivity].
      * destruct (send_raw_transaction raw) as [h | e].
        -- injection Hrun as <- <-. unfold sent_answer.
           destruct (ValidateResponse.checks r).
           ++ eexists. split; [reflexivity |]. left.
              split; [reflexivity |]. split; [reflexivity |].
              eexists _, _. reflexivity.
           ++ eexists. split; [reflexivity |]. right. right.
              split; reflexivity.
        -- injection Hrun as <- <-. eexists. split; [reflexivity |].
           right. right. split; reflexivity.
    + injection Hrun as <- <-. unfold blocked_answer.
      destruct (ValidateResponse.checks r).
      * eexists. split; [reflexivity |]. right. left.
        split; [reflexivity |]. split; [reflexivity |].
        split; [eexists; reflexivity |].
        exists m, r. split; [reflexivity |].
        split; [| exact Hsafe].
        rewrite sync_validate_run. cbv zeta. cbn [fst]. exact Hdec.
      * eexists. split; [reflexivity |]. right. right. split; reflexivity.
  - injection Hrun as <- <-. eexists. split; [reflexivity |].
    right. right. split; reflexivity.
Qed.

(** X22. How a failure of the client reads in the answer.  When the
    validation call raises a [ProofGateError] whose message is a string,
    the handler answers 500 with [error] set to ["[<code>] <message>"],
    the error's [__str__], and nothing is signed or broadcast. *)
Theorem execute_reports_client_errors_with_their_code
    (m : gmap string json) net e msg tr :
  sliceable (default (JStr "0x") (m !! "data")) = true ->
  run (validation_of m) net = (Raise (ProofGateError_ e), tr) ->
  ProofGateError.message e = JStr msg ->
  run (handler (JObj m)) net
  = (Return {| FlaskResponse.status := 500;
               FlaskResponse.payload :=
                 JObj {[ "success" := JBool false;
                         "error" := JStr ("[" +:+ ProofGateError.code e
                                          +:+ "] " +:+ msg) ]} |},
     tr).
Proof.
  intros Hdata Hval Hmsg.
  rewrite (execute_object_run _ _ _ _ _ _ _ _ _ _ m net Hdata), Hval.
  unfold failure_answer, error_answer, str_exception, ProofGateError.__str__.
  rewrite Hmsg. reflexivity.
Qed.
End signer_service_guarantees.

Lemma execute_fails_on_malformed_request_before_validating_witness :
  run (service (JArr [])) (always 200 (Json approved_body))
  = (Raise (AttributeError "'list' object has no attribute 'get'"), [])
  /\
  run (service (JObj numeric_data_fields)) (always 200 (Json approved_body))
  = (Raise (TypeError "'int' object is not subscriptable"), []).
Proof.
  split.
  - exact (proj1 (execute_fails_on_malformed_request_before_validating
                    (H := strict) signer_client "0xA" accepting_checksum
                    (fun _ => Return 0) (Return 1000000) (fun _ => Return 7)
                    (fun _ => Return "0xf86b") (fun _ => Return "0x5c50")
                    (fun _ => EmptyString) (fun _ _ => "validation error")
                    (JArr []) (always 200 (Json approved_body)))
                 eq_refl).
  - exact (proj2 (execute_fails_on_malformed_request_before_validating
                    (H := strict) signer_client "0xA" accepting_checksum
                    (fun _ => Return 0) (Return 1000000) (fun _ => Return 7)
                    (fun _ => Return "0xf86b") (fun _ => Return "0x5c50")
                    (fun _ => EmptyString) (fun _ _ => "validation error")
                    (JObj numeric_data_fields)
                    (always 200 (Json approved_body)))
                 numeric_data_fields eq_refl eq_refl).
Defined.

Lemma execute_broadcasts_only_after_a_safe_verdict_witness :
  exists (m : gmap string json) r tr,
    JObj one_ether_fields = JObj m
    /\ run (ProofGate.validate (H := strict) signer_client (JStr "0xA")
              (default JNull (m !! "to")) (default (JStr "0x") (m !! "data"))
              (Some (default (JStr "0") (m !! "value")))
              (default JNull (m !! "guardrailId")) JNull)
           (always 200 (Json approved_body_no_checks)) = (Return r, tr)
    /\ ValidateResponse.safe r = true
    /\ exists to wei price nonce,
         accepting_checksum (default JNull (m !! "to")) = Return to
         /\ (if ne_zero_str (default (JStr "0") (m !! "value"))
             then ether_to_wei (default (JStr "0") (m !! "value"))
             else Return 0) = Return wei
         /\ Return 1000000 = Return price
         /\ (fun _ : string => Return 7) "0xA" = Return nonce
         /\ (fun _ : json => Return "0xf86b")
              (JObj (transaction to (default (JStr "0x") (m !! "data"))
                       wei price nonce)) = Return "0xf86b".
Proof.
  apply (execute_broadcasts_only_after_a_safe_verdict
           (H := strict) signer_client "0xA" accepting_checksum
           ether_to_wei (Return 1000000) (fun _ => Return 7)
           (fun _ => Return "0xf86b") (fun _ => Return "0x5c50")
           (fun _ => EmptyString) (fun _ _ => "validation error")
           (JObj one_ether_fields)
           (always 200 (Json approved_body_no_checks)) "0xf86b").
  vm_compute. apply elem_of_cons. right. apply elem_of_cons. left.
  reflexivity.
Defined.

Lemma execute_validates_with_its_own_address_witness :
  exists body rest,
    (run (service (JObj spoofing_fields))
         (always 200 (Json rejected_body_no_checks))).2
    = Sent (build_request (demo_session Client) "POST" "/validate"
              (Some (JObj body))) :: rest
    /\ body !! "from" = Some (JStr "0xA")
    /\ body !! "chainId" = Some (JInt 8453)
    /\ body !! "to" = Some (default JNull (spoofing_fields !! "to"))
    /\ body !! "data"
       = Some (default (JStr "0x") (spoofing_fields !! "data"))
    /\ body !! "value"
       = Some (default (JStr "0") (spoofing_fields !! "value")).
Proof.
  exact (execute_validates_with_its_own_address
           (H := strict) signer_client "0xA" accepting_checksum
           (fun _ => Return 0) (Return 1000000) (fun _ => Return 7)
           (fun _ => Return "0xf86b") (fun _ => Return "0x5c50")
           (fun _ => EmptyString) (fun _ _ => "validation error")
           spoofing_fields (always 200 (Json rejected_body_no_checks))
           eq_refl).
Defined.

Lemma execute_answers_200_only_after_a_broadcast_witness :
  exists rq raw,
    [Sent validate_request_of_transfer; Broadcast "0xf86b"]
    = [Sent rq; Broadcast raw].
Proof.
  destruct (execute_answers_200_only_after_a_broadcast
              (H := strict) signer_client "0xA" accepting_checksum
              (fun _ => Return 0) (Return 1000000) (fun _ => Return 7)
              (fun _ => Return "0xf86b") (fun _ => Return "0x5c50")
              (fun _ => EmptyString) (fun _ _ => "validation error")
              (JObj transfer_fields)
              (always 200 (Json approved_body_no_checks))
              transfer_sent
              [Sent validate_request_of_transfer; Broadcast "0xf86b"]
              ltac:(vm_compute; reflexivity))
    as (body & _ & [(_ & _ & Htr) | [(Hs & _) | (Hs & _)]]).
  - exact Htr.
  - discriminate Hs.
  - discriminate Hs.
Defined.

Lemma execute_reports_client_errors_with_their_code_witness :
  run (service (JObj transfer_fields))
      (always 429 (Json (JObj {[ "error" := JStr "quota exceeded" ]})))
  = (Return {| FlaskResponse.status := 500;
               FlaskResponse.payload :=
                 JObj {[ "success" := JBool false;
                         "error" := JStr "[API_ERROR] quota exceeded" ]} |},
     [Sent validate_request_of_transfer]).
Proof.
  exact (execute_reports_client_errors_with_their_code
           (H := strict) signer_client "0xA" accepting_checksum
           (fun _ => Return 0) (Return 1000000) (fun _ => Return 7)
           (fun _ => Return "0xf86b") (fun _ => Return "0x5c50")
           (fun _ => EmptyString) (fun _ _ => "validation error")
           transfer_fields
           (always 429 (Json (JObj {[ "error" := JStr "quota exceeded" ]})))
           {| ProofGateError.message := JStr "quota exceeded";
              ProofGateError.code := "API_ERROR";
              ProofGateError.status_code := Some 429;
              ProofGateError.validation_result := None |}
           "quota exceeded" [Sent validate_request_of_transfer]
           eq_refl eq_refl eq_refl).
Defined.

(** ** Starting the service *)

Section signer_startup_runs.
Variable py_int : string -> outcome Z.
Variable from_key : string -> outcome string.

Lemma startup_run (environ : gmap string string) net :
  run (startup py_int from_key environ) net
  = match (match environ !! "PORT" with
           | Some s => py_int s
           | None => Return 3000
           end) with
    | Raise e => (Raise e, [])
    | Return port =>
        if env_unset (environ !! "PRIVATE_KEY") then
          (Raise private_key_required, [])
        else if env_unset (environ !! "PROOFGATE_API_KEY") then
          (Raise api_key_required, [])
        else
          let key := default EmptyString (environ !! "PROOFGATE_API_KEY") in
          let pk := default EmptyString (environ !! "PRIVATE_KEY") in
          if String.prefix "pg_" key then
            match httpx_rejects net key None None with
            | Some e => (Raise e, [])
            | None =>
                let ses := built_session Client key None None in
                (match from_key pk with
                 | Return address =>
                     Return {| Service.PORT := port;
                               Service.RPC_URL :=
                                 default "https://mainnet.base.org"
                                   (environ !! "RPC_URL");
                               Service.proofgate :=
                                 {| ProofGate.config :=
                                      built_config key None (Some 8453) None None;
                                    ProofGate._client := ses |};
                               Service.account_address := address |}
                 | Raise e => Raise e
                 end, [Opened ses])
            end
          else (Raise invalid_api_key, [])
    end.
Proof.
  unfold startup. rewrite run_bind.
  assert (Hport :
    run (match environ !! "PORT" with
         | Some s => lift (py_int s)
         | None => mret 3000
         end) net
    = (match environ !! "PORT" with
       | Some s => py_int s
       | None => Return 3000
       end, [])).
  { destruct (environ !! "PORT"); reflexivity. }
  rewrite Hport.
  destruct (match environ !! "PORT" with
            | Some s => py_int s
            | None => Return 3000
            end) as [port | e]; [| reflexivity].
  cbv beta iota zeta.
  destruct (env_unset (environ !! "PRIVATE_KEY")); [reflexivity |].
  destruct (env_unset (environ !! "PROOFGATE_API_KEY")) eqn:Hkey;
    [reflexivity |].
  rewrite run_bind, sync_init_run.
  assert (Hne : String.eqb (default EmptyString
                              (environ !! "PROOFGATE_API_KEY")) EmptyString
                = false).
  { destruct (environ !! "PROOFGATE_API_KEY"); [exact Hkey | discriminate Hkey]. }
  rewrite Hne.
  destruct (String.prefix "pg_" _); [| reflexivity].
  cbv zeta. destruct (httpx_rejects net _ None None); [reflexivity |].
  rewrite run_bind, run_lift.
  destruct (from_key _); reflexivity.
Qed.

(** X23. A service that started holds both secrets.  Whenever the
    module level completes, [PRIVATE_KEY] and [PROOFGATE_API_KEY] were
    set to non-empty strings, the API key starts with [pg_], the
    service's address is the one derived from the private key, its
    client validates on chain 8453 with that API key, and exactly one
    HTTP session was opened; the port is 3000 and the RPC URL
    [https://mainnet.base.org] unless the environment names others. *)
Theorem started_service_holds_both_secrets
    (environ : gmap string string) net st tr :
  run (startup py_int from_key environ) net = (Return st, tr) ->
  exists pk key,
    environ !! "PRIVATE_KEY" = Some pk /\ pk <> EmptyString
    /\ environ !! "PROOFGATE_API_KEY" = Some key
    /\ String.prefix "pg_" key = true
    /\ from_key pk = Return (Service.account_address st)
    /\ ProofGateConfig.api_key (ProofGate.config (Service.proofgate st)) = key
    /\ ProofGateConfig.chain_id (ProofGate.config (Service.proofgate st)) = 8453
    /\ tr = [Opened (ProofGate._client (Service.proofgate st))]
    /\ (environ !! "PORT" = None -> Service.PORT st = 3000)
    /\ Service.RPC_URL st
       = default "https://mainnet.base.org" (environ !! "RPC_URL").
Proof.
  rewrite startup_run. intros Hrun.
  destruct (environ !! "PORT") as [s |] eqn:Hport.
  - destruct (py_int s) as [port | e]; [| discriminate Hrun].
    destruct (environ !! "PRIVATE_KEY") as [pk |] eqn:Hpk;
      [| discriminate Hrun].
    cbn [env_unset] in Hrun.
    destruct (String.eqb pk EmptyString) eqn:Hpk0; [discriminate Hrun |].
    destruct (environ !! "PROOFGATE_API_KEY") as [key |] eqn:Hkey;
      [| discriminate Hrun].
    cbn [env_unset] in Hrun.
    destruct (String.eqb key EmptyString); [discriminate Hrun |].
    cbv zeta in Hrun. cbn [default from_option id] in Hrun.
    destruct (String.prefix "pg_" key) eqn:Hpre; [| discriminate Hrun].
    destruct (httpx_rejects net key None None); [discriminate Hrun |].
    destruct (from_key pk) as [address |] eqn:Hfrom; [| discriminate Hrun].
    injection Hrun as <- <-.
    exists pk, key. apply String.eqb_neq in Hpk0.
    repeat split; try assumption; try reflexivity. discriminate.
  - destruct (environ !! "PRIVATE_KEY") as [pk |] eqn:Hpk;
      [| discriminate Hrun].
    cbn [env_unset] in Hrun.
    destruct (String.eqb pk EmptyString) eqn:Hpk0; [discriminate Hrun |].
    destruct (environ !! "PROOFGATE_API_KEY") as [key |] eqn:Hkey;
      [| discriminate Hrun].
    cbn [env_unset] in Hrun.
    destruct (String.eqb key EmptyString); [discriminate Hrun |].
    cbv zeta in Hrun. cbn [default from_option id] in Hrun.
    destruct (String.prefix "pg_" key) eqn:Hpre; [| discriminate Hrun].
    destruct (httpx_rejects net key None None); [discriminate Hrun |].
    destruct (from_key pk) as [address |] eqn:Hfrom; [| discriminate Hrun].
    injection Hrun as <- <-.
    exists pk, key. apply String.eqb_neq in Hpk0.
    repeat split; try assumption; reflexivity.
Qed.

(** X24. The module level fails fast and in a fixed order.  Once the
    port is read: an unset or empty [PRIVATE_KEY] raises [ValueError]
    naming it, whatever the API key is; with the private key set, an
    unset or empty [PROOFGATE_API_KEY] raises [ValueError] naming it, and
    an API key that does not start with [pg_] raises the constructor's
    [INVALID_API_KEY] error.  In all three cases nothing was opened. *)
Theorem startup_fails_fast (environ : gmap string string) net port :
  match environ !! "PORT" with
  | Some s => py_int s
  | None => Return 3000
  end = Return port ->
  (env_unset (environ !! "PRIVATE_KEY") = true ->
   run (startup py_int from_key environ) net
   = (Raise private_key_required, []))
  /\
  (env_unset (environ !! "PRIVATE_KEY") = false ->
   env_unset (environ !! "PROOFGATE_API_KEY") = true ->
   run (startup py_int from_key environ) net
   = (Raise api_key_required, []))
  /\
  (forall key,
     env_unset (environ !! "PRIVATE_KEY") = false ->
     environ !! "PROOFGATE_API_KEY" = Some key ->
     key <> EmptyString ->
     String.prefix "pg_" key = false ->
     run (startup py_int from_key environ) net = (Raise invalid_api_key, [])).
Proof.
  intros Hport. rewrite startup_run, Hport.
  split; [| split].
  - intros ->. reflexivity.
  - intros -> ->. reflexivity.
  - intros key -> Hkey Hne Hpre. rewrite Hkey. cbn [env_unset].
    apply String.eqb_neq in Hne. rewrite Hne.
    cbv zeta. cbn [default from_option id]. rewrite Hpre. reflexivity.
Qed.
End signer_startup_runs.

Lemma started_service_holds_both_secrets_witness :
  exists pk key,
    full_environ !! "PRIVATE_KEY" = Some pk /\ pk <> EmptyString
    /\ full_environ !! "PROOFGATE_API_KEY" = Some key
    /\ String.prefix "pg_" key = true
    /\ address_0xA pk = Return "0xA"
    /\ ProofGateConfig.api_key (ProofGate.config signer_client) = key
    /\ ProofGateConfig.chain_id (ProofGate.config signer_client) = 8453
    /\ [Opened (demo_session Client)]
       = [Opened (ProofGate._client signer_client)]
    /\ (full_environ !! "PORT" = None -> 3000 = 3000)
    /\ "https://mainnet.base.org"
       = default "https://mainnet.base.org" (full_environ !! "RPC_URL").
Proof.
  exact (started_service_holds_both_secrets no_int address_0xA full_environ
           (always 200 (Json approved_body))
           {| Service.PORT := 3000;
              Service.RPC_URL := "https://mainnet.base.org";
              Service.proofgate := signer_client;
              Service.account_address := "0xA" |}
           [Opened (demo_session Client)] eq_refl).
Defined.

Lemma startup_fails_fast_witness :
  run (startup no_int address_0xA environ_without_private_key)
      (always 200 (Json approved_body))
  = (Raise private_key_required, []).
Proof.
  exact (proj1 (startup_fails_fast no_int address_0xA
                  environ_without_private_key
                  (always 200 (Json approved_body)) 3000 eq_refl)
               eq_refl).
Defined.

(** * Further properties of [validate] and of the schemas *)


(** X26. The [result] of a verdict is one of three spellings.  A body
    whose [result] is a string other than ["PASS"], ["FAIL"] and
    ["PENDING"] -- another case, another word -- or is not a string at
    all is rejected by [ValidateResponse], whatever else it holds. *)
Theorem ValidateResponse_rejects_other_results `{Pydantic}
    (m : gmap string json) v :
  m !! "result" = Some v ->
  (forall s, v = JStr s -> s ∉ Verdict_spellings) ->
  ValidateResponse.model_validate (JObj m) = None.
Proof.
  intros Hv Hother.
  destruct (ValidateResponse.model_validate (JObj m)) as [r |] eqn:Hm;
    [exfalso | reflexivity].
  destruct (model_validate_matches _ _ Hm) as (m' & [= <-] & _ & Hr & _).
  rewrite Hv in Hr. injection Hr as ->.
  apply (Hother _ eq_refl). unfold Verdict_spellings.
  destruct (ValidateResponse.result r); cbn; set_solver.
Qed.

Lemma ValidateResponse_rejects_other_results_witness :
  ValidateResponse.model_validate (H := strict) (JObj lowercase_result_body)
  = None.
Proof.
  apply (ValidateResponse_rejects_other_results (H := strict)
           lowercase_result_body (JStr "pass")).
  - vm_compute. reflexivity.
  - intros s [= <-] Hin. unfold Verdict_spellings in Hin.
    repeat (apply elem_of_cons in Hin;
            destruct Hin as [Hin | Hin]; [discriminate Hin |]).
    apply not_elem_of_nil in Hin. exact Hin.
Defined.

(** X27. An evidence record is nested.  A body that
    [EvidenceResponse] accepts as [r] holds JSON objects under
    [transaction], [result], [agent] and [proof]; the sender of the
    recorded transaction is read from the [from] key of [transaction]
    (or, failing that, from [from_address]), its target, calldata and
    value from [to], [data] and [value], all of them strings. *)
Theorem EvidenceResponse_reads_nested_objects `{Pydantic}
    (m : gmap string json) r :
  EvidenceResponse.model_validate (JObj m) = Some r ->
  (exists mt : gmap string json,
     m !! "transaction" = Some (JObj mt)
     /\ lookup_field mt "from" "from_address"
        = Some (JStr (EvidenceTransaction.from_address
                        (EvidenceResponse.transaction r)))
     /\ mt !! "to"
        = Some (JStr (EvidenceTransaction.to (EvidenceResponse.transaction r)))
     /\ mt !! "data"
        = Some (JStr (EvidenceTransaction.data
                        (EvidenceResponse.transaction r)))
     /\ mt !! "value"
        = Some (JStr (EvidenceTransaction.value
                        (EvidenceResponse.transaction r))))
  /\ (exists mr : gmap string json, m !! "result" = Some (JObj mr))
  /\ (exists ma : gmap string json, m !! "agent" = Some (JObj ma))
  /\ (exists mp : gmap string json, m !! "proof" = Some (JObj mp)).
Proof.
  intros Hm. unfold EvidenceResponse.model_validate in Hm.
  repeat first [invert_required Hm | invert_defaulted Hm].
  injection Hm as <-. cbn. rewrite lookup_field_same in *.
  split; [| split; [| split]].
  - destruct v2 as [| | | | | | mt]; try discriminate Hf2.
    exists mt. split; [exact Hl2 |].
    unfold EvidenceTransaction.model_validate in Hf2.
    repeat invert_required Hf2. injection Hf2 as <-. cbn.
    rewrite lookup_field_same in *.
    repeat match goal with
           | Hs : str_validator _ = Some _ |- _ =>
               apply str_validator_Some in Hs; subst
           end.
    repeat split; assumption.
  - destruct v3 as [| | | | | | mr]; try discriminate Hf3. eauto.
  - destruct v4 as [| | | | | | ma]; try discriminate Hf4. eauto.
  - destruct v5 as [| | | | | | mp]; try discriminate Hf5. eauto.
Qed.

Lemma EvidenceResponse_reads_nested_objects_witness :
  exists mt : gmap string json,
    evidence_body !! "transaction" = Some (JObj mt)
    /\ lookup_field mt "from" "from_address" = Some (JStr "0xA")
    /\ mt !! "to" = Some (JStr "0xB")
    /\ mt !! "data" = Some (JStr "0xa9059cbb")
    /\ mt !! "value" = Some (JStr "0").
Proof.
  exact (proj1 (EvidenceResponse_reads_nested_objects (H := strict)
                  evidence_body evidence ltac:(vm_compute; reflexivity))).
Defined.
